(** * GoMode dashboard (src/app.py): the data pipeline, embedded and verified

    The program is a Streamlit script over one pandas DataFrame.  The
    embedding keeps its shape:

    - a cell is a dynamically typed [value] (text, float64, integer, boolean,
      timestamp), with pandas' missing markers [NaN] and [NaT];
    - a [DataFrame] is a header (the list of column names, in order) and a
      list of rows; [df.[c]] fails with [KeyError] when [c] is not in the
      header, as [df[c]] does;
    - a Series is the list of the cells of one column; the Series operations
      the script uses ([pd.to_datetime], [-], [.dt.days], [.str.lower],
      [.str.contains], [.fillna], [.where], [.mean], [.sort_values], [.head],
      [.groupby]) are list functions;
    - what the script leaves to Python, numpy and pandas (Unicode case
      mapping, the datetime parser, float summation, the unstable default
      sort) is a field of the class [Library]: the theorems hold for every
      instance, and the examples run on the instance [Demo.lib].

    float64 is [spec_float] at precision 53: NaN is a real value there, and
    comparisons with it are false, as in IEEE 754.

    Scope.  Timestamps are time-zone naive and held as unbounded integers
    (pandas keeps them in int64).  The arithmetic the script does on a column
    is modelled on the cells such a column holds after [read_csv]: numbers
    for amounts and flags, text for dates and statuses; a text cell in a
    mean or a sum reads as NaN. *)

From Stdlib Require Import List String Ascii ZArith Bool Arith Lia.
From Stdlib Require Import Permutation.
From Stdlib Require Import Floats.SpecFloat.
Import ListNotations.

Local Open Scope string_scope.
Local Open Scope list_scope.

(* ------------------------------------------------------------------------- *)
(** ** float64 *)

Module F64.
Definition float := spec_float.
Definition prec : Z := 53.
Definition emax : Z := 1024.

Definition nan : float := S754_nan.
Definition zero : float := S754_zero false.
(** [float(n)] for a Python int: rounded to nearest even. *)
Definition of_Z (n : Z) : float := binary_normalize prec emax n 0 false.
Definition add : float -> float -> float := SFadd prec emax.
Definition div : float -> float -> float := SFdiv prec emax.
Definition ltb : float -> float -> bool := SFltb.
Definition leb : float -> float -> bool := SFleb.
Definition eqb : float -> float -> bool := SFeqb.
Definition is_nan (x : float) : bool :=
  match x with S754_nan => true | _ => false end.
End F64.

Abbreviation float := F64.float.

(* ------------------------------------------------------------------------- *)
(** ** Cells, rows, frames *)

(** A Python [str] is held as its UTF-8 bytes: substring containment and
    lexicographic order on the bytes agree with those on code points. *)
Inductive value : Type :=
| VStr (s : string)
| VNum (x : float)          (* float64; [VNum nan] is NaN, the missing marker *)
| VInt (n : Z)              (* int64 cell, or an integral count *)
| VBool (b : bool)
| VTimestamp (t : Z)        (* datetime64[ns]: nanoseconds since the epoch *)
| VTimedelta (d : Z)        (* timedelta64[ns] *)
| VNaT.

Definition NaN : value := VNum F64.nan.

(** [pd.isna] on one cell. *)
Definition isna (v : value) : bool :=
  match v with
  | VNum x => F64.is_nan x
  | VNaT => true
  | _ => false
  end.

Definition notna (v : value) : bool := negb (isna v).

Definition Row : Type := string -> value.

(** [row[c] = v] *)
Definition upd (r : Row) (c : string) (v : value) : Row :=
  fun k => if String.eqb k c then v else r k.

Record DataFrame : Type := mkDF {
  columns : list string;
  rows : list Row
}.

Definition Series : Type := list value.

Inductive pyerror : Type :=
| KeyError (key : string)
| AttributeError (msg : string)
| ValueError (msg : string).

Inductive result (A : Type) : Type :=
| Ok (a : A)
| Err (e : pyerror).
Arguments Ok {A} a.
Arguments Err {A} e.

Definition bind {A B} (m : result A) (k : A -> result B) : result B :=
  match m with
  | Ok a => k a
  | Err e => Err e
  end.

Notation "x <- m ;; k" := (bind m (fun x => k))
  (at level 61, m at next level, right associativity).

(** [c in df.columns] *)
Definition has_col (df : DataFrame) (c : string) : bool :=
  existsb (String.eqb c) (columns df).

(** [df[c]] *)
Definition col (df : DataFrame) (c : string) : result Series :=
  if has_col df c then Ok (map (fun r => r c) (rows df)) else Err (KeyError c).

Notation "df .[ c ]" := (col df c) (at level 1, left associativity, format "df .[ c ]").

Fixpoint zip_upd (c : string) (rs : list Row) (s : Series) : list Row :=
  match rs, s with
  | r :: rs', v :: s' => upd r c v :: zip_upd c rs' s'
  | _, _ => rs
  end.

(** [df[c] = s]: a new column is appended to the header, an existing one is
    overwritten in place.  The Series the script assigns are all computed from
    columns of the same frame, so they have one cell per row. *)
Definition set_col (df : DataFrame) (c : string) (s : Series) : DataFrame :=
  {| columns := if has_col df c then columns df else columns df ++ [c];
     rows := zip_upd c (rows df) s |}.

(** [df[c] = v] for a scalar [v], broadcast to every row. *)
Definition set_scalar (df : DataFrame) (c : string) (v : value) : DataFrame :=
  {| columns := if has_col df c then columns df else columns df ++ [c];
     rows := map (fun r => upd r c v) (rows df) |}.

(* ------------------------------------------------------------------------- *)
(** ** What the script takes from Python, numpy and pandas *)

Class Library : Type := {
  (** [str.lower] (Unicode case mapping) *)
  str_lower : string -> string;
  (** [str.strip] (Unicode white space) *)
  str_strip : string -> string;
  (** the datetime parser behind [pd.to_datetime] on one present cell:
      nanoseconds since the epoch, or [None] when the cell does not parse *)
  parse_datetime : value -> option Z;
  (** numpy's float64 summation (its order of additions is its own) *)
  fsum : list float -> float;
  (** numpy's [argsort(kind='quicksort')] on NaN-free keys, ascending; the
      order it gives to equal keys is its own *)
  argsort : list value -> list nat
}.

(* ------------------------------------------------------------------------- *)
(** ** Series operations *)

(** [needle in s] for Python strings. *)
Fixpoint contains (s needle : string) : bool :=
  if String.prefix needle s then true
  else match s with
       | EmptyString => false
       | String _ s' => contains s' needle
       end.

Definition ns_per_day : Z := 86400000000000.

Definition is_empty {A} (l : list A) : bool :=
  match l with [] => true | _ => false end.

Definition is_str (v : value) : bool :=
  match v with VStr _ => true | _ => false end.

(** [s.str]: the accessor is refused on a column that holds no text.
    ([read_csv] types a column without any text as numeric or boolean, and
    a frame without rows as object.) *)
Definition str_accessor (s : Series) : result Series :=
  if is_empty s || existsb is_str s then Ok s
  else Err (AttributeError "Can only use .str accessor with string values!").

Section SeriesOps.
Context {L : Library}.

(** One cell of [pd.to_datetime(s, errors='coerce')]. *)
Definition to_datetime1 (v : value) : value :=
  if isna v then VNaT
  else match parse_datetime v with
       | Some t => VTimestamp t
       | None => VNaT
       end.

Definition to_datetime (s : Series) : Series := map to_datetime1 s.

(** One cell of [a - b] on datetime Series.  The operands the script
    subtracts are outputs of [to_datetime].  A timestamp of the model is an
    instant without a time zone, and the difference is exact: pandas refuses
    (TypeError) to subtract a column with a zone from one without, and
    raises beyond 64 bits: the files modelled are those whose dates carry
    no zone. *)
Definition sub1 (a b : value) : value :=
  match a, b with
  | VTimestamp x, VTimestamp y => VTimedelta (x - y)
  | _, _ => VNaT
  end.

Fixpoint map2 {A B C} (f : A -> B -> C) (l1 : list A) (l2 : list B) : list C :=
  match l1, l2 with
  | a :: l1', b :: l2' => f a b :: map2 f l1' l2'
  | _, _ => []
  end.

Definition sub (a b : Series) : Series := map2 sub1 a b.

(** One cell of [.dt.days]: the days component of a timedelta is the floor
    of the division by one day; NaT gives NaN. *)
Definition days1 (v : value) : value :=
  match v with
  | VTimedelta d => VInt (d / ns_per_day)
  | _ => NaN
  end.

Definition dt_days (s : Series) : Series := map days1 s.

(** One cell of [.str.lower()]: NaN where the cell is not a string. *)
Definition lower1 (v : value) : value :=
  match v with
  | VStr s => VStr (str_lower s)
  | _ => NaN
  end.

Definition str_lower_s (s : Series) : Series := map lower1 s.

(** One cell of [.str.contains(pat)].  The two patterns of the script,
    "livré" and "retour", have no regular-expression metacharacter, so the
    search is for the literal text.  On a cell that is not text the flag is
    missing, as pandas 2 leaves it on an object column (on its [str] columns
    pandas 3 gives False there); the properties stated of such a flag are
    those the two share: it is not True. *)
Definition contains1 (pat : string) (v : value) : value :=
  match v with
  | VStr s => VBool (contains s pat)
  | _ => NaN
  end.

Definition str_contains (s : Series) (pat : string) : Series :=
  map (contains1 pat) s.

(** One cell of [.fillna(0)]. *)
Definition fillna0 (v : value) : value := if isna v then VInt 0 else v.

Definition fillna_0 (s : Series) : Series := map fillna0 s.

(** One cell of [s.where(cond, 0)]: the cell is kept where the condition
    is True; a missing condition counts as False. *)
Definition where1 (v cond : value) : value :=
  match cond with
  | VBool true => v
  | _ => VInt 0
  end.

Definition where_0 (s cond : Series) : Series := map2 where1 s cond.

(** ** load_data (src/app.py, lines 29-52)

    [csv] is the frame [pd.read_csv("merged_yalidine.csv")] returned. *)

(** Lines 33-39: the date columns. *)
Definition normalize_dates (csv : DataFrame) : result DataFrame :=
  let df := csv in
  s <- df.["date_creation"] ;;
  let df := set_col df "date_creation" (to_datetime s) in
  s <- df.["date_expedition"] ;;
  let df := set_col df "date_expedition" (to_datetime s) in
  s <- df.["date_last_status"] ;;
  let df := set_col df "date_last_status" (to_datetime s) in
  if has_col df "Date de commande" then
    s <- df.["Date de commande"] ;;
    Ok (set_col df "date_commande" (to_datetime s))
  else
    Ok (set_scalar df "date_commande" VNaT).

(** Lines 41-51: the derived columns. *)
Definition derive_features (df : DataFrame) : result DataFrame :=
  a <- df.["date_creation"] ;; b <- df.["date_commande"] ;;
  let df := set_col df "commande_to_creation_days" (dt_days (sub a b)) in
  a <- df.["date_expedition"] ;; b <- df.["date_commande"] ;;
  let df := set_col df "commande_to_expedition_days" (dt_days (sub a b)) in
  a <- df.["date_last_status"] ;; b <- df.["date_commande"] ;;
  let df := set_col df "commande_to_last_status_days" (dt_days (sub a b)) in
  s <- df.["last_status"] ;; s <- str_accessor s ;;
  low <- str_accessor (str_lower_s s) ;;
  let df := set_col df "delivered" (str_contains low "livré") in
  s <- df.["last_status"] ;; s <- str_accessor s ;;
  low <- str_accessor (str_lower_s s) ;;
  let df := set_col df "returned" (str_contains low "retour") in
  a <- df.["date_last_status"] ;; b <- df.["date_expedition"] ;;
  let df := set_col df "delivery_delay_days" (dt_days (sub a b)) in
  a <- df.["date_expedition"] ;; b <- df.["date_creation"] ;;
  let df := set_col df "processing_time_days" (dt_days (sub a b)) in
  s <- df.["Montant total de la commande"] ;;
  let df := set_col df "revenue" (fillna_0 s) in
  s <- df.["revenue"] ;; c <- df.["returned"] ;;
  let df := set_col df "lost_revenue" (where_0 s c) in
  s <- df.["revenue"] ;; c <- df.["delivered"] ;;
  let df := set_col df "success_revenue" (where_0 s c) in
  s <- df.["has_recouvrement"] ;;
  let df := set_col df "has_recouvrement" (fillna_0 s) in
  Ok df.

Definition load_data (csv : DataFrame) : result DataFrame :=
  df <- normalize_dates csv ;;
  derive_features df.

End SeriesOps.

(* ------------------------------------------------------------------------- *)
(** ** The process-wide cache ([@st.cache_data], line 29)

    Streamlit reruns the script on every interaction; the decorator keeps the
    frame [load_data] returned and hands it out again (a call that raised
    stores nothing).  The store is the only state of the program: it is
    passed explicitly. *)

Definition cache_data : Type := option DataFrame.

Definition load_data_cached {L : Library} (csv : DataFrame) (cache : cache_data)
  : result DataFrame * cache_data :=
  match cache with
  | Some df => (Ok df, cache)
  | None =>
      match load_data csv with
      | Ok df => (Ok df, Some df)
      | Err e => (Err e, None)
      end
  end.

(* ------------------------------------------------------------------------- *)
(** ** Aggregates *)

(** The float a numeric cell stands for ([True] is 1, [False] is 0). *)
Definition as_float (v : value) : float :=
  match v with
  | VNum x => x
  | VInt n => F64.of_Z n
  | VBool true => F64.of_Z 1
  | VBool false => F64.zero
  | _ => F64.nan
  end.

(** [.mean()] (pandas' nanmean): missing cells are skipped; they are set to
    0 for the sum and left out of the count, and the mean of no value at all
    is NaN. *)
Definition mean {L : Library} (s : Series) : float :=
  let count := List.length (filter notna s) in
  let the_sum := fsum (map (fun v => if isna v then F64.zero else as_float v) s) in
  if (0 <? count)%nat then F64.div the_sum (F64.of_Z (Z.of_nat count))
  else F64.nan.

(** [x > n] for a float64 [x] and an int literal [n]. *)
Definition gt (x : float) (n : Z) : bool := F64.ltb (F64.of_Z n) x.

(** [.count()]: the cells that are present. *)
Definition count (s : Series) : value :=
  VInt (Z.of_nat (List.length (filter notna s))).

(** [.sum()] (pandas' nansum). *)
Definition sum_v {L : Library} (s : Series) : value :=
  VNum (fsum (map (fun v => if isna v then F64.zero else as_float v) s)).

Definition mean_v {L : Library} (s : Series) : value := VNum (mean s).

(* ------------------------------------------------------------------------- *)
(** ** Insights (lines 120-126, and again 246-252) *)

Definition slow_processing : string :=
  "Order processing is slow. Consider optimizing warehouse or admin processes.".
Definition slow_shipping : string :=
  "Shipping times are high. Investigate courier or route efficiency.".
Definition no_bottleneck : string :=
  "No major bottlenecks detected. Keep monitoring for improvements!".

Definition insights {L : Library} (df : DataFrame) : result (list string) :=
  let insights := [] in
  p <- df.["processing_time_days"] ;;
  let insights :=
    if gt (mean p) 1 then insights ++ [slow_processing] else insights in
  d <- df.["delivery_delay_days"] ;;
  let insights :=
    if gt (mean d) 2 then insights ++ [slow_shipping] else insights in
  let insights :=
    if is_empty insights then insights ++ [no_bottleneck] else insights in
  Ok insights.

(* ------------------------------------------------------------------------- *)
(** ** Sorting: [sort_values(..., ascending=False)] and [head] *)

(** [l[idx]] (numpy fancy indexing; positions out of range, which a
    permutation does not have, are dropped). *)
Definition reorder {A} (idx : list nat) (l : list A) : list A :=
  flat_map (fun i => match nth_error l i with Some x => [x] | None => [] end) idx.

(** pandas' [nargsort(items, kind='quicksort', ascending=False,
    na_position='last')]: the keys that are present are reversed, sorted
    ascending by [argsort], and the result is reversed again; the positions of
    the missing keys follow, in input order. *)
Definition nargsort_desc {L : Library} (items : Series) : list nat :=
  let idx := seq 0 (List.length items) in
  let non_nan_idx := filter (fun i => notna (nth i items NaN)) idx in
  let nan_idx := filter (fun i => isna (nth i items NaN)) idx in
  let non_nans := rev (map (fun i => nth i items NaN) non_nan_idx) in
  let non_nan_idx := rev non_nan_idx in
  let indexer := reorder (argsort non_nans) non_nan_idx in
  let indexer := rev indexer in
  indexer ++ nan_idx.

(** The keys [nargsort_desc] hands to [argsort]. *)
Definition sort_input (items : Series) : Series := rev (filter notna items).

Definition sort_values_desc {L : Library} (df : DataFrame) (by_ : string)
  : result DataFrame :=
  k <- df.[by_] ;;
  Ok {| columns := columns df; rows := reorder (nargsort_desc k) (rows df) |}.

Definition head (n : nat) (df : DataFrame) : DataFrame :=
  {| columns := columns df; rows := firstn n (rows df) |}.

(** Lines 103-106 (line 238 is the second branch alone). *)
Definition slow_orders {L : Library} (df : DataFrame) : result DataFrame :=
  if has_col df "total_fulfillment_days" then
    s <- sort_values_desc df "total_fulfillment_days" ;; Ok (head 10 s)
  else
    s <- sort_values_desc df "delivery_delay_days" ;; Ok (head 10 s).

(** The column [slow_orders] sorts by. *)
Definition slow_key (df : DataFrame) : string :=
  if has_col df "total_fulfillment_days" then "total_fulfillment_days"
  else "delivery_delay_days".

(* ------------------------------------------------------------------------- *)
(** ** Grouping *)

Definition value_eq_dec (a b : value) : {a = b} + {a <> b}.
Proof.
  decide equality; try apply Z.eq_dec; try apply bool_dec; try apply string_dec.
  decide equality; try apply Z.eq_dec; try apply bool_dec; try apply Pos.eq_dec.
Defined.

Definition value_eqb (a b : value) : bool :=
  if value_eq_dec a b then true else false.

(** The order of group keys: numbers before text, text by code point. *)
Definition key_leb (a b : value) : bool :=
  match a, b with
  | VStr x, VStr y => String.leb x y
  | VInt x, VInt y => Z.leb x y
  | VStr _, _ => false
  | _, VStr _ => true
  | _, _ => F64.leb (as_float a) (as_float b)
  end.

Fixpoint insert_by {A} (leb : A -> A -> bool) (x : A) (l : list A) : list A :=
  match l with
  | [] => [x]
  | y :: l' => if leb x y then x :: l else y :: insert_by leb x l'
  end.

Definition isort {A} (leb : A -> A -> bool) (l : list A) : list A :=
  fold_right (insert_by leb) [] l.

(** The keys of [groupby] (defaults [sort=True], [dropna=True]): the distinct
    present cells of the key column, sorted. *)
Definition group_keys (keys : Series) : list value :=
  isort key_leb (nodup value_eq_dec (filter notna keys)).

(** The rows of the group of key [k]. *)
Definition group (df : DataFrame) (by_ : string) (k : value) : list Row :=
  filter (fun r => value_eqb (r by_) k) (rows df).

(** One named aggregation, [out=(column, function)]. *)
Record named_agg : Type := mkAgg {
  agg_out : string;
  agg_col : string;
  agg_fun : Series -> value
}.

Definition empty_row : Row := fun _ => NaN.

Definition agg_row (by_ : string) (aggs : list named_agg) (k : value) (g : list Row) : Row :=
  fold_left (fun r a => upd r (agg_out a) (agg_fun a (map (fun x => x (agg_col a)) g)))
            aggs (upd empty_row by_ k).

Fixpoint check_cols (df : DataFrame) (cs : list string) : result unit :=
  match cs with
  | [] => Ok tt
  | c :: cs' => _ <- df.[c] ;; check_cols df cs'
  end.

(** [df.groupby(by).agg(...)]: one row per key; the key is the index of the
    result and is kept in the row under the name [by_]. *)
Definition groupby_agg (df : DataFrame) (by_ : string) (aggs : list named_agg)
  : result DataFrame :=
  keys <- df.[by_] ;;
  _ <- check_cols df (map agg_col aggs) ;;
  Ok {| columns := map agg_out aggs;
        rows := map (fun k => agg_row by_ aggs k (group df by_ k)) (group_keys keys) |}.

(** [.reset_index()]: the index becomes the first column. *)
Definition reset_index (by_ : string) (df : DataFrame) : DataFrame :=
  {| columns := by_ :: columns df; rows := rows df |}.

(** Lines 139-143. *)
Definition wilaya_stats {L : Library} (df : DataFrame) : result DataFrame :=
  g <- groupby_agg df "to_wilaya_name"
         [ mkAgg "orders" "order_id" count;
           mkAgg "revenue" "success_revenue" sum_v;
           mkAgg "return_rate" "returned" mean_v ] ;;
  Ok (reset_index "to_wilaya_name" g).

(** [.query("orders > 10")] on one row. *)
Definition orders_gt_10 (r : Row) : bool :=
  match r "orders" with
  | VInt n => (10 <? n)%Z
  | v => gt (as_float v) 10
  end.

Definition query_orders_gt_10 (df : DataFrame) : DataFrame :=
  {| columns := columns df; rows := filter orders_gt_10 (rows df) |}.

(** Lines 180-183: the groups of the high-risk report, before the filter. *)
Definition risk_groups {L : Library} (df : DataFrame) : result DataFrame :=
  groupby_agg df "to_wilaya_name"
    [ mkAgg "return_rate" "returned" mean_v;
      mkAgg "rec_rate" "has_recouvrement" mean_v;
      mkAgg "orders" "order_id" count ].

(** Lines 180-184. *)
Definition risk_df {L : Library} (df : DataFrame) : result DataFrame :=
  g <- risk_groups df ;;
  sort_values_desc (query_orders_gt_10 g) "return_rate".

(* ------------------------------------------------------------------------- *)
(** ** Most returned products (lines 155-163) *)

(** [re.sub(r"[’']", "'", s)]: the right single quotation mark (U+2019, the
    bytes E2 80 99) becomes an apostrophe. *)
Fixpoint sub_quotes (s : string) : string :=
  match s with
  | EmptyString => EmptyString
  | String a t =>
      match t with
      | String b (String c rest) =>
          if (Ascii.eqb a "226" && Ascii.eqb b "128" && Ascii.eqb c "153")%bool
          then String "'" (sub_quotes rest)
          else String a (sub_quotes t)
      | _ => String a (sub_quotes t)
      end
  end.

Definition get_product_col {L : Library} (df : DataFrame) : option string :=
  find (fun c => String.eqb (sub_quotes (str_lower (str_strip c))) "nom de l'élément")
       (columns df).

Definition is_true (v : value) : bool :=
  match v with VBool true => true | _ => false end.

(** [df[mask]]: pandas refuses a mask with a missing cell. *)
Definition boolean_mask (df : DataFrame) (mask : Series) : result DataFrame :=
  if existsb isna mask then
    Err (ValueError "Cannot mask with non-boolean array containing NA / NaN values")
  else
    Ok {| columns := columns df;
          rows := map fst (filter (fun p => is_true (snd p)) (combine (rows df) mask)) |}.

(** [.groupby(c).size()]: a Series of group sizes, indexed by key. *)
Definition groupby_size (df : DataFrame) (c : string) : result (list (value * value)) :=
  keys <- df.[c] ;;
  Ok (map (fun k => (k, VInt (Z.of_nat (List.length (group df c k))))) (group_keys keys)).

(** [s.sort_values(ascending=False)] on an indexed Series. *)
Definition sort_series_desc {L : Library} (s : list (value * value)) : list (value * value) :=
  reorder (nargsort_desc (map snd s)) s.

(** Line 163, up to [.size()]: the returned orders counted by product;
    [None] when no product column is found (line 166 warns). *)
Definition returns_by_product {L : Library} (df : DataFrame)
  : result (option (list (value * value))) :=
  match get_product_col df with
  | Some product_col =>
      m <- df.["returned"] ;;
      sel <- boolean_mask df m ;;
      sizes <- groupby_size sel product_col ;;
      Ok (Some sizes)
  | None => Ok None
  end.

(** Line 163: [... .sort_values(ascending=False).head(10)]. *)
Definition top_returns {L : Library} (df : DataFrame)
  : result (option (list (value * value))) :=
  r <- returns_by_product df ;;
  Ok (option_map (fun sizes => firstn 10 (sort_series_desc sizes)) r).

(* ------------------------------------------------------------------------- *)
(** ** Row-wise reading of [load_data]

    Every Series operation of [load_data] works cell by cell, so the function
    is a map over the rows.  [normalize_row] and [derive_row] are that map;
    [load_data_rows] below proves that the column program computes it. *)

Definition normalize_row {L : Library} (has_commande : bool) (r : Row) : Row :=
  let r := upd r "date_creation" (to_datetime1 (r "date_creation")) in
  let r := upd r "date_expedition" (to_datetime1 (r "date_expedition")) in
  let r := upd r "date_last_status" (to_datetime1 (r "date_last_status")) in
  upd r "date_commande"
      (if has_commande then to_datetime1 (r "Date de commande") else VNaT).

Definition derive_row {L : Library} (r : Row) : Row :=
  let r := upd r "commande_to_creation_days"
               (days1 (sub1 (r "date_creation") (r "date_commande"))) in
  let r := upd r "commande_to_expedition_days"
               (days1 (sub1 (r "date_expedition") (r "date_commande"))) in
  let r := upd r "commande_to_last_status_days"
               (days1 (sub1 (r "date_last_status") (r "date_commande"))) in
  let r := upd r "delivered" (contains1 "livré" (lower1 (r "last_status"))) in
  let r := upd r "returned" (contains1 "retour" (lower1 (r "last_status"))) in
  let r := upd r "delivery_delay_days"
               (days1 (sub1 (r "date_last_status") (r "date_expedition"))) in
  let r := upd r "processing_time_days"
               (days1 (sub1 (r "date_expedition") (r "date_creation"))) in
  let r := upd r "revenue" (fillna0 (r "Montant total de la commande")) in
  let r := upd r "lost_revenue" (where1 (r "revenue") (r "returned")) in
  let r := upd r "success_revenue" (where1 (r "revenue") (r "delivered")) in
  upd r "has_recouvrement" (fillna0 (r "has_recouvrement")).

(** The columns [load_data] reads from the file. *)
Definition required_columns : list string :=
  [ "date_creation"; "date_expedition"; "date_last_status"; "last_status";
    "Montant total de la commande"; "has_recouvrement" ].

(** The columns of the file that [load_data] looks at. *)
Definition source_columns : list string :=
  "Date de commande" :: required_columns.

(** Two files that have the same source columns, with the same cells. *)
Definition same_source (a b : DataFrame) : Prop :=
  (forall c, In c source_columns -> has_col a c = has_col b c) /\
  Forall2 (fun r r' : Row => forall c, In c source_columns -> r c = r' c)
          (rows a) (rows b).

(* ------------------------------------------------------------------------- *)
(** ** Vocabulary of the properties *)

(** [s] has [t] as a substring. *)
Definition substring_of (t s : string) : Prop :=
  exists pre post, s = (pre ++ t ++ post)%string.

(** Python's [a + b] and [a == b] on numeric cells. *)
Definition add_v (a b : value) : value :=
  match a, b with
  | VInt x, VInt y => VInt (x + y)
  | _, _ => VNum (F64.add (as_float a) (as_float b))
  end.

Definition eq_v (a b : value) : bool :=
  match a, b with
  | VInt x, VInt y => Z.eqb x y
  | _, _ => F64.eqb (as_float a) (as_float b)
  end.

(** A cell that holds a number, or is missing. *)
Definition numeric (v : value) : bool :=
  match v with
  | VNum _ | VInt _ => true
  | _ => false
  end.

(** [out] is the whole-day difference [b - a]: missing as soon as one end is,
    and otherwise the number of whole days in the exact difference (the
    floor, so an inverted pair gives a negative count). *)
Definition whole_day_diff (a b out : value) : Prop :=
  (a = VNaT \/ b = VNaT -> out = NaN) /\
  (forall x y, a = VTimestamp x -> b = VTimestamp y ->
     exists d, out = VInt d /\
       (d * ns_per_day <= y - x < (d + 1) * ns_per_day)%Z /\
       ((y < x)%Z -> (d < 0)%Z)).

(** [out] is what [pd.to_datetime(..., errors='coerce')] makes of the cell
    [raw]: NaT when the cell is missing or does not parse, never an error. *)
Definition coerced {L : Library} (raw out : value) : Prop :=
  (isna raw = true \/ parse_datetime raw = None -> out = VNaT) /\
  (forall t, isna raw = false -> parse_datetime raw = Some t -> out = VTimestamp t).

Definition date_columns : list string :=
  [ "date_creation"; "date_expedition"; "date_last_status" ].

(** The value a result holds, [d] when it holds an error. *)
Definition unwrap {A} (r : result A) (d : A) : A :=
  match r with
  | Ok a => a
  | Err _ => d
  end.

(** The [i]-th row of a frame (misses read as an empty row). *)
Definition row_at (df : DataFrame) (i : nat) : Row := nth i (rows df) empty_row.

(** The column [c] of the frame is one [read_csv] types as text: it holds
    a text cell, or the frame has no row. *)
Definition text_column (df : DataFrame) (c : string) : bool :=
  is_empty (rows df) || existsb (fun r => is_str (r c)) (rows df).

(** [idx] lists each of [0 .. n-1] once. *)
Definition is_perm_seq (idx : list nat) (n : nat) : bool :=
  (List.length idx =? n)%nat && forallb (fun i => existsb (Nat.eqb i) idx) (seq 0 n).

Fixpoint sorted_b {A} (leb : A -> A -> bool) (l : list A) : bool :=
  match l with
  | [] => true
  | x :: l' =>
      match l' with
      | [] => true
      | y :: _ => leb x y && sorted_b leb l'
      end
  end.

(** What numpy promises of [argsort] on [keys]: a permutation of the
    positions that puts the keys in ascending order.  Nothing is promised on
    the order of equal keys. *)
Definition argsort_ok (keys : Series) (idx : list nat) : bool :=
  is_perm_seq idx (List.length keys) && sorted_b key_leb (reorder idx keys).

(** [a] may stand before [b] in a descending column with the missing cells
    last. *)
Definition ge_key (a b : value) : bool :=
  isna b || (notna a && key_leb b a).

Definition sorted_desc (keys : Series) : Prop := sorted_b ge_key keys = true.

(** The sum of the [orders] column of a summary frame. *)
Definition total_orders (df : DataFrame) : Z :=
  fold_right (fun r acc => match r "orders" with VInt n => n + acc | _ => acc end)%Z
             0%Z (rows df).

(** The insights as a table of the two predicates. *)
Definition insights_table (processing_slow shipping_slow : bool) : list string :=
  match processing_slow, shipping_slow with
  | true, true => [slow_processing; slow_shipping]
  | true, false => [slow_processing]
  | false, true => [slow_shipping]
  | false, false => [no_bottleneck]
  end.

(* ------------------------------------------------------------------------- *)
(** ** A concrete library, for the examples

    ASCII and Latin-1 case mapping, ASCII white space, ISO dates
    (YYYY-MM-DD), left-to-right summation, and numpy's scalar quicksort. *)

Module Demo.

Definition lower_byte (a : ascii) : ascii :=
  let n := nat_of_ascii a in
  if ((65 <=? n) && (n <=? 90))%nat then ascii_of_nat (n + 32) else a.

(** U+00C0..U+00DE (bytes C3 80 .. C3 9E), the multiplication sign apart, map
    to U+00E0..U+00FE. *)
Fixpoint lower (s : string) : string :=
  match s with
  | EmptyString => EmptyString
  | String a t =>
      if Ascii.eqb a "195" then
        match t with
        | String b rest =>
            let n := nat_of_ascii b in
            if ((128 <=? n) && (n <=? 158) && negb (n =? 151))%nat
            then String a (String (ascii_of_nat (n + 32)) (lower rest))
            else String a (String b (lower rest))
        | EmptyString => String a EmptyString
        end
      else String (lower_byte a) (lower t)
  end.

Definition is_space (a : ascii) : bool :=
  let n := nat_of_ascii a in
  ((n =? 32) || ((9 <=? n) && (n <=? 13)))%nat.

Fixpoint lstrip (l : list ascii) : list ascii :=
  match l with
  | a :: l' => if is_space a then lstrip l' else l
  | [] => []
  end.

Definition strip (s : string) : string :=
  string_of_list_ascii
    (rev (lstrip (rev (lstrip (list_ascii_of_string s))))).

Definition digit (a : ascii) : option Z :=
  let n := nat_of_ascii a in
  if ((48 <=? n) && (n <=? 57))%nat then Some (Z.of_nat (n - 48)) else None.

(** Days from 1970-01-01 to the civil date [y-m-d] (proleptic Gregorian). *)
Definition days_from_civil (y m d : Z) : Z :=
  (let y := if m <=? 2 then y - 1 else y in
   let era := y / 400 in
   let yoe := y - era * 400 in
   let mp := (m + 9) mod 12 in
   let doy := (153 * mp + 2) / 5 + d - 1 in
   let doe := yoe * 365 + yoe / 4 - yoe / 100 + doy in
   era * 146097 + doe - 719468)%Z.

Definition parse_iso_date (s : string) : option Z :=
  match list_ascii_of_string s with
  | [y1; y2; y3; y4; s1; m1; m2; s2; d1; d2] =>
      match digit y1, digit y2, digit y3, digit y4,
            digit m1, digit m2, digit d1, digit d2 with
      | Some a, Some b, Some c, Some e, Some f, Some g, Some h, Some i =>
          let y := (1000 * a + 100 * b + 10 * c + e)%Z in
          let m := (10 * f + g)%Z in
          let d := (10 * h + i)%Z in
          if (Ascii.eqb s1 "-" && Ascii.eqb s2 "-"
              && (1 <=? m)%Z && (m <=? 12)%Z && (1 <=? d)%Z && (d <=? 31)%Z)%bool
          then Some (days_from_civil y m d * ns_per_day)%Z
          else None
      | _, _, _, _, _, _, _, _ => None
      end
  | _ => None
  end.

Definition parse (v : value) : option Z :=
  match v with
  | VStr s => parse_iso_date s
  | _ => None
  end.

Definition sum_left (l : list float) : float := fold_left F64.add l F64.zero.

(** numpy's [aquicksort] (npysort/quicksort.cpp, the scalar path): the
    positions [tosort] are sorted in place by the keys [v]; a range of more
    than 17 positions is partitioned around the median of its first, middle
    and last key, a shorter one is sorted by insertion.  The guard that
    switches to heapsort after 2 log2 n partitions is left out: no example
    reaches it.  Pointers are positions in [t]; the loops take fuel. *)
Definition less (a b : value) : bool := negb (key_leb b a).

Definition get (t : list nat) (i : nat) : nat := nth i t 0.

Fixpoint set_nth (t : list nat) (i x : nat) : list nat :=
  match t, i with
  | [], _ => []
  | _ :: t', 0 => x :: t'
  | y :: t', S i' => y :: set_nth t' i' x
  end.

(** [INTP_SWAP(t[i], t[j])] *)
Definition swap (t : list nat) (i j : nat) : list nat :=
  set_nth (set_nth t i (get t j)) j (get t i).

(** [v[t[i]]] *)
Definition key_at (v : Series) (t : list nat) (i : nat) : value :=
  nth (get t i) v NaN.

(** [do ++pi; while (less(v[*pi], vp));] *)
Fixpoint scan_up (fuel : nat) (v : Series) (t : list nat) (vp : value) (pi : nat) : nat :=
  match fuel with
  | 0 => pi
  | S f =>
      let pi := S pi in
      if less (key_at v t pi) vp then scan_up f v t vp pi else pi
  end.

(** [do --pj; while (less(vp, v[*pj]));] *)
Fixpoint scan_down (fuel : nat) (v : Series) (t : list nat) (vp : value) (pj : nat) : nat :=
  match fuel with
  | 0 => pj
  | S f =>
      let pj := pj - 1 in
      if less vp (key_at v t pj) then scan_down f v t vp pj else pj
  end.

(** The partition loop [for (;;) { ...; if (pi >= pj) break; INTP_SWAP }]. *)
Fixpoint partition_loop (fuel : nat) (v : Series) (vp : value) (t : list nat) (pi pj : nat)
  : list nat * nat :=
  match fuel with
  | 0 => (t, pi)
  | S f =>
      let pi := scan_up (List.length t) v t vp pi in
      let pj := scan_down (List.length t) v t vp pj in
      if (pj <=? pi)%nat then (t, pi) else partition_loop f v vp (swap t pi pj) pi pj
  end.

(** [while (pj > pl && less(vp, v[*pk])) { *pj-- = *pk--; }] *)
Fixpoint shift (fuel : nat) (v : Series) (t : list nat) (pl : nat) (vp : value) (pj : nat)
  : list nat * nat :=
  match fuel with
  | 0 => (t, pj)
  | S f =>
      if ((pl <? pj)%nat && less vp (key_at v t (pj - 1)))%bool
      then shift f v (set_nth t pj (get t (pj - 1))) pl vp (pj - 1)
      else (t, pj)
  end.

Fixpoint insertion_from (count : nat) (v : Series) (t : list nat) (pl pi : nat) : list nat :=
  match count with
  | 0 => t
  | S c =>
      let vi := get t pi in
      let '(t, pj) := shift (S pi) v t pl (nth vi v NaN) pi in
      insertion_from c v (set_nth t pj vi) pl (S pi)
  end.

(** [for (pi = pl + 1; pi <= pr; ++pi) ...] *)
Definition insertion (v : Series) (t : list nat) (pl pr : nat) : list nat :=
  insertion_from (pr - pl) v t pl (S pl).

Fixpoint aquicksort_loop (fuel : nat) (v : Series) (t : list nat) (pl pr : nat)
         (stack : list (nat * nat)) : list nat :=
  match fuel with
  | 0 => t
  | S f =>
      if (16 <? pr - pl)%nat then
        let pm := pl + (pr - pl) / 2 in
        let t := if less (key_at v t pm) (key_at v t pl) then swap t pm pl else t in
        let t := if less (key_at v t pr) (key_at v t pm) then swap t pr pm else t in
        let t := if less (key_at v t pm) (key_at v t pl) then swap t pm pl else t in
        let vp := key_at v t pm in
        let t := swap t pm (pr - 1) in
        let '(t, pi) := partition_loop (List.length t) v vp t pl (pr - 1) in
        let t := swap t pi (pr - 1) in
        if (pi - pl <? pr - pi)%nat
        then aquicksort_loop f v t pl (pi - 1) ((pi + 1, pr) :: stack)
        else aquicksort_loop f v t (pi + 1) pr ((pl, pi - 1) :: stack)
      else
        let t := insertion v t pl pr in
        match stack with
        | [] => t
        | (pl', pr') :: stack' => aquicksort_loop f v t pl' pr' stack'
        end
  end.

Definition aquicksort (v : Series) : list nat :=
  let n := List.length v in
  aquicksort_loop (2 * n + 2) v (seq 0 n) 0 (n - 1) [].

Definition lib : Library :=
  {| str_lower := lower; str_strip := strip; parse_datetime := parse;
     fsum := sum_left; argsort := aquicksort |}.

(** A row from its cells; a cell that is not listed is missing. *)
Fixpoint row_of (cells : list (string * value)) : Row :=
  match cells with
  | [] => empty_row
  | (c, v) :: cells' => upd (row_of cells') c v
  end.

Definition header : list string :=
  [ "order_id"; "to_wilaya_name"; "last_status"; "Montant total de la commande";
    "has_recouvrement"; "date_creation"; "date_expedition"; "date_last_status";
    "Date de commande"; "Nom de l’élément" ].

Definition order (id wilaya status : string) (total : Z)
  (created shipped last : string) (product : string) : Row :=
  row_of [ ("order_id", VStr id); ("to_wilaya_name", VStr wilaya);
           ("last_status", VStr status);
           ("Montant total de la commande", VInt total);
           ("has_recouvrement", VInt 1);
           ("date_creation", VStr created); ("date_expedition", VStr shipped);
           ("date_last_status", VStr last); ("Date de commande", VStr created);
           ("Nom de l’élément", VStr product) ].

(** Four orders: delivered, returned, a status with both markers, and one
    with an unreadable dispatch date and no amount. *)
Definition csv : DataFrame :=
  {| columns := header;
     rows :=
       [ order "A" "Alger" "Livré" 1500 "2024-01-01" "2024-01-03" "2024-01-06" "lampe";
         order "B" "Oran" "Retour expéditeur" 900 "2024-01-02" "2024-01-02" "2024-01-05" "vase";
         order "C" "Alger" "LIVRÉ puis RETOUR" 400 "2024-01-05" "2024-01-04" "2024-01-09" "vase";
         upd (upd (order "D" "Oran" "En cours" 0 "2024-01-07" "bientot" "2024-01-08" "lampe")
                  "Montant total de la commande" NaN)
             "has_recouvrement" NaN ] |}.

(** The frame [load_data] makes of [csv]. *)
Definition loaded : DataFrame := unwrap (load_data (L := lib) csv) csv.

(** Twelve orders for Alger (every third one returned), eleven for Oran
    (every second one returned) and three for Blida. *)
Definition orders_of (wilaya : string) (n every : nat) : list Row :=
  map (fun k =>
         order "X" wilaya
               (if (k mod every =? 0)%nat then "Retour" else "Livré")
               1000 "2024-02-01" "2024-02-02" "2024-02-04" "lampe")
      (seq 0 n).

Definition csv_regions : DataFrame :=
  {| columns := header;
     rows := orders_of "Alger" 12 3 ++ orders_of "Oran" 11 2 ++ orders_of "Blida" 3 1 |}.

Definition loaded_regions : DataFrame :=
  unwrap (load_data (L := lib) csv_regions) csv_regions.

(** Its groups by destination region, and the per-region summary of [csv]. *)
Definition groups : DataFrame :=
  unwrap (risk_groups (L := lib) loaded_regions) csv_regions.

Definition stats : DataFrame := unwrap (wilaya_stats (L := lib) loaded) csv.

(** Twenty orders, "A" to "T", all delivered three days after dispatch. *)
Definition csv_ties : DataFrame :=
  {| columns := header;
     rows :=
       map (fun k =>
              order (String (ascii_of_nat (65 + k)) EmptyString) "Alger" "Livré"
                    1000 "2024-03-01" "2024-03-02" "2024-03-05" "lampe")
           (seq 0 20) |}.

Definition loaded_ties : DataFrame :=
  unwrap (load_data (L := lib) csv_ties) csv_ties.

(** Two orders, the second with no destination region. *)
Definition csv_no_region : DataFrame :=
  {| columns := header;
     rows :=
       [ order "A" "Alger" "Livré" 1500 "2024-01-01" "2024-01-03" "2024-01-06" "lampe";
         upd (order "B" "Oran" "Livré" 900 "2024-01-02" "2024-01-02" "2024-01-05" "vase")
             "to_wilaya_name" NaN ] |}.

Definition loaded_no_region : DataFrame :=
  unwrap (load_data (L := lib) csv_no_region) csv_no_region.

(** Two orders whose dispatch and last-status dates do not parse. *)
Definition csv_bad_dates : DataFrame :=
  {| columns := header;
     rows :=
       [ order "A" "Alger" "Livré" 1500 "2024-01-01" "n/a" "?" "lampe";
         order "B" "Oran" "Retour" 900 "2024-01-02" "" "03/01/2024" "vase" ] |}.

Definition loaded_bad_dates : DataFrame :=
  unwrap (load_data (L := lib) csv_bad_dates) csv_bad_dates.

(** The same file without the order-placement column. *)
Definition csv_no_commande : DataFrame :=
  {| columns := removelast (removelast header) ++ ["Nom de l’élément"];
     rows := rows csv |}.

End Demo.

(* ========================================================================= *)
(** * The other sections of the page *)

(** What a section hands to Streamlit, with the data it shows. *)
Inductive element : Type :=
| st_write (body : string)
| st_warning (body : string)
| st_info (body : string)
| st_dataframe (data : DataFrame)
| st_histogram (data : Series) (x title key : string).

(* ------------------------------------------------------------------------- *)
(** ** Time interval distributions (lines 80-98) *)

(** [s.dropna()] *)
Definition dropna (s : Series) : Series := filter notna s.

(** An entry of [time_cols]: the label, the column name, the data. *)
Definition time_entry : Type := (string * string * Series)%type.

Definition entry_col (e : time_entry) : string := snd (fst e).

(** Lines 80-86. *)
Definition time_cols (df : DataFrame) : result (list time_entry) :=
  a <- df.["processing_time_days"] ;;
  b <- df.["delivery_delay_days"] ;;
  c <- df.["commande_to_creation_days"] ;;
  d <- df.["commande_to_expedition_days"] ;;
  e <- df.["commande_to_last_status_days"] ;;
  Ok [ ("Processing Time (Creation → Expedition)", "processing_time_days", dropna a);
       ("Shipping Time (Expedition → Last Status)", "delivery_delay_days", dropna b);
       ("Cmd→Creation", "commande_to_creation_days", dropna c);
       ("Cmd→Expedition", "commande_to_expedition_days", dropna d);
       ("Cmd→Last Status", "commande_to_last_status_days", dropna e) ].

(** Lines 90-92, one turn of the loop on the pair [(seen, unique_time_cols)];
    [data is not None] holds of every Series. *)
Definition keep_unseen (df : DataFrame) (st : list string * list time_entry)
  (entry : time_entry) : list string * list time_entry :=
  let '(seen, unique_time_cols) := st in
  let '(label, c, data) := entry in
  if negb (existsb (String.eqb c) seen) && has_col df c
  then (c :: seen, unique_time_cols ++ [(label, c, data)])
  else (seen, unique_time_cols).

(** Lines 87-92. *)
Definition unique_time_cols (df : DataFrame) (time_cols : list time_entry)
  : list time_entry :=
  snd (fold_left (keep_unseen df) time_cols ([], [])).

(** Lines 94-98. *)
Definition time_panel (entry : time_entry) : list element :=
  let '(label, c, data) := entry in
  [ st_write ("**" ++ label ++ ":**")%string;
    if negb (is_empty data)
    then st_histogram data c label ("hist_" ++ c ++ "_" ++ label)%string
    else st_warning ("No valid data for " ++ label ++ ".")%string ].

(** Lines 80-98. *)
Definition time_intervals (df : DataFrame) : result (list element) :=
  tcs <- time_cols df ;;
  Ok (flat_map time_panel (unique_time_cols df tcs)).

(* ------------------------------------------------------------------------- *)
(** ** The two tables of slow orders (lines 107-116 and 238-242) *)

Definition desired_cols : list string :=
  [ "order_id"; "from_wilaya_name"; "to_wilaya_name"; "processing_time_days";
    "delivery_delay_days"; "commande_to_creation_days";
    "commande_to_expedition_days"; "commande_to_last_status_days";
    "last_to_final_days"; "total_fulfillment_days"; "last_status";
    "date_creation"; "date_expedition"; "date_last_status"; "date_commande";
    "date_etat_fin" ].

(** [df[cs]] for a list of names: the columns [cs], in that order.  A name
    that is not a column raises KeyError (pandas lists every missing name in
    its message; the first one is kept here). *)
Definition select_columns (df : DataFrame) (cs : list string) : result DataFrame :=
  _ <- check_cols df cs ;;
  Ok {| columns := cs; rows := rows df |}.

(** Lines 103-116. *)
Definition bottlenecks {L : Library} (df : DataFrame) : result element :=
  slow <- slow_orders df ;;
  let existing_cols := filter (has_col slow) desired_cols in
  if negb (is_empty existing_cols) then
    shown <- select_columns slow existing_cols ;;
    Ok (st_dataframe shown)
  else
    Ok (st_info "No relevant columns found to display bottlenecks and delays.").

Definition shown_cols_2 : list string :=
  [ "order_id"; "from_wilaya_name"; "to_wilaya_name"; "processing_time_days";
    "delivery_delay_days"; "commande_to_creation_days";
    "commande_to_expedition_days"; "commande_to_last_status_days";
    "last_status"; "date_creation"; "date_expedition"; "date_last_status";
    "date_commande" ].

(** Lines 238-242. *)
Definition bottlenecks_2 {L : Library} (df : DataFrame) : result element :=
  s <- sort_values_desc df "delivery_delay_days" ;;
  let slow := head 10 s in
  shown <- select_columns slow shown_cols_2 ;;
  Ok (st_dataframe shown).

(* ------------------------------------------------------------------------- *)
(** ** The two bar charts by region (lines 145-148) *)

(** The frame [px.bar] is given on line 145, and on line 147. *)
Definition orders_per_wilaya {L : Library} (wilaya_stats : DataFrame)
  : result DataFrame :=
  sort_values_desc wilaya_stats "orders".

Definition revenue_per_wilaya {L : Library} (wilaya_stats : DataFrame)
  : result DataFrame :=
  sort_values_desc wilaya_stats "revenue".

(* ------------------------------------------------------------------------- *)
(** ** Mean delay by hub, collection rate by region (lines 170 and 175) *)

(** Line 170. *)
Definition hub_delays {L : Library} (df : DataFrame) : result DataFrame :=
  g <- groupby_agg df "stopdesk_name"
         [ mkAgg "avg_delay" "delivery_delay_days" mean_v ] ;;
  sort_values_desc g "avg_delay".

(** [df.groupby(by)[c].mean()]: a Series of group means, indexed by key. *)
Definition groupby_mean {L : Library} (df : DataFrame) (by_ c : string)
  : result (list (value * value)) :=
  keys <- df.[by_] ;;
  _ <- df.[c] ;;
  Ok (map (fun k => (k, mean_v (map (fun r => r c) (group df by_ k))))
          (group_keys keys)).

(** Line 175. *)
Definition rec_rate {L : Library} (df : DataFrame) : result (list (value * value)) :=
  s <- groupby_mean df "to_wilaya_name" "has_recouvrement" ;;
  Ok (sort_series_desc s).

(* ------------------------------------------------------------------------- *)
(** ** Orders over time (line 189) *)

Definition is_datetime (v : value) : bool :=
  match v with VTimestamp _ | VNaT => true | _ => false end.

(** [s.dt]: the accessor is refused on a column that is not of datetime
    type. *)
Definition dt_accessor (s : Series) : result Series :=
  if forallb is_datetime s then Ok s
  else Err (AttributeError "Can only use .dt accessor with datetimelike values").

(** One cell of [.dt.date].  A [datetime.date] is held as its day number
    (the days since 1970-01-01), which orders dates as Python does. *)
Definition date1 (v : value) : value :=
  match v with
  | VTimestamp t => VInt (t / ns_per_day)
  | _ => VNaT
  end.

(** [df.groupby(keys).size()] for a Series of keys, one per row. *)
Definition size_by (keys : Series) : list (value * value) :=
  map (fun k =>
         (k, VInt (Z.of_nat (List.length (filter (fun v => value_eqb v k) keys)))))
      (group_keys keys).

(** Line 189. *)
Definition orders_time (df : DataFrame) : result (list (value * value)) :=
  s <- df.["date_creation"] ;;
  s <- dt_accessor s ;;
  Ok (size_by (map date1 s)).

(* ------------------------------------------------------------------------- *)
(** ** Price against declared value (lines 196-204) *)

(** [s.notna()] and [a & b] on Series. *)
Definition notna_s (s : Series) : Series := map (fun v => VBool (notna v)) s.

Definition and_s (a b : Series) : Series :=
  map2 (fun x y => VBool (is_true x && is_true y)) a b.

(** Lines 196-197; [None] when one of the columns is not there (line 204
    warns). *)
Definition valid_price (df : DataFrame) : result (option DataFrame) :=
  if has_col df "Prix du produit" && has_col df "declared_value" then
    p <- df.["Prix du produit"] ;;
    d <- df.["declared_value"] ;;
    sel <- boolean_mask df (and_s (notna_s p) (notna_s d)) ;;
    Ok (Some sel)
  else Ok None.

(* ------------------------------------------------------------------------- *)
(** ** The figures of the KPI rows, before they are formatted *)

(** Lines 66-69. *)
Definition global_kpis {L : Library} (df : DataFrame)
  : result (nat * float * float * float) :=
  let total := List.length (rows df) in
  d <- df.["delivered"] ;;
  r <- df.["returned"] ;;
  y <- df.["delivery_delay_days"] ;;
  Ok (total, mean d, mean r, mean y).

(** Lines 73-76. *)
Definition time_kpis {L : Library} (df : DataFrame)
  : result (float * float * float * float) :=
  p <- df.["processing_time_days"] ;;
  y <- df.["delivery_delay_days"] ;;
  e <- df.["commande_to_expedition_days"] ;;
  l <- df.["commande_to_last_status_days"] ;;
  Ok (mean p, mean y, mean e, mean l).

(** Lines 133-135. *)
Definition revenue_kpis {L : Library} (df : DataFrame)
  : result (value * value * float) :=
  s <- df.["success_revenue"] ;;
  l <- df.["lost_revenue"] ;;
  h <- df.["has_recouvrement"] ;;
  Ok (sum_v s, sum_v l, mean h).

(** Lines 220-221. *)
Definition time_kpis_2 {L : Library} (df : DataFrame) : result (float * float) :=
  p <- df.["processing_time_days"] ;;
  y <- df.["delivery_delay_days"] ;;
  Ok (mean p, mean y).

(* ------------------------------------------------------------------------- *)
(** ** The warnings on missing values (lines 213-216) *)

(** The float64 literal [0.2]: 7205759403792794 * 2^-55. *)
Definition two_tenths : float := S754_finite false 7205759403792794 (-55).

(** [s.isna()] *)
Definition isna_s (s : Series) : Series := map (fun v => VBool (isna v)) s.

(** One turn of the loop of line 213. *)
Definition missing_warning {L : Library} (df : DataFrame) (c : string)
  : result (list element) :=
  if has_col df c then
    s <- df.[c] ;;
    if F64.ltb two_tenths (mean (isna_s s)) then
      Ok [ st_warning ("More than 20% missing values in " ++ c
                       ++ ". Check your date columns in the CSV.")%string ]
    else Ok []
  else Ok [].

Definition missing_warnings {L : Library} (df : DataFrame) : result (list element) :=
  a <- missing_warning df "processing_time_days" ;;
  b <- missing_warning df "delivery_delay_days" ;;
  Ok (a ++ b).

(* ------------------------------------------------------------------------- *)
(** ** The second distributions section (lines 225-234) *)

Definition time_panel_2 (entry : time_entry) : list element :=
  let '(label, c, data) := entry in
  [ st_write ("**" ++ label ++ ":**")%string;
    if negb (is_empty data)
    then st_histogram data c label ("hist_" ++ c)%string
    else st_warning ("No valid data for " ++ label ++ ".")%string ].

Definition time_intervals_2 (df : DataFrame) : result (list element) :=
  a <- df.["processing_time_days"] ;;
  b <- df.["delivery_delay_days"] ;;
  Ok (flat_map time_panel_2
        [ ("Processing Time (Creation → Expedition)", "processing_time_days", dropna a);
          ("Shipping Time (Expedition → Last Status)", "delivery_delay_days", dropna b) ]).

(* ------------------------------------------------------------------------- *)
(** ** The page (lines 54-254)

    The pandas computations of the script, in the order of its lines; an
    exception ends the run.  The calls that format a figure or draw a
    chart are left out, and the scope is the one stated at the head of the
    file: amounts and flags are numbers. *)

Definition page {L : Library} (df : DataFrame) : result unit :=
  _ <- global_kpis df ;;
  _ <- time_kpis df ;;
  _ <- time_intervals df ;;
  _ <- bottlenecks df ;;
  _ <- insights df ;;
  _ <- revenue_kpis df ;;
  stats <- wilaya_stats df ;;
  _ <- orders_per_wilaya stats ;;
  _ <- revenue_per_wilaya stats ;;
  _ <- top_returns df ;;
  _ <- hub_delays df ;;
  _ <- rec_rate df ;;
  _ <- risk_df df ;;
  _ <- orders_time df ;;
  _ <- valid_price df ;;
  _ <- missing_warnings df ;;
  _ <- time_kpis_2 df ;;
  _ <- time_intervals_2 df ;;
  _ <- bottlenecks_2 df ;;
  _ <- insights df ;;
  Ok tt.

(* ------------------------------------------------------------------------- *)
(** ** More vocabulary *)

(** The columns [load_data] assigns, in the order of lines 33-51. *)
Definition assigned_columns : list string :=
  [ "date_creation"; "date_expedition"; "date_last_status"; "date_commande";
    "commande_to_creation_days"; "commande_to_expedition_days";
    "commande_to_last_status_days"; "delivered"; "returned";
    "delivery_delay_days"; "processing_time_days"; "revenue"; "lost_revenue";
    "success_revenue"; "has_recouvrement" ].

(** The first of the names [cs] that is not a column of the frame. *)
Definition first_absent (df : DataFrame) (cs : list string) : option string :=
  find (fun c => negb (has_col df c)) cs.

(** The exception [load_data] ends with, by the order of its lines: the
    date columns and the status column are read first, then the [.str]
    accessor is taken, then the amount and the collection flag are read. *)
Definition load_error (csv : DataFrame) : option pyerror :=
  match first_absent csv
          [ "date_creation"; "date_expedition"; "date_last_status"; "last_status" ] with
  | Some c => Some (KeyError c)
  | None =>
      if negb (text_column csv "last_status") then
        Some (AttributeError "Can only use .str accessor with string values!")
      else
        match first_absent csv
                [ "Montant total de la commande"; "has_recouvrement" ] with
        | Some c => Some (KeyError c)
        | None => None
        end
  end.

(** The columns of the file that the sections of the page read, in the
    order of the first read: the summary by region reads the region and the
    order id (line 139), the hubs their column (line 170), the second table
    of slow orders the sender's region (line 239). *)
Definition page_columns : list string :=
  [ "to_wilaya_name"; "order_id"; "stopdesk_name"; "from_wilaya_name" ].

(** Every record of the file has a status text. *)
Definition every_status_text (csv : DataFrame) : bool :=
  forallb (fun raw => is_str (raw "last_status")) (rows csv).

(** Successive runs of the script, each finding the file as [files] lists
    it, with the cache passed from one run to the next: what line 54 gets. *)
Fixpoint reruns {L : Library} (files : list DataFrame) (cache : cache_data)
  : list (result DataFrame) :=
  match files with
  | [] => []
  | csv :: files' =>
      let (df, cache') := load_data_cached csv cache in
      df :: reruns files' cache'
  end.

(** The keys of the charts among the elements of a section. *)
Definition chart_keys (l : list element) : list string :=
  flat_map (fun e => match e with st_histogram _ _ _ key => [ key ] | _ => [] end) l.

(** The sum of a Series of counts. *)
Definition series_total (s : list (value * value)) : Z :=
  fold_right (fun p acc => match snd p with VInt n => n + acc | _ => acc end)%Z
             0%Z s.

(** [df[c] = ...] on the header: a new name goes last. *)
Definition add_col (cs : list string) (c : string) : list string :=
  if existsb (String.eqb c) cs then cs else cs ++ [c].

(* ------------------------------------------------------------------------- *)
(** ** More example files *)

Module Sample.
Import Demo.

(** [csv] with the sender's region, the hub and the two prices of each
    order; the fourth order has no hub. *)
Definition more (r : Row) (sender hub price declared : value) : Row :=
  upd (upd (upd (upd r "from_wilaya_name" sender) "stopdesk_name" hub)
           "Prix du produit" price)
      "declared_value" declared.

Definition csv_hubs : DataFrame :=
  {| columns :=
       header ++ [ "from_wilaya_name"; "stopdesk_name"; "Prix du produit";
                   "declared_value" ];
     rows :=
       [ more (row_at csv 0) (VStr "Alger") (VStr "Hub Est") (VInt 1200) (VInt 1500);
         more (row_at csv 1) (VStr "Alger") (VStr "Hub Ouest") (VInt 800) NaN;
         more (row_at csv 2) (VStr "Oran") (VStr "Hub Est") NaN (VInt 400);
         more (row_at csv 3) (VStr "Oran") NaN (VInt 100) (VInt 100) ] |}.

Definition loaded_hubs : DataFrame := unwrap (load_data (L := lib) csv_hubs) csv_hubs.

(** [csv] with the status of its second order left empty. *)
Definition csv_gap : DataFrame :=
  {| columns := header;
     rows := [ row_at csv 0; upd (row_at csv 1) "last_status" NaN;
               row_at csv 2; row_at csv 3 ] |}.

Definition loaded_gap : DataFrame := unwrap (load_data (L := lib) csv_gap) csv_gap.

(** The header of [csv] and no record. *)
Definition csv_empty : DataFrame := {| columns := header; rows := [] |}.

(** A file that has no date column. *)
Definition csv_ids : DataFrame :=
  {| columns := [ "order_id" ]; rows := [ row_of [ ("order_id", VStr "A") ] ] |}.

(** The two summaries of [csv_regions] by destination region. *)
Definition stats_regions : DataFrame :=
  unwrap (wilaya_stats (L := lib) loaded_regions) csv_regions.

Definition risk_regions : DataFrame :=
  unwrap (risk_df (L := lib) loaded_regions) csv_regions.

(** The two distributions sections of [csv]. *)
Definition panels : list element := unwrap (time_intervals loaded) [].

Definition panels_2 : list element := unwrap (time_intervals_2 loaded) [].

End Sample.

(* ========================================================================= *)
(** * Proofs *)

(* ------------------------------------------------------------------------- *)
(** ** Substring search *)

Lemma prefix_iff (p s : string) :
  String.prefix p s = true <-> exists post, s = (p ++ post)%string.
Proof.
  revert s; induction p as [|a p IH]; intros s.
  - destruct s; simpl; split; intros; eauto.
  - destruct s as [|b s]; simpl.
    + split; [discriminate | intros [post H]; discriminate].
    + destruct (ascii_dec a b) as [->|n].
      * rewrite IH. split; intros [post H]; exists post; congruence.
      * split; [discriminate | intros [post H]; congruence].
Qed.

Lemma contains_unfold (s t : string) :
  contains s t =
  if String.prefix t s then true
  else match s with
       | EmptyString => false
       | String _ s' => contains s' t
       end.
Proof. destruct s; reflexivity. Qed.

Lemma contains_iff (s t : string) : contains s t = true <-> substring_of t s.
Proof.
  unfold substring_of.
  induction s as [|a s IH]; rewrite contains_unfold.
  - destruct (String.prefix t "") eqn:E.
    + apply prefix_iff in E as [post E]. split; [|reflexivity].
      intros _. exists "", post. exact E.
    + split; [discriminate|]. intros (pre & post & H).
      destruct pre; [|discriminate]. simpl in H.
      assert (String.prefix t "" = true) by (apply prefix_iff; eauto).
      congruence.
  - destruct (String.prefix t (String a s)) eqn:E.
    + apply prefix_iff in E as [post E]. split; [|reflexivity].
      intros _. exists "", post. exact E.
    + rewrite IH. split.
      * intros (pre & post & H). exists (String a pre), post. simpl. now f_equal.
      * intros (pre & post & H). destruct pre as [|b pre]; simpl in H.
        -- assert (String.prefix t (String a s) = true) by (apply prefix_iff; eauto).
           congruence.
        -- injection H as _ H. eauto.
Qed.

(* ------------------------------------------------------------------------- *)
(** ** Frames: reading and writing columns *)

Lemma col_ok (df : DataFrame) (c : string) (s : Series) :
  df.[c] = Ok s -> s = map (fun r => r c) (rows df).
Proof. unfold col. destruct (has_col df c); congruence. Qed.

Lemma col_present (df : DataFrame) (c : string) :
  has_col df c = true -> df.[c] = Ok (map (fun r => r c) (rows df)).
Proof. unfold col. intros ->. reflexivity. Qed.

Lemma col_total (df : DataFrame) (c : string) :
  has_col df c = true -> exists s, df.[c] = Ok s.
Proof. unfold col. intros ->. eauto. Qed.

Lemma has_col_set_col (df : DataFrame) (c : string) (s : Series) (x : string) :
  has_col (set_col df c s) x = has_col df x || String.eqb x c.
Proof.
  unfold has_col at 1, set_col; simpl.
  destruct (has_col df c) eqn:E.
  - fold (has_col df x). destruct (String.eqb_spec x c) as [->|]; [|now rewrite orb_false_r].
    now rewrite E.
  - rewrite existsb_app. simpl. now rewrite orb_false_r.
Qed.

Lemma has_col_set_scalar (df : DataFrame) (c : string) (v : value) (x : string) :
  has_col (set_scalar df c v) x = has_col df x || String.eqb x c.
Proof. exact (has_col_set_col df c [] x). Qed.

(** A frame whose rows are a function of the rows [l0] read from the file,
    and a Series that is a function of the rows of a frame. *)
Definition rowwise (l0 : list Row) (df : DataFrame) (U : Row -> Row) : Prop :=
  rows df = map U l0.

Definition series_of (df : DataFrame) (s : Series) (h : Row -> value) : Prop :=
  s = map h (rows df).

Lemma series_col df c s : df.[c] = Ok s -> series_of df s (fun r => r c).
Proof. apply col_ok. Qed.

Lemma series_map (f : value -> value) df s h :
  series_of df s h -> series_of df (map f s) (fun r => f (h r)).
Proof. unfold series_of. intros ->. apply map_map. Qed.

Lemma series_map2 (f : value -> value -> value) df a b ha hb :
  series_of df a ha -> series_of df b hb ->
  series_of df (map2 f a b) (fun r => f (ha r) (hb r)).
Proof.
  unfold series_of. intros -> ->. induction (rows df); simpl; congruence.
Qed.

(** [row[c] = h(row)] *)
Definition assign (c : string) (h : Row -> value) (r : Row) : Row :=
  upd r c (h r).

Lemma rowwise_set_col l0 df U c s h :
  rowwise l0 df U -> series_of df s h ->
  rowwise l0 (set_col df c s) (fun r0 => assign c h (U r0)).
Proof.
  unfold rowwise, series_of, set_col, assign; simpl. intros -> ->.
  induction l0; simpl; congruence.
Qed.

Lemma rowwise_set_scalar l0 df U c v :
  rowwise l0 df U ->
  rowwise l0 (set_scalar df c v) (fun r0 => assign c (fun _ => v) (U r0)).
Proof. unfold rowwise, set_scalar; simpl. intros ->. apply map_map. Qed.

(** One statement of the column program: read a column ... *)
Ltac read_col H :=
  lazymatch type of H with
  | bind (col ?d ?c) ?k = ?rhs =>
      let s := fresh "s" in
      let E := fresh "E" in
      destruct (col d c) as [s|] eqn:E; [|discriminate H];
      change (k s = rhs) in H; cbv beta in H;
      apply series_col in E
  end.

(** ... or assign one, keeping the new frame abstract. *)
Ltac write_col H :=
  lazymatch type of H with
  | context [set_col ?d ?c ?s] =>
      lazymatch goal with
      | R : rowwise _ d _ |- _ =>
          let d' := fresh "d" in
          let R' := fresh "R" in
          let C' := fresh "C" in
          pose proof (has_col_set_col d c s) as C';
          eassert (R' : rowwise _ (set_col d c s) _)
            by (eapply rowwise_set_col;
                [exact R
                | repeat first [eassumption | eapply series_map | eapply series_map2]]);
          set (d' := set_col d c s) in *; clearbody d'; clear R
      end
  end.

Lemma str_accessor_ok (s s' : Series) : str_accessor s = Ok s' -> s' = s.
Proof. unfold str_accessor. destruct (_ || _); congruence. Qed.

(** ... or pass the [.str] accessor. *)
Ltac pass_str H :=
  lazymatch type of H with
  | bind (str_accessor ?s) ?k = ?rhs =>
      let s' := fresh "s" in
      let A := fresh "A" in
      destruct (str_accessor s) as [s'|] eqn:A; [|discriminate H];
      apply str_accessor_ok in A; subst s';
      change (k s = rhs) in H; cbv beta in H
  end.

Section LoadData.
Context {L : Library}.

Lemma normalize_dates_rows (csv df : DataFrame) :
  normalize_dates csv = Ok df ->
  rows df = map (normalize_row (has_col csv "Date de commande")) (rows csv).
Proof.
  intros H. unfold normalize_dates in H. cbv zeta in H.
  assert (R : rowwise (rows csv) csv (fun r => r)) by (symmetry; apply map_id).
  read_col H. write_col H.
  read_col H. write_col H.
  read_col H. write_col H.
  rewrite C1, C0, C in H. simpl in H. rewrite !orb_false_r in H.
  destruct (has_col csv "Date de commande").
  - read_col H. write_col H. injection H as <-. exact R.
  - injection H as <-. apply (rowwise_set_scalar _ _ _ "date_commande" VNaT R0).
Qed.

Lemma derive_features_rows (d df : DataFrame) :
  derive_features d = Ok df -> rows df = map derive_row (rows d).
Proof.
  intros H. unfold derive_features in H. cbv zeta in H.
  assert (R : rowwise (rows d) d (fun r => r)) by (symmetry; apply map_id).
  unfold dt_days, sub, str_contains, str_lower_s, fillna_0, where_0 in H.
  do 2 read_col H. write_col H.
  do 2 read_col H. write_col H.
  do 2 read_col H. write_col H.
  read_col H. do 2 pass_str H. write_col H.
  read_col H. do 2 pass_str H. write_col H.
  do 2 read_col H. write_col H.
  do 2 read_col H. write_col H.
  read_col H. write_col H.
  do 2 read_col H. write_col H.
  do 2 read_col H. write_col H.
  read_col H. write_col H.
  injection H as <-.
  lazymatch goal with R : rowwise _ _ _ |- _ => exact R end.
Qed.

(** [load_data] is the row-wise map. *)
Lemma load_data_rows (csv df : DataFrame) :
  load_data csv = Ok df ->
  rows df =
  map (fun r => derive_row (normalize_row (has_col csv "Date de commande") r))
      (rows csv).
Proof.
  unfold load_data. intros H.
  destruct (normalize_dates csv) as [dn|] eqn:E; [|discriminate H].
  simpl in H. apply derive_features_rows in H. apply normalize_dates_rows in E.
  rewrite H, E. apply map_map.
Qed.

Lemma load_data_nth (csv df : DataFrame) (i : nat) (raw row : Row) :
  load_data csv = Ok df ->
  nth_error (rows csv) i = Some raw -> nth_error (rows df) i = Some row ->
  row = derive_row (normalize_row (has_col csv "Date de commande") raw).
Proof.
  intros H Hraw Hrow. rewrite (load_data_rows _ _ H), nth_error_map, Hraw in Hrow.
  simpl in Hrow. congruence.
Qed.

Lemma load_data_In (csv df : DataFrame) (row : Row) :
  load_data csv = Ok df -> In row (rows df) ->
  exists raw, In raw (rows csv) /\
    row = derive_row (normalize_row (has_col csv "Date de commande") raw).
Proof.
  intros H Hin. rewrite (load_data_rows _ _ H) in Hin.
  apply in_map_iff in Hin as (raw & <- & Hraw). eauto.
Qed.

End LoadData.

(* ------------------------------------------------------------------------- *)
(** ** [load_data] returns whenever the file has the columns it reads *)

Ltac has_col_tac :=
  rewrite ?has_col_set_col, ?has_col_set_scalar; simpl;
  rewrite ?orb_true_r, ?orb_false_r;
  first [reflexivity | assumption].

(** Run one read of a column on the goal side, keeping the Series abstract. *)
Ltac run_col :=
  lazymatch goal with
  | |- exists df, bind (col ?d ?c) ?k = Ok df =>
      let s := fresh "s" in
      let E := fresh "E" in
      let Hc := fresh "Hc" in
      assert (Hc : has_col d c = true) by has_col_tac;
      destruct (col_total d c Hc) as [s E];
      rewrite E; clear E Hc;
      change (exists df, k s = Ok df); cbv beta
  end.

Section Totality.
Context {L : Library}.

Lemma normalize_dates_total (csv : DataFrame) :
  forallb (has_col csv) date_columns = true ->
  exists df, normalize_dates csv = Ok df.
Proof.
  simpl. rewrite !andb_true_iff. intros (H1 & H2 & H3 & _).
  unfold normalize_dates. cbv zeta.
  run_col. run_col. run_col.
  lazymatch goal with
  | |- exists df, (if ?b then _ else _) = Ok df => destruct b eqn:Hb
  end.
  - lazymatch goal with
    | |- exists df, bind (col ?d ?c) ?k = Ok df =>
        assert (Hc : has_col d c = true) by (exact Hb);
        destruct (col_total d c Hc) as [s2 E]; rewrite E
    end.
    simpl. eauto.
  - eauto.
Qed.

Lemma normalize_dates_columns (csv df : DataFrame) (x : string) :
  normalize_dates csv = Ok df -> has_col csv x = true -> has_col df x = true.
Proof.
  intros H Hx. unfold normalize_dates in H. cbv zeta in H.
  assert (R : rowwise (rows csv) csv (fun r => r)) by (symmetry; apply map_id).
  read_col H. write_col H.
  read_col H. write_col H.
  read_col H. write_col H.
  assert (has_col d1 x = true) by (now rewrite C1, C0, C, Hx).
  destruct (has_col d1 "Date de commande").
  - read_col H. write_col H. injection H as <-. rewrite C2. now rewrite H0.
  - injection H as <-. rewrite has_col_set_scalar. now rewrite H0.
Qed.

Lemma normalize_dates_commande (csv df : DataFrame) :
  normalize_dates csv = Ok df -> has_col df "date_commande" = true.
Proof.
  intros H. unfold normalize_dates in H. cbv zeta in H.
  assert (R : rowwise (rows csv) csv (fun r => r)) by (symmetry; apply map_id).
  read_col H. write_col H.
  read_col H. write_col H.
  read_col H. write_col H.
  destruct (has_col d1 "Date de commande").
  - read_col H. write_col H. injection H as <-. rewrite C2.
    rewrite String.eqb_refl. apply orb_true_r.
  - injection H as <-. rewrite has_col_set_scalar.
    rewrite String.eqb_refl. apply orb_true_r.
Qed.

Lemma str_accessor_text (df : DataFrame) (c : string) :
  text_column df c = true ->
  str_accessor (map (fun r => r c) (rows df)) = Ok (map (fun r => r c) (rows df)).
Proof.
  unfold text_column, str_accessor. intros H.
  replace (is_empty (map (fun r => r c) (rows df))) with (is_empty (rows df))
    by now destruct (rows df).
  replace (existsb is_str (map (fun r => r c) (rows df)))
    with (existsb (fun r => is_str (r c)) (rows df))
    by (clear H; induction (rows df) as [|r l IH]; simpl;
        [reflexivity | now rewrite IH]).
  now rewrite H.
Qed.

Lemma str_accessor_lower (s : Series) :
  str_accessor s = Ok s -> str_accessor (str_lower_s s) = Ok (str_lower_s s).
Proof.
  unfold str_accessor, str_lower_s.
  replace (is_empty (map lower1 s)) with (is_empty s) by now destruct s.
  replace (existsb is_str (map lower1 s)) with (existsb is_str s).
  - now destruct (_ || _).
  - induction s as [|v s IH]; simpl; [reflexivity|]. rewrite IH. now destruct v.
Qed.

(** A column that an assignment does not name is left as it was. *)
Lemma col_rows_set_col_other (df : DataFrame) (c x : string) (s : Series) :
  String.eqb x c = false ->
  map (fun r => r x) (rows (set_col df c s)) = map (fun r => r x) (rows df).
Proof.
  intros H. unfold set_col. simpl. revert s.
  induction (rows df) as [|r l IH]; intros [|v s]; simpl; try reflexivity.
  unfold upd at 1. rewrite H. now rewrite IH.
Qed.

(** Run [df[c].str.lower().str] on a text column of the frame. *)
Ltac run_text T :=
  lazymatch goal with
  | |- exists df, bind (col ?d ?c) ?k = Ok df =>
      let Hc := fresh "Hc" in
      assert (Hc : has_col d c = true) by has_col_tac;
      rewrite (col_present d c Hc); clear Hc;
      rewrite !col_rows_set_col_other by reflexivity;
      cbn [bind]; rewrite (str_accessor_text _ _ T); cbn [bind];
      rewrite (str_accessor_lower _ (str_accessor_text _ _ T)); cbn [bind]
  end.

Lemma derive_features_total (d : DataFrame) :
  forallb (has_col d) ("date_commande" :: required_columns) = true ->
  text_column d "last_status" = true ->
  exists df, derive_features d = Ok df.
Proof.
  simpl. rewrite !andb_true_iff.
  intros (H0 & H1 & H2 & H3 & H4 & H5 & H6 & _) T.
  unfold derive_features. cbv zeta.
  do 6 run_col. run_text T. run_text T.
  repeat run_col. eexists; reflexivity.
Qed.

Lemma normalize_dates_text (csv df : DataFrame) :
  normalize_dates csv = Ok df ->
  text_column df "last_status" = text_column csv "last_status".
Proof.
  intros H. unfold text_column. rewrite (normalize_dates_rows _ _ H).
  f_equal; [now destruct (rows csv)|].
  induction (rows csv) as [|r l IH]; simpl; [reflexivity|]. now rewrite IH.
Qed.

(** [load_data] returns on every file that has the columns it reads and a
    status column holding text. *)
Lemma load_data_total (csv : DataFrame) :
  forallb (has_col csv) required_columns = true ->
  text_column csv "last_status" = true ->
  exists df, load_data csv = Ok df.
Proof.
  intros H T.
  simpl in H. rewrite !andb_true_iff in H.
  destruct H as (H1 & H2 & H3 & H4 & H5 & H6 & _).
  destruct (normalize_dates_total csv) as [dn E].
  { simpl. now rewrite H1, H2, H3. }
  unfold load_data. rewrite E. simpl bind.
  apply derive_features_total.
  - simpl. rewrite (normalize_dates_commande _ _ E).
    rewrite !(normalize_dates_columns _ _ _ E) by assumption. reflexivity.
  - now rewrite (normalize_dates_text _ _ E).
Qed.

End Totality.

(* ------------------------------------------------------------------------- *)
(** ** The cells of a loaded row *)

Section Cells.
Context {L : Library}.

Lemma coerced_to_datetime1 (v : value) : coerced v (to_datetime1 v).
Proof.
  unfold coerced, to_datetime1. split.
  - intros [-> | H]; [reflexivity|]. rewrite H. now destruct (isna v).
  - intros t -> ->. reflexivity.
Qed.

Lemma to_datetime1_cases (v : value) :
  to_datetime1 v = VNaT \/ exists t, to_datetime1 v = VTimestamp t.
Proof.
  unfold to_datetime1. destruct (isna v); [now left|].
  destruct (parse_datetime v); eauto.
Qed.

Lemma ns_per_day_pos : (0 < ns_per_day)%Z.
Proof. reflexivity. Qed.

Lemma whole_day_diff_days (a b : value) : whole_day_diff a b (days1 (sub1 b a)).
Proof.
  split.
  - intros [-> | ->]; [now destruct b | reflexivity].
  - intros x y -> ->. simpl. eexists. split; [reflexivity|].
    pose proof ns_per_day_pos as Hp.
    pose proof (Z.div_mod (y - x) ns_per_day) as Hd.
    pose proof (Z.mod_pos_bound (y - x) ns_per_day Hp) as Hm.
    split; [lia|]. intros Hlt.
    apply Z.div_lt_upper_bound; lia.
Qed.

(** What [load_data] leaves in each column of a row, in terms of the row
    [raw] read from the file. *)
Lemma loaded_dates (b : bool) (raw : Row) :
  let row := derive_row (normalize_row b raw) in
  row "date_creation" = to_datetime1 (raw "date_creation") /\
  row "date_expedition" = to_datetime1 (raw "date_expedition") /\
  row "date_last_status" = to_datetime1 (raw "date_last_status") /\
  row "date_commande" =
    (if b then to_datetime1 (raw "Date de commande") else VNaT).
Proof. repeat split; reflexivity. Qed.

Lemma loaded_days (b : bool) (raw : Row) :
  let row := derive_row (normalize_row b raw) in
  row "processing_time_days" =
    days1 (sub1 (row "date_expedition") (row "date_creation")) /\
  row "delivery_delay_days" =
    days1 (sub1 (row "date_last_status") (row "date_expedition")) /\
  row "commande_to_creation_days" =
    days1 (sub1 (row "date_creation") (row "date_commande")) /\
  row "commande_to_expedition_days" =
    days1 (sub1 (row "date_expedition") (row "date_commande")) /\
  row "commande_to_last_status_days" =
    days1 (sub1 (row "date_last_status") (row "date_commande")).
Proof. repeat split; reflexivity. Qed.

Lemma loaded_flags (b : bool) (raw : Row) :
  let row := derive_row (normalize_row b raw) in
  row "last_status" = raw "last_status" /\
  row "delivered" = contains1 "livré" (lower1 (raw "last_status")) /\
  row "returned" = contains1 "retour" (lower1 (raw "last_status")).
Proof. repeat split; reflexivity. Qed.

Lemma loaded_revenue (b : bool) (raw : Row) :
  let row := derive_row (normalize_row b raw) in
  row "revenue" = fillna0 (raw "Montant total de la commande") /\
  row "lost_revenue" = where1 (row "revenue") (row "returned") /\
  row "success_revenue" = where1 (row "revenue") (row "delivered") /\
  row "has_recouvrement" = fillna0 (raw "has_recouvrement").
Proof. repeat split; reflexivity. Qed.

Lemma flag_true_iff (pat : string) (v : value) :
  contains1 pat (lower1 v) = VBool true <->
  exists s, v = VStr s /\ substring_of pat (str_lower s).
Proof.
  destruct v; simpl; try (split; [discriminate | intros (s0 & H & _); discriminate]).
  split.
  - intros H. injection H as H. apply contains_iff in H. eauto.
  - intros (s0 & H & Hs). injection H as <-. apply contains_iff in Hs.
    now rewrite Hs.
Qed.

End Cells.

(* ------------------------------------------------------------------------- *)
(** ** float64 facts *)

Lemma SFcompare_refl (x : float) : F64.is_nan x = false -> SFcompare x x = Some Eq.
Proof.
  destruct x as [s|s| |s m e]; simpl; try discriminate; intros _.
  - reflexivity.
  - now destruct s.
  - destruct s; rewrite Z.compare_refl, Pos.compare_cont_refl; reflexivity.
Qed.

Lemma F64_add_zero_r (x : float) :
  F64.is_nan x = false -> F64.eqb (F64.add x F64.zero) x = true.
Proof.
  intros H. unfold F64.eqb, SFeqb.
  destruct x as [s|s| |s m e]; try discriminate; try (now destruct s).
  unfold F64.add, F64.zero, SFadd. now rewrite SFcompare_refl.
Qed.

Lemma F64_add_zero_l (x : float) :
  F64.is_nan x = false -> F64.eqb (F64.add F64.zero x) x = true.
Proof.
  intros H. unfold F64.eqb, SFeqb.
  destruct x as [s|s| |s m e]; try discriminate; try (now destruct s).
  unfold F64.add, F64.zero, SFadd. now rewrite SFcompare_refl.
Qed.

Lemma add_v_zero_r (x : value) :
  numeric x = true -> isna x = false -> eq_v (add_v x (VInt 0)) x = true.
Proof.
  destruct x; try discriminate; simpl; intros _ H.
  - now apply F64_add_zero_r.
  - rewrite Z.add_0_r. apply Z.eqb_refl.
Qed.

Lemma add_v_zero_l (x : value) :
  numeric x = true -> isna x = false -> eq_v (add_v (VInt 0) x) x = true.
Proof.
  destruct x; try discriminate; simpl; intros _ H.
  - now apply F64_add_zero_l.
  - apply Z.eqb_refl.
Qed.

Lemma fillna0_present (v : value) : isna (fillna0 v) = false.
Proof. unfold fillna0. destruct (isna v) eqn:E; [reflexivity | exact E]. Qed.

Lemma fillna0_numeric (v : value) : numeric v = true -> numeric (fillna0 v) = true.
Proof. unfold fillna0. now destruct (isna v). Qed.

Lemma gt_nan (n : Z) : gt F64.nan n = false.
Proof. unfold gt, F64.ltb, SFltb, F64.nan. now destruct (F64.of_Z n). Qed.

Lemma filter_notna_all_missing (s : Series) :
  forallb isna s = true -> filter notna s = [].
Proof.
  induction s as [|v s IH]; simpl; [reflexivity|].
  rewrite andb_true_iff. intros [Hv Hs]. unfold notna at 1. rewrite Hv. simpl. auto.
Qed.

Lemma mean_all_missing {L : Library} (s : Series) :
  forallb isna s = true -> mean s = F64.nan.
Proof. intros H. unfold mean. now rewrite (filter_notna_all_missing _ H). Qed.

(** The imperative list building of [insights] computes the table. *)
Lemma insights_eq_table {L : Library} (df : DataFrame) (p d : Series) :
  df.["processing_time_days"] = Ok p ->
  df.["delivery_delay_days"] = Ok d ->
  insights df = Ok (insights_table (gt (mean p) 1) (gt (mean d) 2)).
Proof.
  intros Hp Hd. unfold insights. rewrite Hp. cbn [bind]. rewrite Hd. cbn [bind].
  now destruct (gt (mean p) 1), (gt (mean d) 2).
Qed.

Lemma insights_table_processing (a b : bool) :
  In slow_processing (insights_table a b) <-> a = true.
Proof.
  destruct a, b; simpl; split; intros H; try reflexivity; try discriminate; auto;
    repeat match goal with
           | H : _ \/ _ |- _ => destruct H
           | H : False |- _ => destruct H
           | H : _ = _ |- _ => discriminate H
           end.
Qed.

Lemma insights_table_shipping (a b : bool) :
  In slow_shipping (insights_table a b) <-> b = true.
Proof.
  destruct a, b; simpl; split; intros H; try reflexivity; try discriminate; auto;
    repeat match goal with
           | H : _ \/ _ |- _ => destruct H
           | H : False |- _ => destruct H
           | H : _ = _ |- _ => discriminate H
           end.
Qed.

Lemma insights_table_none (a b : bool) :
  In no_bottleneck (insights_table a b) -> a = false /\ b = false.
Proof.
  destruct a, b; simpl; intros H; auto;
    repeat match goal with
           | H : _ \/ _ |- _ => destruct H
           | H : False |- _ => destruct H
           | H : _ = _ |- _ => discriminate H
           end.
Qed.

(* ========================================================================= *)
(** * The claims *)

Section Claims.
Context {L : Library}.

(** C1.  In every loaded record each of the five day-difference columns
    (processing_time, delivery_delay, commande_to_creation,
    commande_to_expedition, commande_to_last_status) is missing (NaN, never
    zero) as soon as one of its two timestamps is missing, and is otherwise
    the whole-day count of the exact difference, negative when the timestamps
    are inverted; a normalized timestamp is always either NaT or a
    timestamp, so the two cases are all there is. *)
Theorem day_differences (csv df : DataFrame) (i : nat) (row : Row) :
  load_data csv = Ok df ->
  nth_error (rows df) i = Some row ->
  (forall c, In c ("date_commande" :: date_columns) ->
     row c = VNaT \/ exists t, row c = VTimestamp t) /\
  whole_day_diff (row "date_creation") (row "date_expedition")
                 (row "processing_time_days") /\
  whole_day_diff (row "date_expedition") (row "date_last_status")
                 (row "delivery_delay_days") /\
  whole_day_diff (row "date_commande") (row "date_creation")
                 (row "commande_to_creation_days") /\
  whole_day_diff (row "date_commande") (row "date_expedition")
                 (row "commande_to_expedition_days") /\
  whole_day_diff (row "date_commande") (row "date_last_status")
                 (row "commande_to_last_status_days").
Proof.
  intros H Hrow.
  assert (Hin : In row (rows df)) by (eapply nth_error_In; eauto).
  destruct (load_data_In _ _ _ H Hin) as (raw & _ & ->).
  set (b := has_col csv "Date de commande").
  destruct (loaded_dates b raw) as (D1 & D2 & D3 & D4).
  destruct (loaded_days b raw) as (P1 & P2 & P3 & P4 & P5).
  split.
  - intros c [<- | [<- | [<- | [<- | []]]]].
    + rewrite D4. destruct b; [apply to_datetime1_cases | now left].
    + rewrite D1. apply to_datetime1_cases.
    + rewrite D2. apply to_datetime1_cases.
    + rewrite D3. apply to_datetime1_cases.
  - rewrite P1, P2, P3, P4, P5. repeat split; apply whole_day_diff_days.
Qed.

(** C2.  In every loaded record the delivered flag is True exactly when the
    status is a text whose lower-cased form has "livré" as a substring, and
    the returned flag is True exactly when it has "retour" as a substring.
    The two are computed independently: a status with both markers sets both
    flags.  The match is case-insensitive: two statuses with the same
    lower-cased form get the same flags. *)
Theorem status_flags (csv df : DataFrame) (i : nat) (row : Row) :
  load_data csv = Ok df ->
  nth_error (rows df) i = Some row ->
  (row "delivered" = VBool true <->
     exists s, row "last_status" = VStr s /\ substring_of "livré" (str_lower s)) /\
  (row "returned" = VBool true <->
     exists s, row "last_status" = VStr s /\ substring_of "retour" (str_lower s)) /\
  (forall s, row "last_status" = VStr s ->
     substring_of "livré" (str_lower s) -> substring_of "retour" (str_lower s) ->
     row "delivered" = VBool true /\ row "returned" = VBool true) /\
  (forall j row' s s', nth_error (rows df) j = Some row' ->
     row "last_status" = VStr s -> row' "last_status" = VStr s' ->
     str_lower s = str_lower s' ->
     row "delivered" = row' "delivered" /\ row "returned" = row' "returned").
Proof.
  intros H Hrow.
  assert (Hin : In row (rows df)) by (eapply nth_error_In; eauto).
  destruct (load_data_In _ _ _ H Hin) as (raw & _ & ->).
  destruct (loaded_flags (has_col csv "Date de commande") raw) as (F0 & F1 & F2).
  rewrite F0, F1, F2.
  split; [apply flag_true_iff|]. split; [apply flag_true_iff|]. split.
  - intros s Hs H1 H2. split; apply flag_true_iff; eauto.
  - intros j row' s s' Hrow' Hs Hs' Hlow.
    assert (Hin' : In row' (rows df)) by (eapply nth_error_In; eauto).
    destruct (load_data_In _ _ _ H Hin') as (raw' & _ & ->).
    destruct (loaded_flags (has_col csv "Date de commande") raw') as (G0 & G1 & G2).
    rewrite G0 in Hs'. rewrite G1, G2, Hs, Hs'. simpl.
    now rewrite Hlow.
Qed.

(** C3.  In every loaded record revenue is the order total with a missing
    total replaced by 0, and the cash-collected flag is the one read with a
    missing flag replaced by 0.  When exactly one of delivered / returned is
    True, the revenue column of that flag (success_revenue for delivered,
    lost_revenue for returned) equals revenue and the other is 0, so that
    for a numeric order total their sum equals revenue. *)
Theorem revenue_split (csv df : DataFrame) (i : nat) (raw row : Row) :
  load_data csv = Ok df ->
  nth_error (rows csv) i = Some raw ->
  nth_error (rows df) i = Some row ->
  let total := raw "Montant total de la commande" in
  row "revenue" = (if isna total then VInt 0 else total) /\
  row "has_recouvrement" =
    (if isna (raw "has_recouvrement") then VInt 0 else raw "has_recouvrement") /\
  (row "delivered" = VBool true -> row "returned" <> VBool true ->
     row "success_revenue" = row "revenue" /\ row "lost_revenue" = VInt 0 /\
     (numeric total = true ->
      eq_v (add_v (row "success_revenue") (row "lost_revenue")) (row "revenue") = true)) /\
  (row "returned" = VBool true -> row "delivered" <> VBool true ->
     row "lost_revenue" = row "revenue" /\ row "success_revenue" = VInt 0 /\
     (numeric total = true ->
      eq_v (add_v (row "success_revenue") (row "lost_revenue")) (row "revenue") = true)).
Proof.
  intros H Hraw Hrow total.
  rewrite (load_data_nth _ _ _ _ _ H Hraw Hrow).
  set (b := has_col csv "Date de commande").
  destruct (loaded_revenue b raw) as (V1 & V2 & V3 & V4).
  rewrite V2, V3, V1, V4. fold total.
  split; [reflexivity|]. split; [reflexivity|].
  set (dl := derive_row (normalize_row b raw) "delivered").
  set (rt := derive_row (normalize_row b raw) "returned").
  split.
  - intros Hd Hr. rewrite Hd. simpl.
    assert (E : where1 (fillna0 total) rt = VInt 0).
    { destruct rt as [| | |[|]| | |]; try reflexivity. now elim Hr. }
    rewrite E. repeat split.
    intros Hn. apply add_v_zero_r; [now apply fillna0_numeric | apply fillna0_present].
  - intros Hr Hd. rewrite Hr. simpl.
    assert (E : where1 (fillna0 total) dl = VInt 0).
    { destruct dl as [| | |[|]| | |]; try reflexivity. now elim Hd. }
    rewrite E. repeat split.
    intros Hn. apply add_v_zero_l; [now apply fillna0_numeric | apply fillna0_present].
Qed.

(** C6.  Reading the date columns never fails on a bad value: whenever the
    file has the three date columns, the normalizer returns, with one record
    per input record, whatever the cells hold; each cell of the three date
    columns is NaT when it is missing or does not parse and the parsed
    timestamp otherwise; the same holds for the order-placement column
    'Date de commande' when the file has it, and when the file has no such
    column the normalizer still returns and every record's commande
    timestamp is NaT.  The rest of the load leaves these four columns as the
    normalizer made them. *)
Theorem timestamps_coerced (csv : DataFrame) :
  forallb (has_col csv) date_columns = true ->
  exists df,
    normalize_dates csv = Ok df /\
    List.length (rows df) = List.length (rows csv) /\
    (forall i raw, nth_error (rows csv) i = Some raw ->
       exists row,
         nth_error (rows df) i = Some row /\
         (forall c, In c date_columns -> coerced (raw c) (row c)) /\
         (has_col csv "Date de commande" = true ->
            coerced (raw "Date de commande") (row "date_commande")) /\
         (has_col csv "Date de commande" = false -> row "date_commande" = VNaT)) /\
    (forall out, load_data csv = Ok out ->
       forall i row, nth_error (rows df) i = Some row ->
         exists row',
           nth_error (rows out) i = Some row' /\
           forall c, In c ("date_commande" :: date_columns) -> row' c = row c).
Proof.
  intros Hreq. destruct (normalize_dates_total csv Hreq) as [df H].
  exists df. split; [exact H|].
  pose proof (normalize_dates_rows _ _ H) as R. split; [|split].
  - rewrite R. apply length_map.
  - intros i raw Hraw. eexists. split.
    + rewrite R, nth_error_map, Hraw. reflexivity.
    + split; [|split].
      * intros c [<- | [<- | [<- | []]]]; apply coerced_to_datetime1.
      * intros Hc. rewrite Hc. apply coerced_to_datetime1.
      * intros Hc. now rewrite Hc.
  - intros out Hout i row Hrow. unfold load_data in Hout. rewrite H in Hout.
    cbn [bind] in Hout. apply derive_features_rows in Hout.
    eexists. split.
    + rewrite Hout, nth_error_map, Hrow. reflexivity.
    + intros c [<- | [<- | [<- | [<- | []]]]]; reflexivity.
Qed.

(** C7.  The insights are a table of the two predicates, in declaration
    order: the processing advisory is present iff the mean processing time
    is > 1, the shipping advisory iff the mean delivery delay is > 2, the
    processing advisory comes first when both are present, and the single
    "no bottleneck" string is the output iff neither fires.  The means
    enter only through the two comparisons. *)
Theorem insights_in_declaration_order (df : DataFrame) (p d : Series) :
  df.["processing_time_days"] = Ok p ->
  df.["delivery_delay_days"] = Ok d ->
  let slow_p := gt (mean p) 1 in
  let slow_d := gt (mean d) 2 in
  exists l,
    insights df = Ok l /\
    l = insights_table slow_p slow_d /\
    (In slow_processing l <-> slow_p = true) /\
    (In slow_shipping l <-> slow_d = true) /\
    (slow_p = true -> slow_d = true -> l = [slow_processing; slow_shipping]) /\
    (slow_p = false -> slow_d = false -> l = [no_bottleneck]) /\
    (In no_bottleneck l -> slow_p = false /\ slow_d = false).
Proof.
  intros Hp Hd slow_p slow_d.
  exists (insights_table slow_p slow_d).
  split; [now apply insights_eq_table|]. split; [reflexivity|].
  split; [apply insights_table_processing|].
  split; [apply insights_table_shipping|].
  split; [now intros -> ->|]. split; [now intros -> ->|].
  apply insights_table_none.
Qed.

(** C10.  A mean over a column whose every cell is missing is NaN, and NaN
    exceeds no threshold: the corresponding advisory is not produced.  With
    both columns entirely missing the insights are exactly the single
    "no bottleneck" string. *)
Theorem undefined_mean_fires_nothing (df : DataFrame) (p d : Series) (l : list string) :
  df.["processing_time_days"] = Ok p ->
  df.["delivery_delay_days"] = Ok d ->
  insights df = Ok l ->
  (forallb isna p = true -> gt (mean p) 1 = false /\ ~ In slow_processing l) /\
  (forallb isna d = true -> gt (mean d) 2 = false /\ ~ In slow_shipping l) /\
  (forallb isna p = true -> forallb isna d = true -> l = [no_bottleneck]).
Proof.
  intros Hp Hd Hl.
  rewrite (insights_eq_table df p d Hp Hd) in Hl. injection Hl as <-.
  assert (Np : forallb isna p = true -> gt (mean p) 1 = false)
    by (intros A; rewrite (mean_all_missing _ A); apply gt_nan).
  assert (Nd : forallb isna d = true -> gt (mean d) 2 = false)
    by (intros A; rewrite (mean_all_missing _ A); apply gt_nan).
  split; [|split].
  - intros A. split; [auto|]. rewrite insights_table_processing, (Np A). discriminate.
  - intros A. split; [auto|]. rewrite insights_table_shipping, (Nd A). discriminate.
  - intros A1 A2. rewrite (Np A1), (Nd A2). reflexivity.
Qed.

End Claims.

(* ------------------------------------------------------------------------- *)
(** ** Reordering by positions *)

Section Reorder.
Context {A : Type}.
Implicit Types (l : list A) (idx : list nat).

Lemma reorder_app idx1 idx2 l :
  reorder (idx1 ++ idx2) l = reorder idx1 l ++ reorder idx2 l.
Proof. apply flat_map_app. Qed.

Lemma reorder_cons i idx l : reorder (i :: idx) l = reorder [i] l ++ reorder idx l.
Proof. unfold reorder. simpl. now rewrite app_nil_r. Qed.

Lemma reorder_one_rev i l : rev (reorder [i] l) = reorder [i] l.
Proof. unfold reorder. simpl. now destruct (nth_error l i). Qed.

Lemma reorder_rev idx l : reorder (rev idx) l = rev (reorder idx l).
Proof.
  induction idx as [|i idx IH]; [reflexivity|].
  change (rev (i :: idx)) with (rev idx ++ [i]).
  rewrite reorder_app, IH, (reorder_cons i idx), rev_app_distr.
  now rewrite reorder_one_rev.
Qed.

Lemma reorder_in idx l x : In x (reorder idx l) -> In x l.
Proof.
  unfold reorder. rewrite in_flat_map. intros (i & _ & H).
  destruct (nth_error l i) eqn:E; [|contradiction].
  destruct H as [<- | []]. eapply nth_error_In; eauto.
Qed.

(** In range, [reorder] reads position by position. *)
Lemma reorder_nth_error idx l k :
  (forall j, In j idx -> j < List.length l) ->
  nth_error (reorder idx l) k =
  match nth_error idx k with
  | Some j => nth_error l j
  | None => None
  end.
Proof.
  revert k. induction idx as [|i idx IH]; intros k Hr.
  - now destruct k.
  - rewrite reorder_cons. unfold reorder at 1. simpl.
    destruct (nth_error l i) as [x|] eqn:E.
    + destruct k; simpl; [congruence|]. apply IH. intros j Hj. apply Hr. now right.
    + apply nth_error_None in E. specialize (Hr i (or_introl eq_refl)). lia.
Qed.

Lemma reorder_length idx l :
  (forall j, In j idx -> j < List.length l) ->
  List.length (reorder idx l) = List.length idx.
Proof.
  induction idx as [|i idx IH]; intros Hr; [reflexivity|].
  rewrite reorder_cons, length_app, IH by (intros j Hj; apply Hr; now right).
  unfold reorder. simpl.
  destruct (nth_error l i) eqn:E; [reflexivity|].
  apply nth_error_None in E. specialize (Hr i (or_introl eq_refl)). lia.
Qed.

Lemma reorder_seq_from l1 l2 :
  reorder (seq (List.length l1) (List.length l2)) (l1 ++ l2) = l2.
Proof.
  revert l1. induction l2 as [|x l2 IH]; intros l1; [reflexivity|].
  simpl seq. rewrite reorder_cons. unfold reorder at 1. simpl.
  rewrite nth_error_app2, Nat.sub_diag by lia. simpl. f_equal.
  specialize (IH (l1 ++ [x])). rewrite length_app, <- app_assoc in IH. simpl in IH.
  now rewrite Nat.add_1_r in IH.
Qed.

Lemma reorder_seq l : reorder (seq 0 (List.length l)) l = l.
Proof. exact (reorder_seq_from [] l). Qed.

Lemma reorder_perm idx l :
  Permutation idx (seq 0 (List.length l)) -> Permutation (reorder idx l) l.
Proof.
  intros H. rewrite <- (reorder_seq l) at 2. unfold reorder.
  now apply Permutation_flat_map.
Qed.

End Reorder.

Lemma reorder_map {A B} (f : A -> B) (idx : list nat) (l : list A) :
  reorder idx (map f l) = map f (reorder idx l).
Proof.
  induction idx as [|i idx IH]; [reflexivity|].
  rewrite (reorder_cons i idx (map f l)), (reorder_cons i idx l), map_app, IH.
  f_equal. unfold reorder. simpl. rewrite nth_error_map.
  now destruct (nth_error l i).
Qed.

Lemma reorder_single {A} (i : nat) (l : list A) :
  reorder [i] l = match nth_error l i with Some x => [x] | None => [] end.
Proof. unfold reorder. simpl. apply app_nil_r. Qed.

(** Reading through two lists of positions. *)
Lemma reorder_reorder {A} (a idx : list nat) (l : list A) :
  (forall j, In j idx -> j < List.length l) ->
  reorder (reorder a idx) l = reorder a (reorder idx l).
Proof.
  intros Hr. induction a as [|i a IH]; [reflexivity|].
  rewrite (reorder_cons i a idx), reorder_app, IH, (reorder_cons i a (reorder idx l)).
  f_equal. rewrite (reorder_single i idx), (reorder_single i (reorder idx l)).
  rewrite (reorder_nth_error idx l i Hr).
  destruct (nth_error idx i) as [j|]; [|reflexivity].
  apply reorder_single.
Qed.

(** The positions that pass a test on their element select the elements that
    pass it. *)
Lemma reorder_filter_seq {A} (p : A -> bool) (d : A) (l : list A) :
  reorder (filter (fun i => p (nth i l d)) (seq 0 (List.length l))) l = filter p l.
Proof.
  induction l as [|x l IH] using rev_ind; [reflexivity|].
  rewrite length_app. simpl. rewrite Nat.add_1_r, seq_S, !filter_app. simpl.
  rewrite app_nth2, Nat.sub_diag by lia. simpl.
  rewrite reorder_app. f_equal.
  - rewrite <- IH.
    rewrite (filter_ext_in (fun i => p (nth i (l ++ [x]) d)) (fun i => p (nth i l d))).
    + set (idx := filter _ _).
      assert (Hr : forall j, In j idx -> j < List.length l).
      { intros j Hj. apply filter_In in Hj as [Hj _]. apply in_seq in Hj. lia. }
      clearbody idx. induction idx as [|i idx IHi]; [reflexivity|].
      rewrite (reorder_cons i idx (l ++ [x])), (reorder_cons i idx l), IHi
        by (intros j Hj; apply Hr; now right).
      f_equal. unfold reorder. simpl.
      rewrite nth_error_app1 by (apply Hr; now left). reflexivity.
    + intros i Hi. apply in_seq in Hi. now rewrite app_nth1 by lia.
  - destruct (p x); [|reflexivity].
    unfold reorder. simpl. rewrite nth_error_app2, Nat.sub_diag by lia. reflexivity.
Qed.

Lemma filter_partition_perm {A} (p : A -> bool) (l : list A) :
  Permutation (filter p l ++ filter (fun x => negb (p x)) l) l.
Proof.
  induction l as [|x l IH]; [constructor|].
  simpl. destruct (p x); simpl.
  - now constructor.
  - apply Permutation_sym, Permutation_cons_app, Permutation_sym, IH.
Qed.

Lemma is_perm_seq_perm (idx : list nat) (n : nat) :
  is_perm_seq idx n = true -> Permutation idx (seq 0 n).
Proof.
  unfold is_perm_seq. rewrite andb_true_iff, Nat.eqb_eq, forallb_forall.
  intros [Hlen Hall]. apply Permutation_sym, NoDup_Permutation_bis.
  - apply seq_NoDup.
  - rewrite length_seq. lia.
  - intros i Hi. specialize (Hall i Hi). apply existsb_exists in Hall as (j & Hj & E).
    apply Nat.eqb_eq in E. now subst.
Qed.

(* ------------------------------------------------------------------------- *)
(** ** Sorted lists *)

(** Every two neighbours are in relation. *)
Definition adjacent {A} (R : A -> A -> bool) (l : list A) : Prop :=
  forall l1 a b l2, l = l1 ++ a :: b :: l2 -> R a b = true.

Lemma sorted_b_adjacent {A} (R : A -> A -> bool) (l : list A) :
  sorted_b R l = true <-> adjacent R l.
Proof.
  unfold adjacent. induction l as [|x l IH].
  - split; [|reflexivity]. intros _ l1 a b l2 H. now destruct l1.
  - destruct l as [|y l].
    + split; [|reflexivity]. intros _ l1 a b l2 H.
      destruct l1 as [|? [|? ?]]; discriminate.
    + change (sorted_b R (x :: y :: l)) with (R x y && sorted_b R (y :: l)).
      rewrite andb_true_iff, IH. split.
      * intros [Hxy Hl] l1 a b l2 H. destruct l1 as [|z l1].
        -- simpl in H. injection H as Ha Hb Hl'. congruence.
        -- simpl in H. injection H as Ha H. eapply Hl; eauto.
      * intros H. split.
        -- apply (H [] x y l). reflexivity.
        -- intros l1 a b l2 E. apply (H (x :: l1) a b l2). simpl. now f_equal.
Qed.

Lemma adjacent_rev {A} (R : A -> A -> bool) (l : list A) :
  adjacent R l -> adjacent (fun a b => R b a) (rev l).
Proof.
  unfold adjacent. intros H l1 a b l2 E.
  apply (f_equal (@rev A)) in E. rewrite rev_involutive in E.
  rewrite rev_app_distr in E. simpl in E. rewrite <- !app_assoc in E. simpl in E.
  eapply H; eauto.
Qed.

Lemma adjacent_firstn {A} (R : A -> A -> bool) (n : nat) (l : list A) :
  adjacent R l -> adjacent R (firstn n l).
Proof.
  unfold adjacent. intros H l1 a b l2 E.
  rewrite <- (firstn_skipn n l) in H. rewrite E in H.
  eapply (H l1 a b (l2 ++ skipn n l)). rewrite <- app_assoc. reflexivity.
Qed.

(** A descending run of present keys followed by missing keys is a
    descending column with the missing cells last. *)
Lemma adjacent_present_then_missing (X N : Series) :
  adjacent (fun a b => key_leb b a) X ->
  (forall x, In x X -> notna x = true) ->
  (forall x, In x N -> isna x = true) ->
  adjacent ge_key (X ++ N).
Proof.
  unfold adjacent, ge_key. intros HX HXp HN l1 a b l2 E.
  destruct (isna b) eqn:Eb; [reflexivity|]. simpl.
  assert (Hb : In b X).
  { assert (In b (X ++ N)) by (rewrite E; apply in_or_app; right; right; now left).
    apply in_app_or in H as [H|H]; [exact H|]. apply HN in H. congruence. }
  apply app_eq_app in E as (m & [[E1 E2] | [E1 E2]]).
  - (* the pair lies in X, or spans the boundary *)
    destruct m as [|c m].
    + rewrite app_nil_r in E1. subst X. simpl in E2. subst N.
      specialize (HN b (or_intror (or_introl eq_refl))). congruence.
    + injection E2 as <- E2. destruct m as [|c' m].
      * simpl in E2. subst N. specialize (HN b (or_introl eq_refl)). congruence.
      * injection E2 as <- E2.
        rewrite (HXp a) by (subst X; apply in_or_app; right; now left). simpl.
        eapply HX. rewrite E1. reflexivity.
  - (* the pair lies in N *)
    assert (H : In b N).
    { rewrite E2. apply in_or_app. right. right. now left. }
    apply HN in H. congruence.
Qed.

(* ------------------------------------------------------------------------- *)
(** ** [nargsort]: a descending permutation, missing keys last *)

Lemma reorder_in_range_length {A} (p : nat -> bool) (l : list A) :
  forall j, In j (filter p (seq 0 (List.length l))) -> j < List.length l.
Proof. intros j Hj. apply filter_In in Hj as [Hj _]. apply in_seq in Hj. lia. Qed.

Lemma reorder_as_map {A} (d : A) (idx : list nat) (l : list A) :
  (forall j, In j idx -> j < List.length l) ->
  map (fun i => nth i l d) idx = reorder idx l.
Proof.
  induction idx as [|i idx IH]; intros Hr; [reflexivity|].
  rewrite (reorder_cons i idx l), reorder_single. simpl.
  rewrite IH by (intros j Hj; apply Hr; now right).
  rewrite (nth_error_nth' l d) by (apply Hr; now left). reflexivity.
Qed.

Section Nargsort.
Context {L : Library}.

Lemma nargsort_desc_spec (items : Series) :
  argsort_ok (sort_input items) (argsort (sort_input items)) = true ->
  Permutation (nargsort_desc items) (seq 0 (List.length items)) /\
  sorted_desc (reorder (nargsort_desc items) items).
Proof.
  unfold argsort_ok. rewrite andb_true_iff. intros [Hperm Hsort].
  apply is_perm_seq_perm in Hperm. apply sorted_b_adjacent in Hsort.
  unfold nargsort_desc. cbv zeta.
  set (NN := filter (fun i => notna (nth i items NaN)) (seq 0 (List.length items))).
  set (NA := filter (fun i => isna (nth i items NaN)) (seq 0 (List.length items))).
  assert (RNN : forall j, In j NN -> j < List.length items)
    by apply reorder_in_range_length.
  assert (FNN : reorder NN items = filter notna items)
    by apply (reorder_filter_seq notna NaN).
  assert (FNA : reorder NA items = filter isna items)
    by apply (reorder_filter_seq isna NaN).
  assert (EK : rev (map (fun i => nth i items NaN) NN) = sort_input items).
  { unfold sort_input. now rewrite (reorder_as_map NaN NN items RNN), FNN. }
  rewrite EK. set (a := argsort (sort_input items)) in *.
  assert (LK : List.length (sort_input items) = List.length (rev NN)).
  { unfold sort_input. rewrite !length_rev, <- FNN. now apply reorder_length. }
  rewrite LK in Hperm.
  split.
  - (* the positions *)
    apply Permutation_trans with (NN ++ NA).
    + apply Permutation_app; [|reflexivity].
      eapply Permutation_trans; [apply Permutation_sym, Permutation_rev|].
      eapply Permutation_trans; [apply (reorder_perm a (rev NN) Hperm)|].
      apply Permutation_sym, Permutation_rev.
    + unfold NN, NA.
      rewrite (filter_ext (fun i => isna (nth i items NaN))
                          (fun i => negb (notna (nth i items NaN))))
        by (intros i; unfold notna; now rewrite negb_involutive).
      apply filter_partition_perm.
  - (* the keys *)
    unfold sorted_desc. apply sorted_b_adjacent.
    rewrite reorder_app, reorder_rev, FNA.
    rewrite reorder_reorder
      by (intros j Hj; apply RNN; now apply in_rev).
    rewrite reorder_rev, FNN. fold (sort_input items).
    apply adjacent_present_then_missing.
    + now apply (adjacent_rev key_leb).
    + intros x Hx. apply in_rev, reorder_in in Hx. unfold sort_input in Hx.
      apply in_rev, filter_In in Hx. tauto.
    + intros x Hx. apply filter_In in Hx. tauto.
Qed.

Lemma sort_values_desc_spec (df : DataFrame) (by_ : string) (keys : Series) :
  df.[by_] = Ok keys ->
  argsort_ok (sort_input keys) (argsort (sort_input keys)) = true ->
  exists out,
    sort_values_desc df by_ = Ok out /\
    columns out = columns df /\
    Permutation (rows out) (rows df) /\
    sorted_desc (map (fun r => r by_) (rows out)).
Proof.
  intros Hk Hok. unfold sort_values_desc. rewrite Hk. simpl bind.
  eexists. split; [reflexivity|]. simpl. split; [reflexivity|].
  destruct (nargsort_desc_spec keys Hok) as [Hp Hs].
  apply col_ok in Hk. split.
  - apply reorder_perm. replace (List.length (rows df)) with (List.length keys)
      by (rewrite Hk; apply length_map).
    exact Hp.
  - rewrite <- reorder_map, <- Hk. exact Hs.
Qed.

Lemma sorted_desc_firstn (n : nat) (keys : Series) :
  sorted_desc keys -> sorted_desc (firstn n keys).
Proof.
  unfold sorted_desc. rewrite !sorted_b_adjacent. apply adjacent_firstn.
Qed.

End Nargsort.

(* ------------------------------------------------------------------------- *)
(** ** Grouping *)

Lemma insert_by_perm {A} (leb : A -> A -> bool) (x : A) (l : list A) :
  Permutation (insert_by leb x l) (x :: l).
Proof.
  induction l as [|y l IH]; simpl; [reflexivity|].
  destruct (leb x y); [reflexivity|].
  eapply Permutation_trans; [apply perm_skip, IH | apply perm_swap].
Qed.

Lemma isort_perm {A} (leb : A -> A -> bool) (l : list A) :
  Permutation (isort leb l) l.
Proof.
  induction l as [|x l IH]; simpl; [reflexivity|].
  eapply Permutation_trans; [apply insert_by_perm | now apply perm_skip].
Qed.

Lemma value_eqb_eq (a b : value) : value_eqb a b = true <-> a = b.
Proof. unfold value_eqb. destruct (value_eq_dec a b); split; congruence. Qed.

Lemma group_keys_NoDup (keys : Series) : NoDup (group_keys keys).
Proof.
  unfold group_keys.
  eapply Permutation_NoDup; [apply Permutation_sym, isort_perm|].
  apply NoDup_nodup.
Qed.

Lemma group_keys_In (keys : Series) (k : value) :
  In k (group_keys keys) <-> notna k = true /\ In k keys.
Proof.
  unfold group_keys. split.
  - intros H. apply (Permutation_in _ (isort_perm _ _)) in H.
    apply nodup_In, filter_In in H. tauto.
  - intros [Hn Hk]. apply (Permutation_in _ (Permutation_sym (isort_perm _ _))).
    apply nodup_In, filter_In. tauto.
Qed.

(** Each row falls in the group of at most one key. *)
Lemma one_group (P : bool) (v : value) (ks : list value) :
  NoDup ks ->
  fold_right (fun k acc => (if value_eqb v k && P then 1 else 0) + acc)%nat 0%nat ks
  = (if existsb (value_eqb v) ks && P then 1 else 0)%nat.
Proof.
  induction 1 as [|k ks Hk Hnd IH]; simpl; [reflexivity|].
  rewrite IH. destruct (value_eqb v k) eqn:E; simpl; [|reflexivity].
  apply value_eqb_eq in E. subst k.
  assert (Ex : existsb (value_eqb v) ks = false).
  { destruct (existsb (value_eqb v) ks) eqn:Ex; [|reflexivity].
    apply existsb_exists in Ex as (k & Hin & Hk'). apply value_eqb_eq in Hk'.
    subst k. contradiction. }
  rewrite Ex. simpl. now destruct P.
Qed.

Lemma fold_sizes_cons {K A} (f : K -> A -> bool) (x : A) (l : list A) (ks : list K) :
  fold_right (fun k acc => (List.length (filter (f k) (x :: l)) + acc)%nat) 0%nat ks
  = (fold_right (fun k acc => ((if f k x then 1 else 0) + acc)%nat) 0%nat ks
     + fold_right (fun k acc => (List.length (filter (f k) l) + acc)%nat) 0%nat ks)%nat.
Proof.
  induction ks as [|k ks IH]; [reflexivity|].
  cbn [fold_right]. rewrite IH. cbn [filter]. destruct (f k x); cbn [List.length]; lia.
Qed.

(** The group sizes add up to the number of rows that fall in a group. *)
Lemma group_sizes_add_up (key : Row -> value) (P : Row -> bool)
      (ks : list value) (l : list Row) :
  NoDup ks ->
  fold_right
    (fun k acc =>
       (List.length (filter (fun r => value_eqb (key r) k && P r) l) + acc)%nat)
    0%nat ks
  = List.length (filter (fun r => existsb (value_eqb (key r)) ks && P r) l).
Proof.
  intros Hnd. induction l as [|r l IH].
  - simpl. clear Hnd. induction ks; simpl; auto.
  - rewrite (fold_sizes_cons (fun k r => value_eqb (key r) k && P r) r l ks).
    rewrite IH, (one_group (P r) (key r) ks Hnd).
    cbn [filter]. now destruct (existsb (value_eqb (key r)) ks && P r).
Qed.

Lemma filter_filter_map {A B} (p : B -> bool) (q : A -> bool) (f : A -> B) (l : list A) :
  List.length (filter p (map f (filter q l)))
  = List.length (filter (fun x => q x && p (f x)) l).
Proof.
  induction l as [|x l IH]; [reflexivity|].
  simpl. destruct (q x); simpl; [|exact IH].
  destruct (p (f x)); simpl; now rewrite IH.
Qed.

Lemma check_cols_ok (df : DataFrame) (cs : list string) :
  forallb (has_col df) cs = true -> check_cols df cs = Ok tt.
Proof.
  induction cs as [|c cs IH]; simpl; [reflexivity|].
  rewrite andb_true_iff. intros [Hc Hcs]. unfold col. rewrite Hc. simpl. auto.
Qed.

Lemma groupby_agg_rows (df g : DataFrame) (by_ : string) (aggs : list named_agg) :
  groupby_agg df by_ aggs = Ok g ->
  rows g =
  map (fun k => agg_row by_ aggs k (group df by_ k))
      (group_keys (map (fun r => r by_) (rows df))).
Proof.
  unfold groupby_agg. intros H.
  destruct (df.[by_]) as [keys|] eqn:E; [|discriminate H]. simpl in H.
  destruct (check_cols df (map agg_col aggs)); [|discriminate H]. simpl in H.
  injection H as <-. simpl. now rewrite (col_ok _ _ _ E).
Qed.

Lemma groupby_agg_columns (df g : DataFrame) (by_ : string) (aggs : list named_agg) :
  groupby_agg df by_ aggs = Ok g -> columns g = map agg_out aggs.
Proof.
  unfold groupby_agg. intros H.
  destruct (df.[by_]) as [keys|] eqn:E; [|discriminate H]. cbn [bind] in H.
  destruct (check_cols df (map agg_col aggs)); [|discriminate H]. cbn [bind] in H.
  now injection H as <-.
Qed.

Lemma existsb_group_keys (keys : Series) (v : value) :
  In v keys -> existsb (value_eqb v) (group_keys keys) = notna v.
Proof.
  intros Hin. destruct (notna v) eqn:E.
  - apply existsb_exists. exists v. split; [|now apply value_eqb_eq].
    apply group_keys_In. tauto.
  - destruct (existsb (value_eqb v) (group_keys keys)) eqn:Ex; [|reflexivity].
    apply existsb_exists in Ex as (k & Hk & Hv). apply value_eqb_eq in Hv. subst k.
    apply group_keys_In in Hk. destruct Hk; congruence.
Qed.

Lemma fold_sizes_ext {K} (f g : K -> nat) (ks : list K) :
  (forall k, f k = g k) ->
  fold_right (fun k acc => (f k + acc)%nat) 0%nat ks
  = fold_right (fun k acc => (g k + acc)%nat) 0%nat ks.
Proof. intros H. induction ks; simpl; congruence. Qed.

Lemma total_orders_groups (F : value -> Row) (n : value -> nat)
      (cols : list string) (ks : list value) :
  (forall k, F k "orders" = VInt (Z.of_nat (n k))) ->
  total_orders {| columns := cols; rows := map F ks |}
  = Z.of_nat (fold_right (fun k acc => (n k + acc)%nat) 0%nat ks).
Proof.
  intros HF. unfold total_orders. simpl rows.
  induction ks as [|k ks IH]; [reflexivity|].
  cbn [map fold_right]. rewrite HF, IH. lia.
Qed.

(** The counts of present order ids, summed over the groups of a key
    column, count the rows where both the key and the order id are present. *)
Lemma counts_add_up (df : DataFrame) (by_ : string) (F : value -> Row)
      (cols : list string) :
  (forall k, F k "orders" = count (map (fun r => r "order_id") (group df by_ k))) ->
  total_orders
    {| columns := cols;
       rows := map F (group_keys (map (fun r => r by_) (rows df))) |}
  = Z.of_nat
      (List.length
         (filter (fun r => notna (r by_) && notna (r "order_id")) (rows df))).
Proof.
  intros HF.
  rewrite (total_orders_groups F
             (fun k => List.length
                         (filter notna (map (fun r => r "order_id") (group df by_ k)))))
    by (intros k; apply HF).
  f_equal. unfold group.
  rewrite (fold_sizes_ext _
             (fun k => List.length
                (filter (fun r => value_eqb (r by_) k && notna (r "order_id")) (rows df))))
    by (intros k; apply filter_filter_map).
  rewrite (group_sizes_add_up (fun r => r by_) (fun r => notna (r "order_id")))
    by apply group_keys_NoDup.
  f_equal. apply filter_ext_in. intros r Hr.
  rewrite existsb_group_keys; [reflexivity|].
  exact (in_map (fun x => x by_) _ _ Hr).
Qed.

Section Reports.
Context {L : Library}.

Lemma slow_orders_eq (df : DataFrame) :
  slow_orders df = (s <- sort_values_desc df (slow_key df) ;; Ok (head 10 s)).
Proof. unfold slow_orders, slow_key. now destruct (has_col df _). Qed.

(** C4, as amended.  Each top-10 report (the slowest orders by delay, the
    most returned products by count) is the first ten rows of a
    rearrangement of its input that is in descending order of the metric,
    rows with a missing metric last: at most ten rows, descending.  Where
    two rows have the same metric the order is the sorting routine's own:
    [sort_values] is called with its default, unstable kind. *)
Theorem top10_descending (df : DataFrame) :
  (forall keys,
     df.[slow_key df] = Ok keys ->
     argsort_ok (sort_input keys) (argsort (sort_input keys)) = true ->
     exists out sorted,
       slow_orders df = Ok out /\
       Permutation sorted (rows df) /\
       sorted_desc (map (fun r => r (slow_key df)) sorted) /\
       rows out = firstn 10 sorted /\
       List.length (rows out) <= 10 /\
       sorted_desc (map (fun r => r (slow_key df)) (rows out))) /\
  (forall sizes,
     returns_by_product df = Ok (Some sizes) ->
     argsort_ok (sort_input (map snd sizes)) (argsort (sort_input (map snd sizes))) = true ->
     exists out sorted,
       top_returns df = Ok (Some out) /\
       Permutation sorted sizes /\
       sorted_desc (map snd sorted) /\
       out = firstn 10 sorted /\
       List.length out <= 10 /\
       sorted_desc (map snd out)).
Proof.
  split.
  - intros keys Hk Hok.
    destruct (sort_values_desc_spec df (slow_key df) keys Hk Hok)
      as (s & Hs & _ & Hperm & Hsorted).
    exists (head 10 s), (rows s). rewrite slow_orders_eq, Hs.
    cbn [bind head rows columns].
    repeat split; auto.
    + apply firstn_le_length.
    + rewrite <- firstn_map. now apply sorted_desc_firstn.
  - intros sizes Hr Hok.
    destruct (nargsort_desc_spec (map snd sizes) Hok) as [Hp Hs].
    exists (firstn 10 (sort_series_desc sizes)), (sort_series_desc sizes).
    unfold top_returns. rewrite Hr. cbn [bind option_map].
    assert (Hkeys : sorted_desc (map snd (sort_series_desc sizes))).
    { unfold sort_series_desc. now rewrite <- reorder_map. }
    repeat split; auto.
    + unfold sort_series_desc. apply reorder_perm. now rewrite length_map in Hp.
    + apply firstn_le_length.
    + rewrite <- firstn_map. now apply sorted_desc_firstn.
Qed.



(** C8, as amended.  The per-destination-region summary has exactly one row
    for every distinct destination region present in the input, singleton
    groups included, and none for a missing region; its order counts add up
    to the number of input records whose destination region and order id
    are both present, which is the total record count when no record lacks
    either. *)
Theorem region_counts (df out : DataFrame) :
  wilaya_stats df = Ok out ->
  let regions := map (fun r => r "to_wilaya_name") (rows out) in
  NoDup regions /\
  (forall k, In k regions <->
     notna k = true /\ exists r, In r (rows df) /\ r "to_wilaya_name" = k) /\
  total_orders out
  = Z.of_nat
      (List.length
         (filter (fun r => notna (r "to_wilaya_name") && notna (r "order_id"))
                 (rows df))) /\
  ((forall r, In r (rows df) ->
      notna (r "to_wilaya_name") = true /\ notna (r "order_id") = true) ->
   total_orders out = Z.of_nat (List.length (rows df))).
Proof.
  intros H regions. unfold wilaya_stats in H.
  destruct (groupby_agg _ _ _) as [g|] eqn:Hg; [|discriminate H].
  simpl in H. injection H as <-.
  pose proof (groupby_agg_rows _ _ _ _ Hg) as R.
  assert (Hreg : regions = group_keys (map (fun r => r "to_wilaya_name") (rows df))).
  { unfold regions, reset_index. simpl rows. rewrite R, map_map.
    rewrite <- (map_id (group_keys _)) at 2. apply map_ext. reflexivity. }
  assert (Htot : total_orders (reset_index "to_wilaya_name" g)
                 = Z.of_nat
                     (List.length
                        (filter (fun r => notna (r "to_wilaya_name") && notna (r "order_id"))
                                (rows df)))).
  { unfold total_orders, reset_index. simpl rows. rewrite R.
    apply (counts_add_up df "to_wilaya_name" _ []). reflexivity. }
  split; [rewrite Hreg; apply group_keys_NoDup|].
  split; [|split; [exact Htot|]].
  - intros k. rewrite Hreg, group_keys_In, in_map_iff.
    split; intros [Hn (r & A & B)]; split; eauto.
  - intros Hall. rewrite Htot. do 2 f_equal.
    rewrite <- (filter_ext_in (fun _ => true)).
    + clear. induction (rows df); simpl; congruence.
    + intros r Hr. destruct (Hall r Hr) as [-> ->]. reflexivity.
Qed.

End Reports.

(* ========================================================================= *)
(** * The claims on the example files *)

Lemma unwrap_ok {A} (r : result A) (d : A) :
  (exists a, r = Ok a) -> r = Ok (unwrap r d).
Proof. intros [a ->]. reflexivity. Defined.

Lemma nth_error_row_at (df : DataFrame) (i : nat) :
  (i <? List.length (rows df))%nat = true ->
  nth_error (rows df) i = Some (row_at df i).
Proof. intros H. apply nth_error_nth', Nat.ltb_lt, H. Defined.

Lemma groupby_agg_total (df : DataFrame) (by_ : string) (aggs : list named_agg) :
  has_col df by_ = true ->
  forallb (has_col df) (map agg_col aggs) = true ->
  exists g, groupby_agg df by_ aggs = Ok g.
Proof.
  intros Hb Ha. unfold groupby_agg. rewrite (col_present _ _ Hb). cbn [bind].
  rewrite (check_cols_ok _ _ Ha). cbn [bind]. eauto.
Qed.

Module Examples.
Import Demo.

Lemma load_csv : load_data (L := lib) csv = Ok loaded.
Proof. apply unwrap_ok, load_data_total; reflexivity. Qed.

Lemma load_csv_regions : load_data (L := lib) csv_regions = Ok loaded_regions.
Proof. apply unwrap_ok, load_data_total; reflexivity. Qed.

Lemma load_csv_bad_dates : load_data (L := lib) csv_bad_dates = Ok loaded_bad_dates.
Proof. apply unwrap_ok, load_data_total; reflexivity. Qed.

Lemma load_csv_no_region : load_data (L := lib) csv_no_region = Ok loaded_no_region.
Proof. apply unwrap_ok, load_data_total; reflexivity. Qed.

Lemma groups_of_regions : risk_groups (L := lib) loaded_regions = Ok groups.
Proof. apply unwrap_ok, groupby_agg_total; reflexivity. Qed.

Lemma stats_of_csv : wilaya_stats (L := lib) loaded = Ok stats.
Proof.
  apply unwrap_ok. unfold wilaya_stats.
  destruct (groupby_agg_total loaded "to_wilaya_name"
              [ mkAgg "orders" "order_id" count;
                mkAgg "revenue" "success_revenue" (sum_v (L := lib));
                mkAgg "return_rate" "returned" (mean_v (L := lib)) ]
              eq_refl eq_refl) as [g ->].
  cbn [bind]. eauto.
Qed.

(** The third order of [csv] was dispatched a day before it was created:
    its processing time is -1; the fourth has an unreadable dispatch date:
    its processing time is missing. *)
Lemma day_differences_witness :
  let row := row_at loaded 2 in
  (load_data (L := lib) csv = Ok loaded /\
   nth_error (rows loaded) 2 = Some row) /\
  row "processing_time_days" = VInt (-1) /\
  row_at loaded 3 "processing_time_days" = NaN /\
  whole_day_diff (row "date_creation") (row "date_expedition")
                 (row "processing_time_days") /\
  whole_day_diff (row "date_expedition") (row "date_last_status")
                 (row "delivery_delay_days").
Proof.
  pose proof (nth_error_row_at loaded 2 eq_refl) as Hrow.
  destruct (day_differences (L := lib) csv loaded 2 (row_at loaded 2) load_csv Hrow)
    as (_ & H1 & H2 & _).
  cbv zeta. split; [split; [exact load_csv | exact Hrow]|].
  split; [reflexivity|]. split; [reflexivity|]. split; assumption.
Defined.

(** The status "LIVRÉ puis RETOUR" carries both markers and sets both
    flags. *)
Lemma status_flags_witness :
  let row := row_at loaded 2 in
  (load_data (L := lib) csv = Ok loaded /\
   nth_error (rows loaded) 2 = Some row) /\
  row "last_status" = VStr "LIVRÉ puis RETOUR" /\
  row "delivered" = VBool true /\ row "returned" = VBool true /\
  (exists s, row "last_status" = VStr s /\
             substring_of "livré" (str_lower (Library := lib) s)) /\
  (exists s, row "last_status" = VStr s /\
             substring_of "retour" (str_lower (Library := lib) s)).
Proof.
  pose proof (nth_error_row_at loaded 2 eq_refl) as Hrow.
  destruct (status_flags (L := lib) csv loaded 2 (row_at loaded 2) load_csv Hrow)
    as (H1 & H2 & _).
  cbv zeta. split; [split; [exact load_csv | exact Hrow]|].
  split; [reflexivity|]. split; [reflexivity|]. split; [reflexivity|].
  split; [apply H1 | apply H2]; reflexivity.
Defined.

(** The first order of [csv] is delivered and not returned: its 1500 go to
    success_revenue. *)
Lemma revenue_split_witness :
  let raw := row_at csv 0 in
  let row := row_at loaded 0 in
  (load_data (L := lib) csv = Ok loaded /\
   nth_error (rows csv) 0 = Some raw /\
   nth_error (rows loaded) 0 = Some row /\
   row "delivered" = VBool true /\ row "returned" <> VBool true /\
   numeric (raw "Montant total de la commande") = true) /\
  row "revenue" = VInt 1500 /\
  row "success_revenue" = row "revenue" /\ row "lost_revenue" = VInt 0 /\
  eq_v (add_v (row "success_revenue") (row "lost_revenue")) (row "revenue") = true.
Proof.
  pose proof (nth_error_row_at csv 0 eq_refl) as Hraw.
  pose proof (nth_error_row_at loaded 0 eq_refl) as Hrow.
  assert (Hd : row_at loaded 0 "delivered" = VBool true) by reflexivity.
  assert (Hr : row_at loaded 0 "returned" <> VBool true).
  { assert (E : row_at loaded 0 "returned" = VBool false) by reflexivity.
    rewrite E. discriminate. }
  destruct (revenue_split (L := lib) csv loaded 0 _ _ load_csv Hraw Hrow)
    as (_ & _ & H & _).
  destruct (H Hd Hr) as (S1 & S2 & S3).
  cbv zeta. split.
  - split; [exact load_csv|]. split; [exact Hraw|]. split; [exact Hrow|].
    split; [exact Hd|]. split; [exact Hr | reflexivity].
  - split; [reflexivity|]. split; [exact S1|]. split; [exact S2|].
    apply S3. reflexivity.
Defined.

(** A file without the column 'Date de commande' is normalized, the
    unreadable dispatch date of its fourth order becomes NaT, and every
    commande timestamp is NaT. *)
Lemma timestamps_coerced_witness :
  forallb (has_col csv_no_commande) date_columns = true /\
  has_col csv_no_commande "Date de commande" = false /\
  exists df,
    normalize_dates (L := lib) csv_no_commande = Ok df /\
    List.length (rows df) = 4 /\
    exists row,
      nth_error (rows df) 3 = Some row /\
      coerced (L := lib) (VStr "bientot") (row "date_expedition") /\
      row "date_expedition" = VNaT /\
      row "date_commande" = VNaT.
Proof.
  split; [reflexivity|]. split; [reflexivity|].
  destruct (timestamps_coerced (L := lib) csv_no_commande eq_refl)
    as (df & Hload & Hlen & Hrows & _).
  exists df. split; [exact Hload|]. split; [exact Hlen|].
  destruct (Hrows 3 (row_at csv_no_commande 3) eq_refl)
    as (row & Hrow & Hdates & _ & Hcmd).
  exists row. split; [exact Hrow|].
  pose proof (Hdates "date_expedition" (or_intror (or_introl eq_refl))) as Hc.
  split; [exact Hc|]. split; [|apply Hcmd; reflexivity].
  apply (proj1 Hc). right. reflexivity.
Defined.

(** On [csv] the mean processing time is 1/3 day and the mean delivery delay
    11/3 days: only the shipping advisory is produced. *)
Lemma insights_witness :
  let p := map (fun r => r "processing_time_days") (rows loaded) in
  let d := map (fun r => r "delivery_delay_days") (rows loaded) in
  (loaded.["processing_time_days"] = Ok p /\ loaded.["delivery_delay_days"] = Ok d) /\
  gt (mean (L := lib) p) 1 = false /\ gt (mean (L := lib) d) 2 = true /\
  insights (L := lib) loaded = Ok [slow_shipping].
Proof.
  destruct (insights_in_declaration_order (L := lib) loaded _ _
              (col_present loaded "processing_time_days" eq_refl)
              (col_present loaded "delivery_delay_days" eq_refl))
    as (l & Hl & Ht & _).
  cbv zeta. split; [split; apply col_present; reflexivity|].
  split; [reflexivity|]. split; [reflexivity|].
  rewrite Hl, Ht. reflexivity.
Defined.

(** With no readable dispatch date both means are undefined and the only
    insight is "no bottleneck". *)
Lemma undefined_mean_witness :
  let p := map (fun r => r "processing_time_days") (rows loaded_bad_dates) in
  let d := map (fun r => r "delivery_delay_days") (rows loaded_bad_dates) in
  (loaded_bad_dates.["processing_time_days"] = Ok p /\
   loaded_bad_dates.["delivery_delay_days"] = Ok d /\
   insights (L := lib) loaded_bad_dates = Ok [no_bottleneck] /\
   forallb isna p = true /\ forallb isna d = true) /\
  gt (mean (L := lib) p) 1 = false /\ ~ In slow_processing [no_bottleneck] /\
  gt (mean (L := lib) d) 2 = false /\ ~ In slow_shipping [no_bottleneck].
Proof.
  destruct (undefined_mean_fires_nothing (L := lib) loaded_bad_dates _ _ [no_bottleneck]
              (col_present loaded_bad_dates "processing_time_days" eq_refl)
              (col_present loaded_bad_dates "delivery_delay_days" eq_refl)
              eq_refl)
    as (Hp & Hd & _).
  cbv zeta. split.
  - split; [apply col_present; reflexivity|].
    split; [apply col_present; reflexivity|].
    split; [reflexivity|]. split; reflexivity.
  - destruct (Hp eq_refl) as [A B]. destruct (Hd eq_refl) as [C D].
    split; [exact A|]. split; [exact B|]. split; [exact C | exact D].
Defined.

(** The slowest orders of [csv] and its most returned products, sorted by
    the quicksort of the example library. *)
Lemma top10_witness :
  let delays := map (fun r => r "delivery_delay_days") (rows loaded) in
  let sizes := [(VStr "vase", VInt 2)] in
  (loaded.[slow_key loaded] = Ok delays /\
   argsort_ok (sort_input delays) (aquicksort (sort_input delays)) = true /\
   returns_by_product (L := lib) loaded = Ok (Some sizes) /\
   argsort_ok (sort_input (map snd sizes)) (aquicksort (sort_input (map snd sizes)))
   = true) /\
  (exists out,
     slow_orders (L := lib) loaded = Ok out /\
     List.length (rows out) <= 10 /\
     sorted_desc (map (fun r => r (slow_key loaded)) (rows out))) /\
  (exists out,
     top_returns (L := lib) loaded = Ok (Some out) /\
     List.length out <= 10 /\
     sorted_desc (map snd out)).
Proof.
  destruct (top10_descending (L := lib) loaded) as [A B].
  pose proof (col_present loaded (slow_key loaded) eq_refl) as Hk.
  destruct (A _ Hk eq_refl) as (out & sorted & H1 & _ & _ & _ & H5 & H6).
  destruct (B [(VStr "vase", VInt 2)] eq_refl eq_refl)
    as (out' & sorted' & G1 & _ & _ & _ & G5 & G6).
  cbv zeta. split.
  - split; [exact Hk|]. split; [reflexivity|]. split; reflexivity.
  - split.
    + exists out. split; [exact H1|]. split; [exact H5 | exact H6].
    + exists out'. split; [exact G1|]. split; [exact G5 | exact G6].
Defined.

(** The claim of C4 as the spec states it fails on [csv_ties]: the twenty
    orders "A" to "T" all have a delivery delay of 3 days, and the report of
    the ten slowest is not the first ten of the file: quicksort's partition
    step exchanges equal keys. *)
Lemma top10_ties_not_in_input_order :
  let delays := map (fun r => r "delivery_delay_days") (rows loaded_ties) in
  let ids := map (fun r => r "order_id") (rows loaded_ties) in
  delays = repeat (VInt 3) 20 /\
  firstn 10 ids
  = map VStr ["A"; "B"; "C"; "D"; "E"; "F"; "G"; "H"; "I"; "J"]%string /\
  argsort_ok (sort_input delays) (aquicksort (sort_input delays)) = true /\
  (out <- slow_orders (L := lib) loaded_ties ;;
   Ok (map (fun r => r "order_id") (rows out)))
  = Ok (map VStr ["A"; "B"; "S"; "R"; "Q"; "P"; "O"; "N"; "M"; "L"]%string).
Proof.
  cbv zeta. split; [reflexivity|]. split; [reflexivity|]. split; reflexivity.
Qed.


(** The four orders of [csv] go to two regions, two orders each. *)
Lemma region_counts_witness :
  wilaya_stats (L := lib) loaded = Ok stats /\
  map (fun r => (r "to_wilaya_name", r "orders")) (rows stats)
  = [ (VStr "Alger", VInt 2); (VStr "Oran", VInt 2) ] /\
  NoDup (map (fun r => r "to_wilaya_name") (rows stats)) /\
  total_orders stats = 4%Z.
Proof.
  destruct (region_counts (L := lib) loaded stats stats_of_csv) as (H1 & _ & H3 & _).
  split; [exact stats_of_csv|]. split; [reflexivity|]. split; [exact H1|].
  rewrite H3. reflexivity.
Defined.

(** The claim of C8 as the spec states it fails on [csv_no_region]: the
    file has two records, the second without a destination region; the
    summary has the single row of Alger and its order counts add up to 1. *)
Lemma region_counts_miss_a_record :
  List.length (rows loaded_no_region) = 2 /\
  map (fun r => (r "order_id", r "to_wilaya_name")) (rows loaded_no_region)
  = [ (VStr "A", VStr "Alger"); (VStr "B", NaN) ] /\
  (out <- wilaya_stats (L := lib) loaded_no_region ;;
   Ok (map (fun r => (r "to_wilaya_name", r "orders")) (rows out), total_orders out))
  = Ok ([ (VStr "Alger", VInt 1) ], 1%Z).
Proof.
  split; [reflexivity|]. split; reflexivity.
Qed.

End Examples.

(* ========================================================================= *)
(** * The other sections: proofs *)

Lemma col_absent (df : DataFrame) (c : string) :
  has_col df c = false -> df.[c] = Err (KeyError c).
Proof. unfold col. now intros ->. Qed.

Lemma has_col_true (df : DataFrame) (c : string) (s : Series) :
  df.[c] = Ok s -> has_col df c = true.
Proof. unfold col. now destruct (has_col df c). Qed.

(** Settle [has_col d c] on a frame that assignments made. *)
Ltac frame_has_col :=
  repeat match goal with
         | C : forall x, has_col ?d x = _ |- context [has_col ?d ?y] => rewrite (C y)
         end;
  rewrite ?has_col_set_col, ?has_col_set_scalar;
  simpl; rewrite ?orb_true_r, ?orb_false_r;
  first [reflexivity | assumption].

(** Read a column of the frame in a goal [bind (col d c) k = rhs]. *)
Ltac step_col :=
  lazymatch goal with
  | |- bind (col ?d ?c) ?k = ?rhs =>
      let s := fresh "s" in
      let E := fresh "E" in
      let Hc := fresh "Hc" in
      assert (Hc : has_col d c = true) by frame_has_col;
      destruct (col_total d c Hc) as [s E];
      rewrite E; clear E Hc;
      change (k s = rhs); cbv beta
  end.

(** The read that raises. *)
Ltac stop_col :=
  lazymatch goal with
  | |- bind (col ?d ?c) ?k = ?rhs =>
      let Hc := fresh "Hc" in
      assert (Hc : has_col d c = false) by frame_has_col;
      rewrite (col_absent d c Hc); reflexivity
  end.

(** Name the frame an assignment makes, keeping its header and the columns
    it leaves alone. *)
Ltac name_frame :=
  match goal with
  | |- context [set_col ?d ?c ?s] =>
      is_var d;
      let d' := fresh "d" in
      let C := fresh "C" in
      let O := fresh "O" in
      pose proof (has_col_set_col d c s) as C;
      pose proof (fun x => col_rows_set_col_other d c x s) as O;
      set (d' := set_col d c s) in *; clearbody d'
  end.

(** Read a column that no assignment has touched. *)
Ltac step_untouched :=
  lazymatch goal with
  | |- bind (col ?d ?c) ?k = ?rhs =>
      let Hc := fresh "Hc" in
      assert (Hc : has_col d c = true) by frame_has_col;
      rewrite (col_present d c Hc); clear Hc;
      repeat match goal with
             | O : forall x, _ -> map _ (rows ?d') = _ |- context [rows ?d'] =>
                 rewrite (O c) by reflexivity
             end;
      cbn [bind]
  end.

Ltac step_text T :=
  step_untouched;
  rewrite (str_accessor_text _ _ T); cbn [bind];
  rewrite (str_accessor_lower _ (str_accessor_text _ _ T)); cbn [bind].

Section LoadOutcome.
Context {L : Library}.

Lemma normalize_dates_has_col (csv df : DataFrame) (x : string) :
  normalize_dates csv = Ok df ->
  has_col df x = has_col csv x || String.eqb x "date_commande".
Proof.
  intros H. unfold normalize_dates in H. cbv zeta in H.
  assert (K : forall d c (s : Series), d.[c] = Ok s ->
            has_col d x || String.eqb x c = has_col d x).
  { intros d c s E. apply has_col_true in E.
    destruct (String.eqb_spec x c) as [->|]; [now rewrite E|apply orb_false_r]. }
  destruct (csv.["date_creation"]) as [s1|] eqn:E1; [|discriminate H].
  cbn [bind] in H.
  destruct ((set_col csv "date_creation" (to_datetime s1)).["date_expedition"])
    as [s2|] eqn:E2; [|discriminate H].
  cbn [bind] in H.
  match type of H with
  | bind (col ?d ?c) _ = _ => destruct (col d c) as [s3|] eqn:E3; [|discriminate H]
  end.
  cbn [bind] in H.
  assert (C : forall y,
    has_col (set_col (set_col (set_col csv "date_creation" (to_datetime s1))
                        "date_expedition" (to_datetime s2))
               "date_last_status" (to_datetime s3)) y = has_col csv y).
  { intros y. rewrite has_col_set_col.
    assert (K' : forall d c (s : Series), d.[c] = Ok s ->
              has_col d y || String.eqb y c = has_col d y).
    { intros d c s E. apply has_col_true in E.
      destruct (String.eqb_spec y c) as [->|]; [now rewrite E|apply orb_false_r]. }
    rewrite (K' _ _ _ E3), has_col_set_col, (K' _ _ _ E2), has_col_set_col.
    apply (K' _ _ _ E1). }
  match type of H with
  | (if ?b then _ else _) = _ => destruct b eqn:Hb
  end.
  - match type of H with
    | bind (col ?d ?c) _ = _ => destruct (col d c) as [s4|] eqn:E4; [|discriminate H]
    end.
    cbn [bind] in H. injection H as <-. rewrite has_col_set_col. now rewrite C.
  - injection H as <-. rewrite has_col_set_scalar. now rewrite C.
Qed.

(** The outcome of [derive_features] on a frame that has the date columns. *)
Lemma derive_features_outcome (d : DataFrame) :
  forallb (has_col d) ("date_commande" :: date_columns) = true ->
  (has_col d "last_status" = false ->
     derive_features d = Err (KeyError "last_status")) /\
  (has_col d "last_status" = true -> text_column d "last_status" = false ->
     derive_features d
     = Err (AttributeError "Can only use .str accessor with string values!")) /\
  (has_col d "last_status" = true -> text_column d "last_status" = true ->
     has_col d "Montant total de la commande" = false ->
     derive_features d = Err (KeyError "Montant total de la commande")) /\
  (has_col d "last_status" = true -> text_column d "last_status" = true ->
     has_col d "Montant total de la commande" = true ->
     has_col d "has_recouvrement" = false ->
     derive_features d = Err (KeyError "has_recouvrement")).
Proof.
  simpl. rewrite !andb_true_iff. intros (H0 & H1 & H2 & H3 & _).
  assert (A : text_column d "last_status" = false ->
              str_accessor (map (fun r => r "last_status") (rows d))
              = Err (AttributeError "Can only use .str accessor with string values!")).
  { intros T. unfold str_accessor. unfold text_column in T.
    replace (is_empty (map (fun r => r "last_status") (rows d)))
      with (is_empty (rows d)) by now destruct (rows d).
    replace (existsb is_str (map (fun r => r "last_status") (rows d)))
      with (existsb (fun r => is_str (r "last_status")) (rows d))
      by (clear; induction (rows d) as [|r l IH]; simpl;
          [reflexivity | now rewrite IH]).
    now rewrite T. }
  repeat split.
  - intros Hs. unfold derive_features. cbv zeta.
    do 3 (do 2 step_col; name_frame). stop_col.
  - intros Hs T. unfold derive_features. cbv zeta.
    do 3 (do 2 step_col; name_frame). step_untouched.
    rewrite (A T). reflexivity.
  - intros Hs T Hm. unfold derive_features. cbv zeta.
    do 3 (do 2 step_col; name_frame). do 2 (step_text T; name_frame).
    do 2 (do 2 step_col; name_frame). stop_col.
  - intros Hs T Hm Hr. unfold derive_features. cbv zeta.
    do 3 (do 2 step_col; name_frame). do 2 (step_text T; name_frame).
    do 2 (do 2 step_col; name_frame). step_col; name_frame.
    do 2 (do 2 step_col; name_frame). stop_col.
Qed.

Lemma normalize_dates_outcome (csv : DataFrame) (c : string) :
  first_absent csv date_columns = Some c -> normalize_dates csv = Err (KeyError c).
Proof.
  unfold first_absent. simpl.
  destruct (has_col csv "date_creation") eqn:H1; simpl.
  2:{ intros [= <-]. unfold normalize_dates. cbv zeta. stop_col. }
  destruct (has_col csv "date_expedition") eqn:H2; simpl.
  2:{ intros [= <-]. unfold normalize_dates. cbv zeta. step_col. stop_col. }
  destruct (has_col csv "date_last_status") eqn:H3; simpl.
  2:{ intros [= <-]. unfold normalize_dates. cbv zeta. do 2 step_col. stop_col. }
  discriminate.
Qed.

Lemma load_data_cases (csv : DataFrame) :
  match load_error csv with
  | Some e => load_data csv = Err e
  | None => exists df, load_data csv = Ok df
  end.
Proof.
  unfold load_error, first_absent.
  destruct (find (fun c => negb (has_col csv c)) date_columns) as [c|] eqn:F.
  - (* a date column is absent *)
    assert (F' : find (fun c => negb (has_col csv c))
                   [ "date_creation"; "date_expedition"; "date_last_status";
                     "last_status" ] = Some c).
    { revert F. simpl.
      destruct (has_col csv "date_creation"); simpl; [|easy].
      destruct (has_col csv "date_expedition"); simpl; [|easy].
      destruct (has_col csv "date_last_status"); simpl; [|easy].
      discriminate. }
    rewrite F'. unfold load_data.
    now rewrite (normalize_dates_outcome csv c F).
  - assert (D : forallb (has_col csv) date_columns = true).
    { revert F. simpl.
      destruct (has_col csv "date_creation"); simpl; [|easy].
      destruct (has_col csv "date_expedition"); simpl; [|easy].
      destruct (has_col csv "date_last_status"); simpl; [|easy].
      reflexivity. }
    destruct (normalize_dates_total csv D) as [dn N].
    assert (Dn : forallb (has_col dn) ("date_commande" :: date_columns) = true).
    { simpl in D |- *. rewrite !andb_true_iff in D. destruct D as (D1 & D2 & D3 & _).
      rewrite (normalize_dates_commande _ _ N).
      now rewrite !(normalize_dates_columns _ _ _ N) by assumption. }
    destruct (derive_features_outcome dn Dn) as (O1 & O2 & O3 & O4).
    pose proof (normalize_dates_has_col csv dn "last_status" N) as C1.
    pose proof (normalize_dates_has_col csv dn "Montant total de la commande" N) as C2.
    pose proof (normalize_dates_has_col csv dn "has_recouvrement" N) as C3.
    simpl in C1, C2, C3. rewrite orb_false_r in C1, C2, C3.
    rewrite (normalize_dates_text _ _ N) in O2, O3, O4.
    rewrite C1 in O1, O2, O3, O4. rewrite C2 in O3, O4. rewrite C3 in O4.
    simpl in D. rewrite !andb_true_iff in D. destruct D as (D1 & D2 & D3 & _).
    simpl. rewrite D1, D2, D3. simpl.
    unfold load_data. rewrite N. cbn [bind].
    destruct (has_col csv "last_status") eqn:Hs; simpl; [|now apply O1].
    destruct (text_column csv "last_status") eqn:T; simpl; [|now apply O2].
    destruct (has_col csv "Montant total de la commande") eqn:Hm; simpl;
      [|now apply O3].
    destruct (has_col csv "has_recouvrement") eqn:Hr; simpl; [|now apply O4].
    apply derive_features_total.
    + simpl. simpl in Dn. rewrite !andb_true_iff in Dn.
      destruct Dn as (E0 & E1 & E2 & E3 & _).
      now rewrite E0, E1, E2, E3, C1, C2, C3.
    + now rewrite (normalize_dates_text _ _ N).
Qed.

Lemma load_data_requires (csv df : DataFrame) :
  load_data csv = Ok df ->
  forallb (has_col csv) required_columns = true /\
  text_column csv "last_status" = true.
Proof.
  intros H. pose proof (load_data_cases csv) as C.
  unfold load_error, first_absent in C. simpl in C |- *.
  destruct (has_col csv "date_creation"); simpl in C; [|congruence].
  destruct (has_col csv "date_expedition"); simpl in C; [|congruence].
  destruct (has_col csv "date_last_status"); simpl in C; [|congruence].
  destruct (has_col csv "last_status"); simpl in C; [|congruence].
  destruct (text_column csv "last_status"); simpl in C; [|congruence].
  destruct (has_col csv "Montant total de la commande"); simpl in C; [|congruence].
  destruct (has_col csv "has_recouvrement"); simpl in C; [|congruence].
  split; reflexivity.
Qed.

(** X1.  What [load_data] needs of the file.  Lines 33-35 come first: when
    the file lacks one of date_creation, date_expedition, date_last_status,
    the load ends with KeyError for the first of them that is absent.  And a
    load that returns a frame has found the six columns it reads, and a
    status column that holds text (or a file without records). *)
Theorem load_data_needs_its_columns (csv : DataFrame) :
  (forall c, first_absent csv date_columns = Some c ->
     load_data csv = Err (KeyError c)) /\
  (forall df, load_data csv = Ok df ->
     forallb (has_col csv) required_columns = true /\
     text_column csv "last_status" = true).
Proof.
  split.
  - intros c F. unfold load_data. now rewrite (normalize_dates_outcome csv c F).
  - exact (load_data_requires csv).
Qed.

End LoadOutcome.

Lemma columns_set_col (d : DataFrame) (c : string) (s : Series) :
  columns (set_col d c s) = add_col (columns d) c.
Proof. reflexivity. Qed.

Lemma columns_set_scalar (d : DataFrame) (c : string) (v : value) :
  columns (set_scalar d c v) = add_col (columns d) c.
Proof. reflexivity. Qed.

Lemma col_rows_set_scalar_other (df : DataFrame) (c x : string) (v : value) :
  String.eqb x c = false ->
  map (fun r => r x) (rows (set_scalar df c v)) = map (fun r => r x) (rows df).
Proof.
  intros H. unfold set_scalar. simpl. rewrite map_map.
  apply map_ext. intros r. unfold upd. now rewrite H.
Qed.

Lemma existsb_app_one (x c : string) (cs : list string) :
  existsb (String.eqb x) (cs ++ [c]) = existsb (String.eqb x) cs || String.eqb x c.
Proof. rewrite existsb_app. simpl. now rewrite orb_false_r. Qed.

(** Assigning the distinct names [l] appends those the header lacks. *)
Lemma fold_left_add_col (l cs : list string) :
  NoDup l ->
  fold_left add_col l cs
  = cs ++ filter (fun c => negb (existsb (String.eqb c) cs)) l.
Proof.
  intros N. revert cs. induction N as [|c l Hc N IH]; intros cs; simpl.
  - now rewrite app_nil_r.
  - rewrite IH. unfold add_col.
    destruct (existsb (String.eqb c) cs) eqn:E; simpl; [reflexivity|].
    rewrite <- app_assoc. simpl. do 2 f_equal.
    apply filter_ext_in. intros y Hy. rewrite existsb_app_one.
    destruct (String.eqb_spec y c) as [->|]; [contradiction|].
    now rewrite orb_false_r.
Qed.

(** Read a column in a hypothesis, keeping the Series as a variable. *)
Ltac open_col H :=
  lazymatch type of H with
  | bind (col ?d ?c) ?k = ?rhs =>
      let s := fresh "s" in
      let E := fresh "E" in
      destruct (col d c) as [s|] eqn:E; [|discriminate H];
      clear E; change (k s = rhs) in H; cbv beta in H
  end.

(** Name the frame an assignment makes, keeping its header and the columns
    it leaves alone. *)
Ltac write_frame H :=
  match type of H with
  | context [set_col ?d ?c ?s] =>
      is_var d;
      let d' := fresh "d" in
      let K := fresh "K" in
      let O := fresh "O" in
      pose proof (columns_set_col d c s) as K;
      pose proof (fun x => col_rows_set_col_other d c x s) as O;
      set (d' := set_col d c s) in *; clearbody d'
  | context [set_scalar ?d ?c ?v] =>
      is_var d;
      let d' := fresh "d" in
      let K := fresh "K" in
      let O := fresh "O" in
      pose proof (columns_set_scalar d c v) as K;
      pose proof (fun x => col_rows_set_scalar_other d c x v) as O;
      set (d' := set_scalar d c v) in *; clearbody d'
  end.

Ltac chain_headers :=
  repeat match goal with
         | K : columns ?d = add_col _ _ |- _ => rewrite K; clear K
         end.

Ltac chain_columns x :=
  repeat match goal with
         | O : forall y, _ -> map _ (rows ?d) = _ |- _ =>
             rewrite (O x) by assumption; clear O
         end.

Ltac split_names H :=
  simpl in H;
  repeat lazymatch type of H with
         | _ || _ = false =>
             let H' := fresh "N" in
             apply orb_false_elim in H; destruct H as [H' H]
         end.

Section LoadFrame.
Context {L : Library}.

Lemma normalize_dates_frame (csv df : DataFrame) :
  normalize_dates csv = Ok df ->
  columns df
  = fold_left add_col
      [ "date_creation"; "date_expedition"; "date_last_status"; "date_commande" ]
      (columns csv) /\
  forall x,
    existsb (String.eqb x)
      [ "date_creation"; "date_expedition"; "date_last_status"; "date_commande" ]
    = false ->
    map (fun r => r x) (rows df) = map (fun r => r x) (rows csv).
Proof.
  intros H. unfold normalize_dates in H. cbv zeta in H.
  do 3 (open_col H; write_frame H).
  lazymatch type of H with
  | (if ?b then _ else _) = _ => destruct b
  end.
  - open_col H. write_frame H. injection H as <-. split.
    + chain_headers. cbn [fold_left]. reflexivity.
    + intros x Hx. split_names Hx. chain_columns x. reflexivity.
  - write_frame H. injection H as <-. split.
    + chain_headers. cbn [fold_left]. reflexivity.
    + intros x Hx. split_names Hx. chain_columns x. reflexivity.
Qed.

Lemma derive_features_frame (d df : DataFrame) :
  derive_features d = Ok df ->
  columns df
  = fold_left add_col
      [ "commande_to_creation_days"; "commande_to_expedition_days";
        "commande_to_last_status_days"; "delivered"; "returned";
        "delivery_delay_days"; "processing_time_days"; "revenue"; "lost_revenue";
        "success_revenue"; "has_recouvrement" ]
      (columns d) /\
  forall x,
    existsb (String.eqb x)
      [ "commande_to_creation_days"; "commande_to_expedition_days";
        "commande_to_last_status_days"; "delivered"; "returned";
        "delivery_delay_days"; "processing_time_days"; "revenue"; "lost_revenue";
        "success_revenue"; "has_recouvrement" ]
    = false ->
    map (fun r => r x) (rows df) = map (fun r => r x) (rows d).
Proof.
  intros H. unfold derive_features in H. cbv zeta in H.
  do 3 (do 2 open_col H; write_frame H).
  do 2 (open_col H; do 2 pass_str H; write_frame H).
  do 2 (do 2 open_col H; write_frame H).
  open_col H; write_frame H.
  do 2 (do 2 open_col H; write_frame H).
  open_col H; write_frame H.
  injection H as <-. split.
  - chain_headers. cbn [fold_left]. reflexivity.
  - intros x Hx. split_names Hx. chain_columns x. reflexivity.
Qed.

Lemma assigned_columns_NoDup : NoDup assigned_columns.
Proof.
  unfold assigned_columns.
  repeat (constructor; [simpl; intuition discriminate|]). constructor.
Qed.

(** The header of the loaded frame, and the columns [load_data] does not
    assign. *)
Lemma load_data_frame (csv df : DataFrame) :
  load_data csv = Ok df ->
  columns df
  = columns csv ++ filter (fun c => negb (has_col csv c)) assigned_columns /\
  forall x, existsb (String.eqb x) assigned_columns = false ->
    map (fun r => r x) (rows df) = map (fun r => r x) (rows csv).
Proof.
  unfold load_data. intros H.
  destruct (normalize_dates csv) as [dn|] eqn:N; [|discriminate H].
  cbn [bind] in H.
  destruct (normalize_dates_frame _ _ N) as [C1 O1].
  destruct (derive_features_frame _ _ H) as [C2 O2].
  split.
  - rewrite C2, C1, <- fold_left_app.
    exact (fold_left_add_col assigned_columns (columns csv) assigned_columns_NoDup).
  - intros x Hx.
    change assigned_columns with
      ([ "date_creation"; "date_expedition"; "date_last_status"; "date_commande" ]
       ++ [ "commande_to_creation_days"; "commande_to_expedition_days";
            "commande_to_last_status_days"; "delivered"; "returned";
            "delivery_delay_days"; "processing_time_days"; "revenue"; "lost_revenue";
            "success_revenue"; "has_recouvrement" ]) in Hx.
    rewrite existsb_app in Hx. apply orb_false_elim in Hx. destruct Hx as [Hx1 Hx2].
    now rewrite (O2 x Hx2), (O1 x Hx1).
Qed.

End LoadFrame.

Lemma existsb_eqb_In (x : string) (l : list string) :
  existsb (String.eqb x) l = true <-> In x l.
Proof.
  rewrite existsb_exists. split.
  - intros (y & Hy & E). apply String.eqb_eq in E. now subst.
  - intros H. exists x. split; [assumption|apply String.eqb_refl].
Qed.

Lemma existsb_eqb_not_In (x : string) (l : list string) :
  ~ In x l -> existsb (String.eqb x) l = false.
Proof.
  intros H. destruct (existsb (String.eqb x) l) eqn:E; [|reflexivity].
  now apply existsb_eqb_In in E.
Qed.

Section LoadedFrame.
Context {L : Library}.

(** The columns of the loaded frame: those of the file and those assigned. *)
Lemma load_data_has_col (csv df : DataFrame) (x : string) :
  load_data csv = Ok df ->
  has_col df x = has_col csv x || existsb (String.eqb x) assigned_columns.
Proof.
  intros H. destruct (load_data_frame _ _ H) as [C _].
  unfold has_col at 1. rewrite C, existsb_app. fold (has_col csv x).
  destruct (has_col csv x) eqn:Hx; [reflexivity|]. cbn [orb]. clear C.
  generalize assigned_columns. intros l.
  induction l as [|c l IH]; [reflexivity|]. simpl.
  destruct (has_col csv c) eqn:Hc; simpl.
  - rewrite IH. destruct (String.eqb_spec x c) as [->|]; [congruence|reflexivity].
  - now rewrite IH.
Qed.

(** X2.  The frame [load_data] returns has the columns of the file, in
    their order, followed by the assigned columns the file did not have, in
    the order of the assignments; it has one row for each record of the
    file; and a cell of a column that [load_data] does not assign is the
    cell of the file. *)
Theorem load_data_keeps_the_file (csv df : DataFrame) :
  load_data csv = Ok df ->
  columns df
  = columns csv ++ filter (fun c => negb (has_col csv c)) assigned_columns /\
  List.length (rows df) = List.length (rows csv) /\
  (forall x i raw row,
     ~ In x assigned_columns ->
     nth_error (rows csv) i = Some raw -> nth_error (rows df) i = Some row ->
     row x = raw x).
Proof.
  intros H. destruct (load_data_frame _ _ H) as [C O].
  split; [exact C|]. split.
  - rewrite (load_data_rows _ _ H). apply length_map.
  - intros x i raw row Hx Hraw Hrow.
    pose proof (O x (existsb_eqb_not_In _ _ Hx)) as E.
    apply (f_equal (fun l => nth_error l i)) in E. cbv beta in E.
    rewrite !nth_error_map in E. unfold Row in Hraw, Hrow.
    rewrite Hraw, Hrow in E. simpl in E. congruence.
Qed.

(** X3.  A record whose status is not text has neither flag True, and 0
    in both [success_revenue] and [lost_revenue]: its amount is in neither
    total.  A record whose status has neither marker gets False flags and 0
    in both.  A record flagged delivered and returned has its revenue in
    both. *)
Theorem revenue_of_unmarked_and_doubly_marked (csv df : DataFrame) (i : nat)
  (raw row : Row) :
  load_data csv = Ok df ->
  nth_error (rows csv) i = Some raw ->
  nth_error (rows df) i = Some row ->
  (is_str (raw "last_status") = false ->
     row "delivered" <> VBool true /\ row "returned" <> VBool true /\
     row "success_revenue" = VInt 0 /\ row "lost_revenue" = VInt 0) /\
  (forall s, raw "last_status" = VStr s ->
     ~ substring_of "livré" (str_lower s) ->
     ~ substring_of "retour" (str_lower s) ->
     row "delivered" = VBool false /\ row "returned" = VBool false /\
     row "success_revenue" = VInt 0 /\ row "lost_revenue" = VInt 0) /\
  (row "delivered" = VBool true -> row "returned" = VBool true ->
     row "success_revenue" = row "revenue" /\ row "lost_revenue" = row "revenue").
Proof.
  intros H Hraw Hrow.
  pose proof (load_data_nth _ _ _ _ _ H Hraw Hrow) as ->.
  destruct (loaded_flags (has_col csv "Date de commande") raw) as (_ & Fd & Fr).
  destruct (loaded_revenue (has_col csv "Date de commande") raw) as (_ & Rl & Rs & _).
  cbv zeta in Fd, Fr, Rl, Rs.
  set (row := derive_row _) in *. clearbody row.
  split; [|split].
  - intros Hs. rewrite Rs, Rl, Fd, Fr.
    destruct (raw "last_status"); try discriminate Hs;
      repeat split; discriminate.
  - intros s Es Hl Hr.
    assert (Cl : contains (str_lower s) "livré" = false).
    { destruct (contains (str_lower s) "livré") eqn:E; [|reflexivity].
      now apply contains_iff in E. }
    assert (Cr : contains (str_lower s) "retour" = false).
    { destruct (contains (str_lower s) "retour") eqn:E; [|reflexivity].
      now apply contains_iff in E. }
    rewrite Rs, Rl, Fd, Fr, Es. simpl. rewrite Cl, Cr. repeat split.
  - intros Hd Hr. rewrite Rs, Rl, Hd, Hr. split; reflexivity.
Qed.

Lemma reruns_cached (files : list DataFrame) (df : DataFrame) :
  reruns files (Some df) = map (fun _ => Ok df) files.
Proof. induction files as [|f l IH]; simpl; [reflexivity|now rewrite IH]. Qed.

(** X4.  Over successive runs a load that raises is tried again on the
    next run, with the file as it then is; once a load has returned, every
    later run gets that same frame, whatever the file has become. *)
Theorem first_load_is_kept (failed : list DataFrame) (csv : DataFrame)
  (later : list DataFrame) (df : DataFrame) :
  Forall (fun f => exists e, load_data f = Err e) failed ->
  load_data csv = Ok df ->
  reruns (failed ++ csv :: later) None
  = map load_data failed ++ Ok df :: map (fun _ => Ok df) later.
Proof.
  intros F H. induction F as [|f l [e He] F IH]; simpl.
  - unfold load_data_cached. rewrite H. now rewrite reruns_cached.
  - unfold load_data_cached. rewrite He. now rewrite IH.
Qed.

End LoadedFrame.

(* ------------------------------------------------------------------------- *)
(** ** What the result of a load depends on *)

Section LoadDepends.
Context {L : Library}.

(** A cell of an assigned column is computed from the source cells of its
    record. *)
Lemma derive_row_source (b : bool) (r r' : Row) (c : string) :
  (forall x, In x source_columns -> r x = r' x) ->
  In c assigned_columns ->
  derive_row (normalize_row b r) c = derive_row (normalize_row b r') c.
Proof.
  intros S Hc.
  assert (S0 : r "Date de commande" = r' "Date de commande") by (apply S; simpl; tauto).
  assert (S1 : r "date_creation" = r' "date_creation") by (apply S; simpl; tauto).
  assert (S2 : r "date_expedition" = r' "date_expedition") by (apply S; simpl; tauto).
  assert (S3 : r "date_last_status" = r' "date_last_status") by (apply S; simpl; tauto).
  assert (S4 : r "last_status" = r' "last_status") by (apply S; simpl; tauto).
  assert (S5 : r "Montant total de la commande" = r' "Montant total de la commande")
    by (apply S; simpl; tauto).
  assert (S6 : r "has_recouvrement" = r' "has_recouvrement") by (apply S; simpl; tauto).
  clear S.
  pose proof (loaded_dates b r) as D. pose proof (loaded_dates b r') as D'.
  pose proof (loaded_days b r) as T. pose proof (loaded_days b r') as T'.
  pose proof (loaded_flags b r) as F. pose proof (loaded_flags b r') as F'.
  pose proof (loaded_revenue b r) as R. pose proof (loaded_revenue b r') as R'.
  cbv zeta in D, D', T, T', F, F', R, R'.
  set (row := derive_row (normalize_row b r)) in *.
  set (row' := derive_row (normalize_row b r')) in *.
  clearbody row row'.
  destruct D as (D1 & D2 & D3 & D4), D' as (D1' & D2' & D3' & D4').
  destruct T as (T1 & T2 & T3 & T4 & T5), T' as (T1' & T2' & T3' & T4' & T5').
  destruct F as (_ & F1 & F2), F' as (_ & F1' & F2').
  destruct R as (R1 & R2 & R3 & R4), R' as (R1' & R2' & R3' & R4').
  assert (E1 : row "date_creation" = row' "date_creation") by congruence.
  assert (E2 : row "date_expedition" = row' "date_expedition") by congruence.
  assert (E3 : row "date_last_status" = row' "date_last_status") by congruence.
  assert (E4 : row "date_commande" = row' "date_commande")
    by (rewrite D4, D4', S0; reflexivity).
  assert (E5 : row "delivered" = row' "delivered") by congruence.
  assert (E6 : row "returned" = row' "returned") by congruence.
  assert (E7 : row "revenue" = row' "revenue") by congruence.
  simpl in Hc.
  repeat (destruct Hc as [<- | Hc]; [congruence|]).
  destruct Hc.
Qed.

Lemma map_derive_row_source (b : bool) (l l' : list Row) (c : string) :
  Forall2 (fun r r' : Row => forall x, In x source_columns -> r x = r' x) l l' ->
  In c assigned_columns ->
  map (fun r => derive_row (normalize_row b r) c) l
  = map (fun r => derive_row (normalize_row b r) c) l'.
Proof.
  intros F Hc. induction F as [|r r' l l' Hr F IH]; [reflexivity|].
  cbn [map]. rewrite IH. f_equal. now apply derive_row_source.
Qed.

Lemma text_column_source (a b : DataFrame) :
  Forall2 (fun r r' : Row => forall c, In c source_columns -> r c = r' c)
          (rows a) (rows b) ->
  text_column a "last_status" = text_column b "last_status".
Proof.
  unfold text_column. intros F.
  induction F as [|r r' l l' S F IH]; [reflexivity|].
  cbn [is_empty existsb orb] in *.
  rewrite (S "last_status") by (simpl; tauto). f_equal.
  destruct l, l'; try inversion F; [reflexivity|exact IH].
Qed.

Lemma load_error_source (a b : DataFrame) :
  same_source a b -> load_error a = load_error b.
Proof.
  intros [C F]. unfold load_error, first_absent. cbn [find].
  rewrite (text_column_source a b F).
  rewrite (C "date_creation"), (C "date_expedition"), (C "date_last_status"),
    (C "last_status"), (C "Montant total de la commande"), (C "has_recouvrement")
    by (simpl; tauto).
  reflexivity.
Qed.

(** Two loads, of files that agree on the source columns. *)
Lemma load_data_source (csv csv' : DataFrame) :
  same_source csv csv' ->
  match load_data csv, load_data csv' with
  | Ok df, Ok df' =>
      forall c, In c assigned_columns ->
        exists s, df.[c] = Ok s /\ df'.[c] = Ok s
  | Err e, Err e' => e = e'
  | _, _ => False
  end.
Proof.
  intros S. pose proof (load_error_source _ _ S) as E.
  pose proof (load_data_cases csv) as A. pose proof (load_data_cases csv') as B.
  rewrite <- E in B. destruct (load_error csv) as [e|].
  - rewrite A, B. reflexivity.
  - destruct A as [df A], B as [df' B]. rewrite A, B.
    intros c Hc.
    assert (P : existsb (String.eqb c) assigned_columns = true)
      by (now apply existsb_eqb_In).
    rewrite !col_present
      by (erewrite load_data_has_col by eassumption; rewrite P; apply orb_true_r).
    eexists. split; [reflexivity|].
    rewrite (load_data_rows _ _ A), (load_data_rows _ _ B), !map_map.
    destruct S as [C F]. rewrite <- (C "Date de commande") by (simpl; tauto).
    apply f_equal. symmetry. now apply map_derive_row_source.
Qed.

(** C9.  What a load depends on.  In a process whose store is empty the
    outcome of [load_data] and every column it assigns are determined by
    the cells of the seven columns it looks at: two files that agree on them
    both fail, with the same exception, or both return, with the same
    assigned columns, whatever else the files hold.  Two successive loads of
    such files return the same result, whatever the store held before, and
    the second leaves the store as the first left it.  The store is state
    that decides the result: a load with an empty store computes the
    derivation of the file, a load with a store that holds a frame returns
    that frame whatever the file contains. *)
Theorem load_depends_on_cells_and_store (csv csv' : DataFrame) :
  same_source csv csv' ->
  match load_data csv, load_data csv' with
  | Ok df, Ok df' =>
      forall c, In c assigned_columns ->
        exists s, df.[c] = Ok s /\ df'.[c] = Ok s
  | Err e, Err e' => e = e'
  | _, _ => False
  end /\
  (forall cache,
     let first := load_data_cached csv cache in
     let second := load_data_cached csv' (snd first) in
     fst second = fst first /\ snd second = snd first) /\
  fst (load_data_cached csv None) = load_data csv /\
  (forall kept, load_data_cached csv (Some kept) = (Ok kept, Some kept)).
Proof.
  intros S. pose proof (load_data_source csv csv' S) as A.
  split; [exact A|]. split; [|split].
  - intros [kept|]; cbv zeta; unfold load_data_cached; [split; reflexivity|].
    destruct (load_data csv) as [df|e]; cbn [fst snd]; [split; reflexivity|].
    destruct (load_data csv') as [df'|e']; [destruct A|]. subst e'.
    split; reflexivity.
  - unfold load_data_cached. now destruct (load_data csv).
  - reflexivity.
Qed.

End LoadDepends.

(* ------------------------------------------------------------------------- *)
(** ** The time interval distributions *)

Lemma find_app {A} (f : A -> bool) (l1 l2 : list A) :
  find f (l1 ++ l2) = match find f l1 with Some x => Some x | None => find f l2 end.
Proof. induction l1 as [|a l1 IH]; simpl; [reflexivity|]. now destruct (f a). Qed.

Lemma find_none_iff {A} (f : A -> bool) (l : list A) :
  find f l = None <-> forall x, In x l -> f x = false.
Proof.
  split; [apply find_none|].
  induction l as [|a l IH]; simpl; [reflexivity|]. intros H.
  rewrite (H a) by now left. apply IH. intros x Hx. apply H. now right.
Qed.

Lemma NoDup_snoc {A} (l : list A) (a : A) :
  NoDup l -> ~ In a l -> NoDup (l ++ [a]).
Proof.
  intros N H. apply (Permutation_NoDup (l := a :: l)).
  - apply Permutation_cons_append.
  - now constructor.
Qed.

(** What the loop of lines 89-92 keeps true, [pre] being the entries it has
    gone through. *)
Record loop_inv (df : DataFrame) (pre : list time_entry)
  (st : list string * list time_entry) : Prop := {
  inv_seen : forall c, In c (fst st) <-> In c (map entry_col (snd st));
  inv_nodup : NoDup (map entry_col (snd st));
  inv_first : forall e, In e (snd st) ->
    has_col df (entry_col e) = true /\
    find (fun e' => String.eqb (entry_col e') (entry_col e)) pre = Some e;
  inv_all : forall e, In e pre -> has_col df (entry_col e) = true ->
    In (entry_col e) (fst st)
}.

Lemma loop_inv_step (df : DataFrame) (pre : list time_entry)
  (st : list string * list time_entry) (e : time_entry) :
  loop_inv df pre st -> loop_inv df (pre ++ [e]) (keep_unseen df st e).
Proof.
  intros [Hs Hn Hf Ha]. destruct st as [seen acc]. destruct e as [[label c] data].
  simpl in Hs, Hn, Hf, Ha. unfold keep_unseen.
  destruct (existsb (String.eqb c) seen) eqn:Es; simpl.
  - (* seen before *)
    apply existsb_eqb_In in Es. constructor; simpl; auto.
    + intros e He. destruct (Hf e He) as [H1 H2]. split; [assumption|].
      now rewrite find_app, H2.
    + intros e He Hc. apply in_app_or in He. destruct He as [He|[<-|[]]]; auto.
  - destruct (has_col df c) eqn:Ec; simpl.
    + (* kept *)
      assert (Nc : ~ In c seen).
      { intros Hin. apply existsb_eqb_In in Hin. congruence. }
      constructor; simpl.
      * intros x. rewrite map_app, in_app_iff. simpl. rewrite (Hs x). tauto.
      * rewrite map_app. simpl. apply NoDup_snoc; [assumption|]. now rewrite <- Hs.
      * intros e He. apply in_app_or in He. destruct He as [He|[<-|[]]].
        -- destruct (Hf e He) as [H1 H2]. split; [assumption|].
           now rewrite find_app, H2.
        -- split; [assumption|]. rewrite find_app.
           replace (find _ pre) with (@None time_entry).
           ++ simpl. unfold entry_col. simpl. now rewrite String.eqb_refl.
           ++ symmetry. apply find_none_iff. intros x Hx.
              destruct (String.eqb_spec (entry_col x) (entry_col (label, c, data)))
                as [E|]; [|reflexivity].
              exfalso. apply Nc. unfold entry_col at 2 in E. simpl in E.
              rewrite <- E. apply Ha; [assumption|]. now rewrite E.
      * intros e He Hc. apply in_app_or in He. destruct He as [He|[<-|[]]].
        -- right. now apply Ha.
        -- now left.
    + (* not a column *)
      constructor; simpl; auto.
      * intros e He. destruct (Hf e He) as [H1 H2]. split; [assumption|].
        now rewrite find_app, H2.
      * intros e He Hc. apply in_app_or in He. destruct He as [He|[<-|[]]]; auto.
        unfold entry_col in Hc. simpl in Hc. congruence.
Qed.

Lemma loop_inv_run (df : DataFrame) (l pre : list time_entry)
  (st : list string * list time_entry) :
  loop_inv df pre st -> loop_inv df (pre ++ l) (fold_left (keep_unseen df) l st).
Proof.
  revert pre st. induction l as [|e l IH]; intros pre st H; simpl.
  - now rewrite app_nil_r.
  - replace (pre ++ e :: l) with ((pre ++ [e]) ++ l) by now rewrite <- app_assoc.
    apply IH. now apply loop_inv_step.
Qed.

Lemma loop_inv_start (df : DataFrame) : loop_inv df [] ([], []).
Proof. constructor; simpl; try tauto. constructor. Qed.

(** On entries with distinct columns, all of the frame, the loop copies. *)
Lemma keep_unseen_copies (df : DataFrame) (l : list time_entry)
  (seen : list string) (acc : list time_entry) :
  NoDup (map entry_col l) ->
  (forall e, In e l -> ~ In (entry_col e) seen) ->
  forallb (fun e => has_col df (entry_col e)) l = true ->
  snd (fold_left (keep_unseen df) l (seen, acc)) = acc ++ l.
Proof.
  revert seen acc. induction l as [|e l IH]; intros seen acc N D H; cbn [fold_left].
  - simpl. now rewrite app_nil_r.
  - simpl in H. apply andb_true_iff in H. destruct H as [Hc H].
    inversion N as [|x xs Hx N']. subst.
    destruct e as [[label c] data]. unfold entry_col in Hc, Hx. simpl in Hc, Hx.
    unfold keep_unseen at 2.
    rewrite (existsb_eqb_not_In c seen), Hc by (apply (D (label, c, data)); now left).
    simpl. rewrite IH; auto.
    + now rewrite <- app_assoc.
    + intros e He [E|Hin].
      * apply Hx. rewrite E. now apply in_map.
      * apply (D e); [now right|assumption].
Qed.

(** X5.  The loop of lines 87-92 keeps no two entries for one column; it
    keeps exactly the entries whose column is a column of the frame and that
    are the first of the list for their column; a list of distinct columns
    of the frame it leaves as it is. *)
Theorem unique_time_cols_keeps_first (df : DataFrame) (tcs : list time_entry) :
  let out := unique_time_cols df tcs in
  NoDup (map entry_col out) /\
  (forall e, In e out <->
     has_col df (entry_col e) = true /\
     find (fun e' => String.eqb (entry_col e') (entry_col e)) tcs = Some e) /\
  (NoDup (map entry_col tcs) ->
   forallb (fun e => has_col df (entry_col e)) tcs = true ->
   out = tcs).
Proof.
  cbv zeta. unfold unique_time_cols.
  destruct (loop_inv_run df tcs [] ([], []) (loop_inv_start df)) as [Hs Hn Hf Ha].
  simpl app in Hf, Ha.
  split; [exact Hn|]. split.
  - intros e. split; [apply Hf|]. intros [Hc Hfind].
    pose proof (find_some _ _ Hfind) as [Hin _].
    apply (Ha e Hin), Hs, in_map_iff in Hc. destruct Hc as (e' & E & He').
    destruct (Hf e' He') as [_ Hf'].
    rewrite E, Hfind in Hf'. now injection Hf' as ->.
  - intros N H. now apply (keep_unseen_copies df tcs [] []).
Qed.

Lemma filter_notna_nil (s : Series) : is_empty (dropna s) = forallb isna s.
Proof.
  unfold dropna. induction s as [|v s IH]; simpl; [reflexivity|].
  unfold notna. now destruct (isna v).
Qed.

(** One panel of the section, from the cells of its column. *)
Lemma time_panel_cells (label c : string) (cells : Series) :
  time_panel (label, c, dropna cells)
  = [ st_write ("**" ++ label ++ ":**")%string;
      if forallb isna cells
      then st_warning ("No valid data for " ++ label ++ ".")%string
      else st_histogram (filter notna cells) c label
                        ("hist_" ++ c ++ "_" ++ label)%string ].
Proof.
  unfold time_panel. rewrite filter_notna_nil.
  now destruct (forallb isna cells).
Qed.

Lemma time_intervals_eq (df : DataFrame) :
  forallb (has_col df)
    [ "processing_time_days"; "delivery_delay_days"; "commande_to_creation_days";
      "commande_to_expedition_days"; "commande_to_last_status_days" ] = true ->
  let cells c := map (fun r => r c) (rows df) in
  time_intervals df
  = Ok (time_panel ("Processing Time (Creation → Expedition)", "processing_time_days",
                    dropna (cells "processing_time_days"))
        ++ time_panel ("Shipping Time (Expedition → Last Status)", "delivery_delay_days",
                       dropna (cells "delivery_delay_days"))
        ++ time_panel ("Cmd→Creation", "commande_to_creation_days",
                       dropna (cells "commande_to_creation_days"))
        ++ time_panel ("Cmd→Expedition", "commande_to_expedition_days",
                       dropna (cells "commande_to_expedition_days"))
        ++ time_panel ("Cmd→Last Status", "commande_to_last_status_days",
                       dropna (cells "commande_to_last_status_days"))).
Proof.
  simpl forallb. rewrite !andb_true_iff. intros (H1 & H2 & H3 & H4 & H5 & _).
  intros cells. unfold time_intervals, time_cols.
  rewrite (col_present df _ H1), (col_present df _ H2), (col_present df _ H3),
    (col_present df _ H4), (col_present df _ H5).
  cbn [bind]. f_equal. unfold unique_time_cols.
  rewrite (keep_unseen_copies df _ [] []).
  - cbn [app flat_map]. now rewrite app_nil_r.
  - repeat (constructor; [simpl; intuition discriminate|]). constructor.
  - intros e _ [].
  - cbn [forallb entry_col fst snd]. now rewrite H1, H2, H3, H4, H5.
Qed.

(** X6.  On a frame that has the five interval columns the section shows
    five panels, in the order of [time_cols]; the panel of a column is the
    warning "No valid data for ..." exactly when every cell of the column
    is missing, and otherwise a histogram of the cells that are present. *)
Theorem time_intervals_panels (df : DataFrame) :
  forallb (has_col df)
    [ "processing_time_days"; "delivery_delay_days"; "commande_to_creation_days";
      "commande_to_expedition_days"; "commande_to_last_status_days" ] = true ->
  let cells c := map (fun r => r c) (rows df) in
  let panel label c :=
    [ st_write ("**" ++ label ++ ":**")%string;
      if forallb isna (cells c)
      then st_warning ("No valid data for " ++ label ++ ".")%string
      else st_histogram (filter notna (cells c)) c label
                        ("hist_" ++ c ++ "_" ++ label)%string ] in
  time_intervals df
  = Ok (panel "Processing Time (Creation → Expedition)" "processing_time_days"
        ++ panel "Shipping Time (Expedition → Last Status)" "delivery_delay_days"
        ++ panel "Cmd→Creation" "commande_to_creation_days"
        ++ panel "Cmd→Expedition" "commande_to_expedition_days"
        ++ panel "Cmd→Last Status" "commande_to_last_status_days").
Proof.
  intros Hc cells panel. rewrite (time_intervals_eq df Hc). cbv zeta.
  rewrite !time_panel_cells. reflexivity.
Qed.

(* ------------------------------------------------------------------------- *)
(** ** The tables of slow orders *)

Lemma check_cols_outcome (df : DataFrame) (cs : list string) :
  check_cols df cs
  = match first_absent df cs with
    | Some c => Err (KeyError c)
    | None => Ok tt
    end.
Proof.
  unfold first_absent. induction cs as [|c cs IH]; simpl; [reflexivity|].
  unfold col. destruct (has_col df c); simpl; [exact IH|reflexivity].
Qed.

Lemma first_absent_filter (df : DataFrame) (cs : list string) :
  first_absent df (filter (has_col df) cs) = None.
Proof.
  apply find_none_iff. intros x Hx. apply filter_In in Hx. now rewrite (proj2 Hx).
Qed.

Section SlowOrders.
Context {L : Library}.

Lemma sort_values_desc_ok (df : DataFrame) (by_ : string) :
  has_col df by_ = true ->
  sort_values_desc df by_
  = Ok {| columns := columns df;
          rows := reorder (nargsort_desc (map (fun r => r by_) (rows df))) (rows df) |}.
Proof. intros H. unfold sort_values_desc. now rewrite (col_present _ _ H). Qed.

Lemma slow_orders_ok (df : DataFrame) :
  has_col df (slow_key df) = true ->
  slow_orders df
  = Ok (head 10
          {| columns := columns df;
             rows := reorder (nargsort_desc (map (fun r => r (slow_key df)) (rows df)))
                             (rows df) |}).
Proof.
  intros H. rewrite slow_orders_eq, (sort_values_desc_ok _ _ H). reflexivity.
Qed.

Lemma slow_key_absent (df : DataFrame) :
  has_col df (slow_key df) = false ->
  slow_key df = "delivery_delay_days" /\ has_col df "delivery_delay_days" = false.
Proof.
  unfold slow_key. destruct (has_col df "total_fulfillment_days") eqn:E.
  - congruence.
  - tauto.
Qed.

Lemma slow_key_desired (df : DataFrame) : In (slow_key df) desired_cols.
Proof.
  unfold slow_key, desired_cols. destruct (has_col df _); simpl; tauto.
Qed.

Lemma bottlenecks_ok (df : DataFrame) :
  has_col df (slow_key df) = true ->
  exists slow,
    slow_orders df = Ok slow /\
    bottlenecks df
    = Ok (st_dataframe {| columns := filter (has_col df) desired_cols;
                          rows := rows slow |}) /\
    In (slow_key df) (filter (has_col df) desired_cols).
Proof.
  intros H. eexists. split; [apply (slow_orders_ok df H)|].
  assert (I : In (slow_key df) (filter (has_col df) desired_cols)).
  { apply filter_In. split; [apply slow_key_desired|assumption]. }
  split; [|exact I].
  unfold bottlenecks. rewrite (slow_orders_ok df H). cbn [bind].
  change (has_col (head 10 _)) with (has_col df).
  destruct (filter (has_col df) desired_cols) as [|c cs] eqn:E; [destruct I|].
  cbn [is_empty negb]. unfold select_columns.
  rewrite check_cols_outcome.
  change (first_absent (head 10 _)) with (first_absent df).
  rewrite <- E, first_absent_filter. reflexivity.
Qed.

(** X7.  The first table of slow orders: the section raises KeyError on a
    frame that has neither sort column; on every other frame it shows the
    slowest rows under those of [desired_cols] that the frame has, in the
    order of [desired_cols], the sort column among them.  The notice of line
    116 is never shown. *)
Theorem bottlenecks_shows_a_table (df : DataFrame) :
  (has_col df (slow_key df) = false ->
     bottlenecks df = Err (KeyError "delivery_delay_days")) /\
  (has_col df (slow_key df) = true ->
     exists slow,
       slow_orders df = Ok slow /\
       bottlenecks df
       = Ok (st_dataframe {| columns := filter (has_col df) desired_cols;
                             rows := rows slow |}) /\
       In (slow_key df) (filter (has_col df) desired_cols)) /\
  (forall body, bottlenecks df <> Ok (st_info body)).
Proof.
  assert (F : has_col df (slow_key df) = false ->
     bottlenecks df = Err (KeyError "delivery_delay_days")).
  { intros H. destruct (slow_key_absent df H) as [E H'].
    unfold bottlenecks. rewrite slow_orders_eq, E. unfold sort_values_desc.
    now rewrite (col_absent _ _ H'). }
  split; [exact F|]. split; [exact (bottlenecks_ok df)|].
  intros body. destruct (has_col df (slow_key df)) eqn:H.
  - destruct (bottlenecks_ok df H) as (slow & _ & -> & _). discriminate.
  - rewrite (F eq_refl). discriminate.
Qed.

Lemma first_absent_loaded (csv df : DataFrame) :
  load_data csv = Ok df ->
  first_absent df shown_cols_2
  = first_absent csv [ "order_id"; "from_wilaya_name"; "to_wilaya_name" ].
Proof.
  intros H. destruct (load_data_requires _ _ H) as [R _].
  simpl in R. rewrite !andb_true_iff in R.
  destruct R as (_ & _ & _ & Rs & _).
  unfold first_absent, shown_cols_2. cbn [find].
  rewrite !(load_data_has_col _ _ _ H). rewrite Rs. simpl.
  rewrite !orb_false_r, !orb_true_r. simpl.
  destruct (has_col csv "order_id"); simpl; [|reflexivity].
  destruct (has_col csv "from_wilaya_name"); simpl; [|reflexivity].
  destruct (has_col csv "to_wilaya_name"); simpl; reflexivity.
Qed.

Lemma bottlenecks_2_cases (csv df : DataFrame) :
  load_data csv = Ok df ->
  match first_absent csv [ "order_id"; "from_wilaya_name"; "to_wilaya_name" ] with
  | Some c => bottlenecks_2 df = Err (KeyError c)
  | None =>
      exists s,
        sort_values_desc df "delivery_delay_days" = Ok s /\
        bottlenecks_2 df
        = Ok (st_dataframe {| columns := shown_cols_2; rows := firstn 10 (rows s) |})
  end.
Proof.
  intros H.
  assert (Hd : has_col df "delivery_delay_days" = true).
  { rewrite (load_data_has_col _ _ _ H). simpl. apply orb_true_r. }
  pose proof (first_absent_loaded _ _ H) as A.
  unfold bottlenecks_2. rewrite (sort_values_desc_ok _ _ Hd). cbn [bind].
  unfold select_columns. rewrite check_cols_outcome.
  change (first_absent (head 10 _)) with (first_absent df). rewrite A.
  destruct (first_absent csv _) as [c|]; [reflexivity|].
  eexists. split; reflexivity.
Qed.

(** X8.  The second table of slow orders selects its thirteen columns
    whether the frame has them or not: after a load it raises KeyError for
    the first of order_id, from_wilaya_name and to_wilaya_name that the file
    lacks, and otherwise shows the first ten rows of the frame sorted by
    delivery delay. *)
Theorem second_table_needs_its_columns (csv df : DataFrame) :
  load_data csv = Ok df ->
  match first_absent csv [ "order_id"; "from_wilaya_name"; "to_wilaya_name" ] with
  | Some c => bottlenecks_2 df = Err (KeyError c)
  | None =>
      exists s,
        sort_values_desc df "delivery_delay_days" = Ok s /\
        bottlenecks_2 df
        = Ok (st_dataframe {| columns := shown_cols_2; rows := firstn 10 (rows s) |})
  end.
Proof. exact (bottlenecks_2_cases csv df). Qed.

End SlowOrders.

(* ------------------------------------------------------------------------- *)
(** ** Rows with a missing key in a descending sort *)

Lemma filter_map_comm {A B} (p : B -> bool) (f : A -> B) (l : list A) :
  filter p (map f l) = map f (filter (fun x => p (f x)) l).
Proof.
  induction l as [|a l IH]; simpl; [reflexivity|].
  destruct (p (f a)); simpl; now rewrite IH.
Qed.

Lemma reorder_filter_seq_map {A} (f : A -> value) (p : value -> bool) (d : A)
  (l : list A) :
  reorder (filter (fun i => p (nth i (map f l) NaN))
                  (seq 0 (List.length (map f l)))) l
  = filter (fun x => p (f x)) l.
Proof.
  rewrite <- (reorder_filter_seq (fun x => p (f x)) d l).
  rewrite length_map. f_equal. apply filter_ext_in. intros i Hi.
  apply in_seq in Hi.
  rewrite (nth_indep (map f l) NaN (f d)) by (rewrite length_map; lia).
  now rewrite map_nth.
Qed.

Section MissingLast.
Context {L : Library}.

(** The rows a descending sort returns: those with a key, in descending
    order, then those without, in the order they had. *)
Lemma reorder_nargsort_desc (by_ : Row -> value) (l : list Row) :
  argsort_ok (sort_input (map by_ l)) (argsort (sort_input (map by_ l))) = true ->
  exists dated,
    Permutation dated (filter (fun r => notna (by_ r)) l) /\
    sorted_b (fun a b => key_leb b a) (map by_ dated) = true /\
    reorder (nargsort_desc (map by_ l)) l
    = dated ++ filter (fun r => isna (by_ r)) l.
Proof.
  unfold argsort_ok. rewrite andb_true_iff. intros [Hperm Hsort].
  apply is_perm_seq_perm in Hperm. apply sorted_b_adjacent in Hsort.
  unfold nargsort_desc. cbv zeta.
  set (items := map by_ l) in *.
  set (NN := filter (fun i => notna (nth i items NaN)) (seq 0 (List.length items))).
  set (NA := filter (fun i => isna (nth i items NaN)) (seq 0 (List.length items))).
  assert (RNN : forall j, In j NN -> j < List.length items)
    by apply reorder_in_range_length.
  assert (RNN' : forall j, In j (rev NN) -> j < List.length l).
  { intros j Hj. apply in_rev, RNN in Hj. unfold items in Hj.
    now rewrite length_map in Hj. }
  assert (FNN : reorder NN items = filter notna items)
    by apply (reorder_filter_seq notna NaN).
  assert (GNN : reorder NN l = filter (fun r => notna (by_ r)) l)
    by apply (reorder_filter_seq_map by_ notna empty_row).
  assert (GNA : reorder NA l = filter (fun r => isna (by_ r)) l)
    by apply (reorder_filter_seq_map by_ isna empty_row).
  assert (EK : rev (map (fun i => nth i items NaN) NN) = sort_input items).
  { unfold sort_input. now rewrite (reorder_as_map NaN NN items RNN), FNN. }
  rewrite EK. set (a := argsort (sort_input items)) in *.
  set (F := filter (fun r => notna (by_ r)) l) in *.
  assert (EF : sort_input items = map by_ (rev F)).
  { unfold sort_input, items, F. now rewrite filter_map_comm, map_rev. }
  exists (rev (reorder a (rev F))). split; [|split].
  - eapply Permutation_trans; [apply Permutation_sym, Permutation_rev|].
    eapply Permutation_trans; [|apply Permutation_sym, Permutation_rev].
    apply reorder_perm. rewrite EF, length_map in Hperm. exact Hperm.
  - apply sorted_b_adjacent. rewrite map_rev, <- reorder_map, <- EF.
    now apply (adjacent_rev key_leb).
  - rewrite reorder_app, GNA. f_equal.
    rewrite reorder_rev, reorder_reorder by exact RNN'.
    now rewrite reorder_rev, GNN.
Qed.

(** X9.  The slowest orders are the first ten of: the rows that have a
    sort key, in descending order of the key, then the rows that have none,
    in the order of the file.  So with fewer than ten keyed rows the table
    is filled up with rows that have no delay. *)
Theorem slow_orders_missing_delays_last (df : DataFrame) :
  has_col df (slow_key df) = true ->
  let key (r : Row) := r (slow_key df) in
  let keys := map key (rows df) in
  argsort_ok (sort_input keys) (argsort (sort_input keys)) = true ->
  exists dated,
    let undated := filter (fun r => isna (key r)) (rows df) in
    Permutation dated (filter (fun r => notna (key r)) (rows df)) /\
    sorted_b (fun a b => key_leb b a) (map key dated) = true /\
    slow_orders df
    = Ok {| columns := columns df; rows := firstn 10 (dated ++ undated) |} /\
    (List.length dated <= 10 ->
     firstn 10 (dated ++ undated)
     = dated ++ firstn (10 - List.length dated) undated).
Proof.
  intros H key keys Hok.
  destruct (reorder_nargsort_desc key (rows df) Hok) as (dated & P & S & E).
  exists dated. cbv zeta. split; [exact P|]. split; [exact S|]. split.
  - rewrite (slow_orders_ok df H), <- E. reflexivity.
  - intros Hn. rewrite firstn_app. f_equal. now apply firstn_all2.
Qed.

End MissingLast.

(* ------------------------------------------------------------------------- *)
(** ** The most returned products *)

Lemma boolean_mask_filter (l : list Row) (f : Row -> value) :
  map fst (filter (fun p => is_true (snd p)) (combine l (map f l)))
  = filter (fun r => is_true (f r)) l.
Proof.
  induction l as [|r l IH]; simpl; [reflexivity|].
  destruct (is_true (f r)); simpl; now rewrite IH.
Qed.

Lemma existsb_map {A B} (p : B -> bool) (f : A -> B) (l : list A) :
  existsb p (map f l) = existsb (fun x => p (f x)) l.
Proof. induction l as [|a l IH]; simpl; [reflexivity|now rewrite IH]. Qed.

(** [df[df[c]]] on a frame that has the column [c]. *)
Lemma boolean_mask_col (df : DataFrame) (c : string) :
  boolean_mask df (map (fun r => r c) (rows df))
  = if existsb (fun r => isna (r c)) (rows df)
    then Err (ValueError "Cannot mask with non-boolean array containing NA / NaN values")
    else Ok {| columns := columns df;
               rows := filter (fun r => is_true (r c)) (rows df) |}.
Proof.
  unfold boolean_mask. rewrite existsb_map, boolean_mask_filter. reflexivity.
Qed.

Lemma get_product_col_In {L : Library} (df : DataFrame) (c : string) :
  get_product_col df = Some c -> has_col df c = true.
Proof.
  unfold get_product_col. intros H. apply find_some in H.
  apply existsb_eqb_In. tauto.
Qed.

Lemma series_total_sizes (n : value -> nat) (ks : list value) :
  series_total (map (fun k => (k, VInt (Z.of_nat (n k)))) ks)
  = Z.of_nat (fold_right (fun k acc => (n k + acc)%nat) 0%nat ks).
Proof.
  unfold series_total. induction ks as [|k ks IH]; simpl; [reflexivity|].
  rewrite IH. lia.
Qed.

Lemma filter_filter {A} (p q : A -> bool) (l : list A) :
  filter p (filter q l) = filter (fun x => q x && p x) l.
Proof.
  induction l as [|a l IH]; simpl; [reflexivity|].
  destruct (q a); simpl; [destruct (p a)|]; now rewrite IH.
Qed.

Lemma filter_nonempty {A} (p : A -> bool) (l : list A) (x : A) :
  In x l -> p x = true -> (0 < List.length (filter p l))%nat.
Proof.
  intros Hin Hp. assert (H : In x (filter p l)) by (apply filter_In; tauto).
  destruct (filter p l); [destruct H|simpl; lia].
Qed.

(** The sizes of the groups of [l] by [key]: one entry per key that is
    present, its group is not empty, and the sizes add up to the number of
    rows that have a key. *)
Lemma group_sizes (key : Row -> value) (l : list Row) :
  let ks := group_keys (map key l) in
  let size k := List.length (filter (fun r => value_eqb (key r) k) l) in
  NoDup ks /\
  (forall k, In k ks -> notna k = true /\ (0 < size k)%nat) /\
  fold_right (fun k acc => (size k + acc)%nat) 0%nat ks
  = List.length (filter (fun r => notna (key r)) l).
Proof.
  cbv zeta. split; [apply group_keys_NoDup|]. split.
  - intros k Hk. apply group_keys_In in Hk. destruct Hk as [Hn Hin].
    split; [exact Hn|]. apply in_map_iff in Hin. destruct Hin as (r & E & Hr).
    apply (filter_nonempty _ _ r Hr). now apply value_eqb_eq.
  - pose proof (group_sizes_add_up key (fun _ => true)
                  (group_keys (map key l)) l (group_keys_NoDup _)) as G.
    rewrite (fold_sizes_ext
               (fun k => List.length (filter (fun r => value_eqb (key r) k) l))
               (fun k => List.length
                           (filter (fun r => value_eqb (key r) k && true) l))).
    + rewrite G. f_equal. apply filter_ext_in. intros r Hr.
      rewrite andb_true_r. apply existsb_group_keys. now apply in_map.
    + intros k. f_equal. apply filter_ext. intros r. now rewrite andb_true_r.
Qed.

Section TopReturns.
Context {L : Library}.

Lemma returns_by_product_ok (df : DataFrame) (c : string) :
  get_product_col df = Some c ->
  has_col df "returned" = true ->
  existsb (fun r => isna (r "returned")) (rows df) = false ->
  returns_by_product df
  = Ok (Some
      (map (fun k =>
              (k, VInt (Z.of_nat
                     (List.length
                        (filter (fun r => value_eqb (r c) k)
                                (filter (fun r => is_true (r "returned")) (rows df)))))))
           (group_keys
              (map (fun r => r c)
                   (filter (fun r => is_true (r "returned")) (rows df)))))).
Proof.
  intros Hc Hr Hn. unfold returns_by_product. rewrite Hc.
  rewrite (col_present _ _ Hr). cbn [bind].
  rewrite boolean_mask_col, Hn. cbn [bind].
  unfold groupby_size.
  rewrite col_present by (exact (get_product_col_In df c Hc)).
  cbn [bind rows]. reflexivity.
Qed.

Lemma returned_missing (b : bool) (raw : Row) :
  isna (derive_row (normalize_row b raw) "returned") = negb (is_str (raw "last_status")).
Proof.
  destruct (loaded_flags b raw) as (_ & _ & ->). now destruct (raw "last_status").
Qed.

Lemma top_returns_cases (csv df : DataFrame) :
  load_data csv = Ok df ->
  match get_product_col df with
  | None => top_returns df = Ok None
  | Some c =>
      In c (columns df) /\
      (every_status_text csv = true ->
       exists sizes,
         returns_by_product df = Ok (Some sizes) /\
         top_returns df = Ok (Some (firstn 10 (sort_series_desc sizes))))
  end.
Proof.
  intros H. destruct (get_product_col df) as [c|] eqn:Hc.
  2:{ unfold top_returns, returns_by_product. now rewrite Hc. }
  split; [apply existsb_eqb_In, (get_product_col_In df c Hc)|].
  assert (Hr : has_col df "returned" = true).
  { rewrite (load_data_has_col _ _ _ H). simpl. apply orb_true_r. }
  assert (E : existsb (fun r => isna (r "returned")) (rows df)
              = negb (forallb (fun raw => is_str (raw "last_status")) (rows csv))).
  { rewrite (load_data_rows _ _ H). generalize (rows csv). intros l.
    induction l as [|raw l IH]; simpl; [reflexivity|].
    rewrite returned_missing, IH. now destruct (is_str (raw "last_status")). }
  intros T. unfold every_status_text in T. rewrite T in E. simpl in E.
  unfold top_returns. rewrite (returns_by_product_ok df c Hc Hr E). cbn [bind].
  eexists. split; reflexivity.
Qed.


(** X11.  The counts of returned orders by product list every product
    once; a count is the number of returned rows with that product and is
    at least 1; the counts add up to the number of returned rows that have a
    product name. *)
Theorem returned_counts_add_up (df : DataFrame) (c : string)
  (sizes : list (value * value)) :
  get_product_col df = Some c ->
  returns_by_product df = Ok (Some sizes) ->
  NoDup (map fst sizes) /\
  (forall k n, In (k, n) sizes ->
     notna k = true /\
     exists m, n = VInt (Z.of_nat m) /\ (0 < m)%nat /\
       m = List.length
             (filter (fun r => is_true (r "returned") && value_eqb (r c) k) (rows df))) /\
  series_total sizes
  = Z.of_nat
      (List.length
         (filter (fun r => is_true (r "returned") && notna (r c)) (rows df))).
Proof.
  intros Hc H.
  assert (Hr : has_col df "returned" = true /\
               existsb (fun r => isna (r "returned")) (rows df) = false).
  { unfold returns_by_product in H. rewrite Hc in H.
    destruct (df.["returned"]) as [m|] eqn:Em; [|discriminate H].
    split; [exact (has_col_true _ _ _ Em)|].
    apply col_ok in Em. subst m. cbn [bind] in H. rewrite boolean_mask_col in H.
    lazymatch type of H with
    | context [existsb ?p (rows df)] => destruct (existsb p (rows df))
    end; [discriminate H|reflexivity]. }
  destruct Hr as [Hr Hn].
  rewrite (returns_by_product_ok df c Hc Hr Hn) in H. injection H as <-.
  set (sel := filter (fun r => is_true (r "returned")) (rows df)).
  destruct (group_sizes (fun r => r c) sel) as (N & P & S). cbv zeta in P, S.
  split; [|split].
  - rewrite map_map. cbn [fst]. now rewrite map_id.
  - intros k n Hin. apply in_map_iff in Hin. destruct Hin as (k' & E & Hk).
    injection E as -> <-. destruct (P k Hk) as [P1 P2].
    split; [exact P1|]. eexists. split; [reflexivity|]. split; [exact P2|].
    unfold sel. f_equal. apply filter_filter.
  - etransitivity;
      [exact (series_total_sizes
                (fun k => List.length (filter (fun r => value_eqb (r c) k) sel)) _)|].
    f_equal. etransitivity; [exact S|]. unfold sel. f_equal. apply filter_filter.
Qed.

End TopReturns.

(* ------------------------------------------------------------------------- *)
(** ** Means by group, in descending order *)

Section GroupMeans.
Context {L : Library}.

(** Sorting one entry per key by a metric: the keys come out rearranged,
    the metric descending. *)
Lemma sorted_entries {X} (F : value -> X) (metric : X -> value) (ks : list value) :
  let l := map F ks in
  argsort_ok (sort_input (map metric l)) (argsort (sort_input (map metric l))) = true ->
  exists order,
    Permutation order ks /\
    reorder (nargsort_desc (map metric l)) l = map F order /\
    sorted_desc (map metric (map F order)).
Proof.
  intros l Hok. destruct (nargsort_desc_spec (map metric l) Hok) as [Hp Hs].
  rewrite length_map in Hp.
  pose proof (reorder_perm _ l Hp) as P.
  destruct (Permutation_map_inv F ks P) as (order & E & Po).
  exists order. split; [now apply Permutation_sym|]. split; [exact E|].
  rewrite <- E, <- reorder_map. exact Hs.
Qed.

(** X12.  The mean delay by hub: KeyError on a frame without a
    stopdesk_name column; otherwise one row for each hub present in the
    data, holding the mean delivery delay of the rows of the hub, in
    descending order of the mean, hubs without any delay last. *)
Theorem hub_delays_by_hub (df : DataFrame) :
  let hubs := group_keys (map (fun r => r "stopdesk_name") (rows df)) in
  let avg k :=
    mean_v (map (fun r => r "delivery_delay_days") (group df "stopdesk_name" k)) in
  (has_col df "stopdesk_name" = false ->
     hub_delays df = Err (KeyError "stopdesk_name")) /\
  (has_col df "stopdesk_name" = true ->
   has_col df "delivery_delay_days" = true ->
   argsort_ok (sort_input (map avg hubs)) (argsort (sort_input (map avg hubs))) = true ->
   exists out order,
     hub_delays df = Ok out /\
     Permutation order hubs /\
     map (fun r => (r "stopdesk_name", r "avg_delay")) (rows out)
     = map (fun k => (k, avg k)) order /\
     sorted_desc (map avg order)).
Proof.
  intros hubs avg. split.
  - intros H. unfold hub_delays, groupby_agg. now rewrite (col_absent _ _ H).
  - intros Hh Hd Hok.
    set (F := fun k => agg_row "stopdesk_name"
                         [ mkAgg "avg_delay" "delivery_delay_days" mean_v ] k
                         (group df "stopdesk_name" k)).
    assert (G : groupby_agg df "stopdesk_name"
                  [ mkAgg "avg_delay" "delivery_delay_days" mean_v ]
                = Ok {| columns := [ "avg_delay" ]; rows := map F hubs |}).
    { unfold groupby_agg. rewrite (col_present _ _ Hh). cbn [bind map agg_col].
      rewrite check_cols_ok by (simpl; now rewrite Hd). reflexivity. }
    assert (M : map (fun r : Row => r "avg_delay") (map F hubs) = map avg hubs).
    { rewrite map_map. reflexivity. }
    destruct (sorted_entries F (fun r => r "avg_delay") hubs) as (order & P & E & S).
    { cbv zeta. rewrite M. exact Hok. }
    eexists. exists order. unfold hub_delays. rewrite G. cbn [bind].
    rewrite sort_values_desc_ok by reflexivity. cbn [rows columns].
    split; [reflexivity|]. split; [exact P|]. cbn [rows]. split.
    + transitivity (map (fun r : Row => (r "stopdesk_name", r "avg_delay"))
                        (map F order)).
      * exact (f_equal (map (fun r : Row => (r "stopdesk_name", r "avg_delay"))) E).
      * rewrite map_map. reflexivity.
    + rewrite map_map in S. exact S.
Qed.

(** X13.  The collection rate by region: one entry for each destination
    region present in the data, holding the mean of has_recouvrement over
    the rows of the region, in descending order of the rate. *)
Theorem rec_rate_by_region (df : DataFrame) :
  let regions := group_keys (map (fun r => r "to_wilaya_name") (rows df)) in
  let rate k :=
    mean_v (map (fun r => r "has_recouvrement") (group df "to_wilaya_name" k)) in
  has_col df "to_wilaya_name" = true ->
  has_col df "has_recouvrement" = true ->
  argsort_ok (sort_input (map rate regions)) (argsort (sort_input (map rate regions)))
  = true ->
  exists order,
    rec_rate df = Ok (map (fun k => (k, rate k)) order) /\
    Permutation order regions /\
    sorted_desc (map rate order).
Proof.
  intros regions rate Hw Hr Hok.
  destruct (sorted_entries (fun k => (k, rate k)) snd regions) as (order & P & E & S).
  { cbv zeta. rewrite map_map. exact Hok. }
  exists order. split; [|split; [exact P|]].
  - unfold rec_rate, groupby_mean.
    rewrite (col_present _ _ Hw), (col_present _ _ Hr). cbn [bind].
    unfold sort_series_desc. f_equal. exact E.
  - rewrite map_map in S. exact S.
Qed.

End GroupMeans.

(* ------------------------------------------------------------------------- *)
(** ** Orders over time *)

Lemma sorted_b_cons {A} (leb : A -> A -> bool) (x : A) (l : list A) :
  sorted_b leb (x :: l) = true <->
  (forall y, hd_error l = Some y -> leb x y = true) /\ sorted_b leb l = true.
Proof.
  destruct l as [|y l]; simpl.
  - split; [intros _; split; [discriminate|reflexivity]|reflexivity].
  - rewrite andb_true_iff. split.
    + intros [H1 H2]. split; [now intros ? [= <-]|assumption].
    + intros [H1 H2]. split; [now apply H1|assumption].
Qed.

Lemma insert_by_sorted {A} (leb : A -> A -> bool) (x : A) (l : list A) :
  (forall y, In y l -> leb x y = false -> leb y x = true) ->
  sorted_b leb l = true -> sorted_b leb (insert_by leb x l) = true.
Proof.
  induction l as [|y l IH]; intros T S; [reflexivity|].
  cbn [insert_by]. destruct (leb x y) eqn:E.
  - apply sorted_b_cons. split; [now intros ? [= <-]|assumption].
  - apply sorted_b_cons in S. destruct S as [S1 S2].
    apply sorted_b_cons. split.
    + intros z Hz. destruct l as [|w l]; cbn [insert_by] in Hz.
      * injection Hz as <-. apply T; [now left|assumption].
      * destruct (leb x w).
        -- injection Hz as <-. apply T; [now left|assumption].
        -- injection Hz as <-. now apply S1.
    + apply IH; [|assumption]. intros z Hz. apply T. now right.
Qed.

Lemma isort_sorted {A} (leb : A -> A -> bool) (l : list A) :
  (forall x y, In x l -> In y l -> leb x y = false -> leb y x = true) ->
  sorted_b leb (isort leb l) = true.
Proof.
  induction l as [|x l IH]; intros T; [reflexivity|].
  cbn [isort fold_right]. apply insert_by_sorted.
  - intros y Hy. apply (Permutation_in _ (isort_perm leb l)) in Hy.
    apply T; [now left|now right].
  - apply IH. intros a b Ha Hb. apply T; now right.
Qed.

(** Keys that are day numbers come out in ascending order. *)
Lemma group_keys_days_sorted (keys : Series) :
  (forall k, In k keys -> notna k = true -> exists d, k = VInt d) ->
  sorted_b key_leb (group_keys keys) = true.
Proof.
  intros H. unfold group_keys. apply isort_sorted.
  intros x y Hx Hy. apply nodup_In, filter_In in Hx, Hy.
  destruct (H x (proj1 Hx) (proj2 Hx)) as [a ->].
  destruct (H y (proj1 Hy) (proj2 Hy)) as [b ->].
  simpl. rewrite !Z.leb_gt, Z.leb_le. lia.
Qed.

Section OrdersTime.
Context {L : Library}.

Lemma loaded_creation_date (b : bool) (raw : Row) :
  is_datetime (derive_row (normalize_row b raw) "date_creation") = true.
Proof.
  destruct (loaded_dates b raw) as (-> & _).
  destruct (to_datetime1_cases (raw "date_creation")) as [->|[t ->]]; reflexivity.
Qed.

Lemma orders_time_loaded (csv df : DataFrame) :
  load_data csv = Ok df ->
  (forall r, In r (rows df) -> is_datetime (r "date_creation") = true) /\
  orders_time df
  = Ok (size_by (map (fun r => date1 (r "date_creation")) (rows df))).
Proof.
  intros H.
  assert (Hc : has_col df "date_creation" = true).
  { rewrite (load_data_has_col _ _ _ H). simpl. apply orb_true_r. }
  assert (Hdt : forall r, In r (rows df) -> is_datetime (r "date_creation") = true).
  { intros r Hr. destruct (load_data_In _ _ _ H Hr) as (raw & _ & ->).
    apply loaded_creation_date. }
  split; [exact Hdt|].
  assert (A : dt_accessor (map (fun r => r "date_creation") (rows df))
              = Ok (map (fun r => r "date_creation") (rows df))).
  { unfold dt_accessor.
    replace (forallb is_datetime (map (fun r => r "date_creation") (rows df)))
      with true; [reflexivity|].
    symmetry. apply forallb_forall. intros v Hv. apply in_map_iff in Hv.
    destruct Hv as (r & <- & Hr). now apply Hdt. }
  unfold orders_time. rewrite (col_present _ _ Hc). cbn [bind]. rewrite A.
  cbn [bind]. now rewrite map_map.
Qed.

(** X14.  Orders over time, after a load: one point for each day on which
    an order was created, the days ascending and without repetition; the
    count of a day is the number of rows created that day and is at least 1;
    the counts add up to the number of rows with a creation date that could
    be read. *)
Theorem orders_time_by_day (csv df : DataFrame) :
  load_data csv = Ok df ->
  let day (r : Row) := date1 (r "date_creation") in
  exists points,
    orders_time df = Ok points /\
    NoDup (map fst points) /\
    sorted_b key_leb (map fst points) = true /\
    (forall k n, In (k, n) points ->
       exists d m, k = VInt d /\ n = VInt (Z.of_nat m) /\ (0 < m)%nat /\
         m = List.length (filter (fun r => value_eqb (day r) (VInt d)) (rows df))) /\
    series_total points
    = Z.of_nat (List.length (filter (fun r => notna (r "date_creation")) (rows df))).
Proof.
  intros H day.
  destruct (orders_time_loaded _ _ H) as [Hdt O].
  set (keys := map day (rows df)).
  assert (Z : forall k,
            List.length (filter (fun v => value_eqb v k) keys)
            = List.length (filter (fun r => value_eqb (day r) k) (rows df))).
  { intros k. unfold keys. now rewrite filter_map_comm, length_map. }
  destruct (group_sizes day (rows df)) as (N & P & S). cbv zeta in P, S.
  fold keys in N, P, S.
  exists (size_by keys). split; [exact O|]. unfold size_by.
  split; [|split; [|split]].
  - rewrite map_map. cbn [fst]. now rewrite map_id.
  - rewrite map_map. cbn [fst]. rewrite map_id. apply group_keys_days_sorted.
    intros k Hk Hn. apply in_map_iff in Hk. destruct Hk as (r & <- & _).
    unfold day in *. destruct (r "date_creation"); simpl in Hn; try discriminate.
    eexists; reflexivity.
  - intros k n Hin. apply in_map_iff in Hin. destruct Hin as (k' & E & Hk).
    injection E as -> <-. destruct (P k Hk) as [P1 P2].
    assert (Hd : exists d, k = VInt d).
    { apply group_keys_In in Hk. destruct Hk as [_ Hk].
      apply in_map_iff in Hk. destruct Hk as (r & E & _).
      unfold day in E. rewrite <- E in P1.
      destruct (r "date_creation"); simpl in P1, E; try discriminate.
      eexists. symmetry. exact E. }
    destruct Hd as [d ->]. exists d. eexists. split; [reflexivity|].
    split; [reflexivity|]. rewrite Z. split; [exact P2|reflexivity].
  - etransitivity;
      [exact (series_total_sizes
                (fun k => List.length (filter (fun v => value_eqb v k) keys)) _)|].
    f_equal.
    rewrite (fold_sizes_ext _ (fun k => List.length
                (filter (fun r => value_eqb (day r) k) (rows df)))) by exact Z.
    etransitivity; [exact S|]. f_equal. apply filter_ext_in. intros r Hr.
    specialize (Hdt r Hr). unfold day. now destruct (r "date_creation").
Qed.

End OrdersTime.

(* ------------------------------------------------------------------------- *)
(** ** Price against declared value *)

Lemma map2_maps {A B C D} (f : B -> C -> D) (g : A -> B) (h : A -> C) (l : list A) :
  map2 f (map g l) (map h l) = map (fun x => f (g x) (h x)) l.
Proof. induction l as [|a l IH]; simpl; [reflexivity|now rewrite IH]. Qed.

Lemma valid_price_eq (df : DataFrame) :
  valid_price df
  = if has_col df "Prix du produit" && has_col df "declared_value" then
      Ok (Some {| columns := columns df;
                  rows := filter (fun r => notna (r "Prix du produit")
                                           && notna (r "declared_value"))
                                 (rows df) |})
    else Ok None.
Proof.
  unfold valid_price.
  destruct (has_col df "Prix du produit") eqn:Hp; [|reflexivity].
  destruct (has_col df "declared_value") eqn:Hd; [|reflexivity].
  cbn [andb]. rewrite (col_present _ _ Hp), (col_present _ _ Hd). cbn [bind].
  unfold and_s, notna_s. rewrite !map_map.
  rewrite (map2_maps (fun x y => VBool (is_true x && is_true y))
             (fun r : Row => VBool (notna (r "Prix du produit")))
             (fun r : Row => VBool (notna (r "declared_value")))).
  unfold boolean_mask. rewrite existsb_map.
  replace (existsb _ (rows df)) with false.
  - cbn [bind columns rows]. rewrite boolean_mask_filter. do 3 f_equal.
    apply filter_ext. intros r.
    now destruct (notna (r "Prix du produit")), (notna (r "declared_value")).
  - symmetry. clear. induction (rows df) as [|r l IH]; simpl; [reflexivity|exact IH].
Qed.

(** X15.  The rows of the price plot: the selection never raises; it is
    [None] (the warning of line 204) when one of the two columns is not
    there, and otherwise the rows of the frame, in their order, that have
    both a product price and a declared value. *)
Theorem valid_price_rows (df : DataFrame) :
  match valid_price df with
  | Ok (Some sel) =>
      has_col df "Prix du produit" = true /\ has_col df "declared_value" = true /\
      columns sel = columns df /\
      rows sel
      = filter (fun r => notna (r "Prix du produit") && notna (r "declared_value"))
               (rows df)
  | Ok None =>
      has_col df "Prix du produit" = false \/ has_col df "declared_value" = false
  | Err _ => False
  end.
Proof.
  rewrite valid_price_eq.
  destruct (has_col df "Prix du produit"); [|simpl; now left].
  destruct (has_col df "declared_value"); [|simpl; now right].
  simpl. repeat split.
Qed.

(* ------------------------------------------------------------------------- *)
(** ** The three reports by destination region *)

Section Regions.
Context {L : Library}.

(** X16.  The three reports by destination region agree: a row of the
    high-risk table has the order count and the return rate of the row of its
    region in the summary of lines 139-143, and its rec_rate is the value
    the collection-rate table gives that region. *)
Theorem regional_reports_agree (df stats risk : DataFrame) :
  wilaya_stats df = Ok stats ->
  risk_df df = Ok risk ->
  forall row, In row (rows risk) ->
    (exists row',
       In row' (rows stats) /\
       row' "to_wilaya_name" = row "to_wilaya_name" /\
       row' "orders" = row "orders" /\
       row' "return_rate" = row "return_rate") /\
    (forall rates v,
       rec_rate df = Ok rates ->
       In (row "to_wilaya_name", v) rates -> v = row "rec_rate").
Proof.
  intros Hs Hr row Hin.
  unfold wilaya_stats in Hs.
  destruct (groupby_agg df "to_wilaya_name" _) as [g|] eqn:Hg in Hs;
    [|discriminate Hs].
  cbn [bind] in Hs. injection Hs as <-.
  pose proof (groupby_agg_rows _ _ _ _ Hg) as Rg.
  unfold risk_df in Hr.
  destruct (risk_groups df) as [g'|] eqn:Hg'; [|discriminate Hr].
  cbn [bind] in Hr. unfold risk_groups in Hg'.
  pose proof (groupby_agg_rows _ _ _ _ Hg') as Rg'.
  unfold sort_values_desc in Hr.
  destruct ((query_orders_gt_10 g').["return_rate"]) as [k|]; [|discriminate Hr].
  cbn [bind] in Hr. injection Hr as <-. cbn [rows query_orders_gt_10] in Hin.
  apply reorder_in, filter_In, proj1 in Hin.
  rewrite Rg' in Hin. apply in_map_iff in Hin. destruct Hin as (key & <- & Hkey).
  split.
  - eexists. split.
    + cbn [reset_index rows]. rewrite Rg. apply in_map. exact Hkey.
    + split; [reflexivity|]. split; reflexivity.
  - intros rates v Hrates Hv. unfold rec_rate, groupby_mean in Hrates.
    destruct (df.["to_wilaya_name"]) as [ks|] eqn:Ek; [|discriminate Hrates].
    cbn [bind] in Hrates.
    destruct (df.["has_recouvrement"]) as [hs|]; [|discriminate Hrates].
    cbn [bind] in Hrates. injection Hrates as <-.
    unfold sort_series_desc in Hv. apply reorder_in, in_map_iff in Hv.
    destruct Hv as (k' & E & _). injection E as E1 E2. subst v.
    change (agg_row _ _ key _ "to_wilaya_name") with key in E1. now subst k'.
Qed.

End Regions.

(* ------------------------------------------------------------------------- *)
(** ** The bar charts by region *)

Section Charts.
Context {L : Library}.

(** X17.  The two bar charts by region show the rows of the summary of
    lines 139-143 rearranged: each region once, the bars in descending
    order of the count for the first chart and of the revenue for the
    second. *)
Theorem charts_show_every_region (df stats : DataFrame) :
  wilaya_stats df = Ok stats ->
  (let counts := map (fun r => r "orders") (rows stats) in
   argsort_ok (sort_input counts) (argsort (sort_input counts)) = true ->
   exists bars,
     orders_per_wilaya stats = Ok bars /\
     Permutation (rows bars) (rows stats) /\
     NoDup (map (fun r => r "to_wilaya_name") (rows bars)) /\
     sorted_desc (map (fun r => r "orders") (rows bars))) /\
  (let sums := map (fun r => r "revenue") (rows stats) in
   argsort_ok (sort_input sums) (argsort (sort_input sums)) = true ->
   exists bars,
     revenue_per_wilaya stats = Ok bars /\
     Permutation (rows bars) (rows stats) /\
     NoDup (map (fun r => r "to_wilaya_name") (rows bars)) /\
     sorted_desc (map (fun r => r "revenue") (rows bars))).
Proof.
  intros H. unfold wilaya_stats in H.
  destruct (groupby_agg df "to_wilaya_name" _) as [g|] eqn:Hg in H;
    [|discriminate H].
  cbn [bind] in H. injection H as <-.
  pose proof (groupby_agg_rows _ _ _ _ Hg) as R.
  pose proof (groupby_agg_columns _ _ _ _ Hg) as C.
  assert (N : NoDup (map (fun r : Row => r "to_wilaya_name")
                         (rows (reset_index "to_wilaya_name" g)))).
  { cbn [reset_index rows]. rewrite R, map_map.
    rewrite (map_ext _ (fun k => k)) by reflexivity.
    rewrite map_id. apply group_keys_NoDup. }
  assert (S : forall c, has_col (reset_index "to_wilaya_name" g) c = true ->
    argsort_ok
      (sort_input (map (fun r => r c) (rows (reset_index "to_wilaya_name" g))))
      (argsort
         (sort_input (map (fun r => r c) (rows (reset_index "to_wilaya_name" g)))))
    = true ->
    exists bars,
      sort_values_desc (reset_index "to_wilaya_name" g) c = Ok bars /\
      Permutation (rows bars) (rows (reset_index "to_wilaya_name" g)) /\
      NoDup (map (fun r => r "to_wilaya_name") (rows bars)) /\
      sorted_desc (map (fun r => r c) (rows bars))).
  { intros c Hc Hok.
    destruct (sort_values_desc_spec _ c _ (col_present _ _ Hc) Hok)
      as (bars & H1 & _ & H2 & H3).
    exists bars. split; [exact H1|]. split; [exact H2|]. split; [|exact H3].
    apply (Permutation_NoDup (l := map (fun r : Row => r "to_wilaya_name")
                                      (rows (reset_index "to_wilaya_name" g)))).
    - apply Permutation_map, Permutation_sym, H2.
    - exact N. }
  split; intros keys Hok; apply S; try exact Hok;
    unfold has_col; cbn [reset_index columns]; rewrite C; reflexivity.
Qed.

End Charts.

(* ------------------------------------------------------------------------- *)
(** ** A file without records *)

Lemma reorder_nil {A} (idx : list nat) : reorder idx (@nil A) = [].
Proof.
  unfold reorder. induction idx as [|i idx IH]; simpl; [reflexivity|].
  rewrite IH. now destruct i.
Qed.

Section EmptyFile.
Context {L : Library}.

(** X18.  A file that has the columns [load_data] reads and no record
    loads into a frame without rows; on it the insights are the one message
    that no bottleneck was detected, the five panels of the distributions
    are warnings, and the slowest orders and the orders over time are
    empty. *)
Theorem page_of_an_empty_file (csv : DataFrame) :
  rows csv = [] ->
  forallb (has_col csv) required_columns = true ->
  exists df,
    load_data csv = Ok df /\
    rows df = [] /\
    insights df = Ok [ no_bottleneck ] /\
    time_intervals df
    = Ok [ st_write "**Processing Time (Creation → Expedition):**";
           st_warning "No valid data for Processing Time (Creation → Expedition).";
           st_write "**Shipping Time (Expedition → Last Status):**";
           st_warning "No valid data for Shipping Time (Expedition → Last Status).";
           st_write "**Cmd→Creation:**";
           st_warning "No valid data for Cmd→Creation.";
           st_write "**Cmd→Expedition:**";
           st_warning "No valid data for Cmd→Expedition.";
           st_write "**Cmd→Last Status:**";
           st_warning "No valid data for Cmd→Last Status." ] /\
    slow_orders df = Ok {| columns := columns df; rows := [] |} /\
    orders_time df = Ok [].
Proof.
  intros Hrows Hreq.
  assert (T : text_column csv "last_status" = true).
  { unfold text_column. now rewrite Hrows. }
  destruct (load_data_total csv Hreq T) as [df H]. exists df.
  assert (R : rows df = []).
  { rewrite (load_data_rows _ _ H), Hrows. reflexivity. }
  assert (C : forall c, existsb (String.eqb c) assigned_columns = true ->
                        has_col df c = true).
  { intros c Hc. rewrite (load_data_has_col _ _ _ H), Hc. apply orb_true_r. }
  split; [exact H|]. split; [exact R|]. split; [|split; [|split]].
  - rewrite (insights_eq_table df [] []).
    + reflexivity.
    + rewrite col_present by (apply C; reflexivity). now rewrite R.
    + rewrite col_present by (apply C; reflexivity). now rewrite R.
  - unfold time_intervals, time_cols.
    rewrite !col_present by (apply C; reflexivity). rewrite R. cbn [bind map].
    unfold unique_time_cols. rewrite (keep_unseen_copies df _ [] []).
    + reflexivity.
    + repeat (constructor; [simpl; intuition discriminate|]). constructor.
    + intros e _ [].
    + cbn [forallb entry_col fst snd]. rewrite !C by reflexivity. reflexivity.
  - assert (K : has_col df (slow_key df) = true).
    { unfold slow_key. destruct (has_col df "total_fulfillment_days") eqn:E.
      - exact E.
      - apply C. reflexivity. }
    rewrite (slow_orders_ok df K), R. unfold head. cbn [columns rows].
    now rewrite reorder_nil.
  - unfold orders_time. rewrite col_present by (apply C; reflexivity).
    rewrite R. reflexivity.
Qed.

End EmptyFile.

(* ------------------------------------------------------------------------- *)
(** ** The names [get_product_col] accepts *)

Lemma sub_quotes_unfold (s : string) :
  sub_quotes s
  = match s with
    | EmptyString => EmptyString
    | String a t =>
        match t with
        | String b (String c rest) =>
            if (Ascii.eqb a "226" && Ascii.eqb b "128" && Ascii.eqb c "153")%bool
            then String "'" (sub_quotes rest)
            else String a (sub_quotes t)
        | _ => String a (sub_quotes t)
        end
    end.
Proof. destruct s; reflexivity. Qed.

(** How one character of the output of [sub_quotes] came about: copied, or
    an apostrophe put for the three bytes of U+2019. *)
Lemma sub_quotes_cons_inv (a x : ascii) (t out : string) :
  sub_quotes (String a t) = String x out ->
  (a = x /\ sub_quotes t = out) \/
  (x = "'"%char /\
   exists rest, String a t = ("’" ++ rest)%string /\ sub_quotes rest = out).
Proof.
  rewrite sub_quotes_unfold. destruct t as [|b [|c rest]].
  - intros [= -> <-]. now left.
  - intros [= -> <-]. now left.
  - destruct (Ascii.eqb a "226" && Ascii.eqb b "128" && Ascii.eqb c "153")%bool eqn:E.
    + intros [= <- <-]. right. split; [reflexivity|].
      rewrite !andb_true_iff, !Ascii.eqb_eq in E. destruct E as [[-> ->] ->].
      exists rest. split; reflexivity.
    + intros [= -> <-]. now left.
Qed.

Lemma sub_quotes_nil_inv (s : string) : sub_quotes s = EmptyString -> s = EmptyString.
Proof.
  rewrite sub_quotes_unfold. destruct s as [|a [|b [|c rest]]]; try discriminate.
  - reflexivity.
  - destruct (_ && _)%bool; discriminate.
Qed.

(** Peel one copied character off [H : sub_quotes s = String x out]. *)
Ltac peel s H :=
  let a := fresh "a" in
  let E := fresh "E" in
  destruct s as [|a s]; [discriminate H|];
  apply sub_quotes_cons_inv in H;
  destruct H as [[E H]|[E _]]; [subst a | discriminate E].

(** The texts that [re.sub(r"[’']", "'", ...)] turns into the name looked
    for: the name itself, and the name with the typographic apostrophe. *)
Lemma sub_quotes_target (s : string) :
  sub_quotes s = "nom de l'élément" <->
  s = "nom de l'élément" \/ s = "nom de l’élément".
Proof.
  split; [|intros [->| ->]; reflexivity].
  intros H. do 8 peel s H.
  destruct s as [|a s]; [discriminate H|].
  apply sub_quotes_cons_inv in H. destruct H as [[E H]|[_ (rest & E & H)]].
  - subst a. left. do 9 peel s H. apply sub_quotes_nil_inv in H. now subst s.
  - right. rewrite E. clear E a s. do 9 peel rest H.
    apply sub_quotes_nil_inv in H. now subst rest.
Qed.

Lemma find_split {A} (f : A -> bool) (l : list A) (x : A) :
  find f l = Some x ->
  exists l1 l2, l = l1 ++ x :: l2 /\ f x = true /\ forall y, In y l1 -> f y = false.
Proof.
  induction l as [|a l IH]; simpl; [discriminate|].
  destruct (f a) eqn:E.
  - intros [= ->]. exists [], l. split; [reflexivity|]. split; [exact E|]. intros y [].
  - intros H. destruct (IH H) as (l1 & l2 & -> & Hx & Hy).
    exists (a :: l1), l2. split; [reflexivity|]. split; [exact Hx|].
    intros y [<-|Hin]; [exact E|now apply Hy].
Qed.

(** X19.  [get_product_col] returns the first column, in the order of the
    header, whose name, stripped and put in lower case, is "nom de
    l'élément" written with the plain or with the typographic apostrophe;
    it returns [None] when the header has no such column.  No other name is
    accepted. *)
Theorem product_column_spellings {L : Library} (df : DataFrame) :
  let spelled c :=
    str_lower (str_strip c) = "nom de l'élément" \/
    str_lower (str_strip c) = "nom de l’élément" in
  match get_product_col df with
  | Some c =>
      exists before after,
        columns df = before ++ c :: after /\
        spelled c /\
        forall x, In x before -> ~ spelled x
  | None => forall c, In c (columns df) -> ~ spelled c
  end.
Proof.
  intros spelled.
  assert (S : forall c,
            String.eqb (sub_quotes (str_lower (str_strip c))) "nom de l'élément" = true
            <-> spelled c).
  { intros c. rewrite String.eqb_eq. apply sub_quotes_target. }
  unfold get_product_col.
  destruct (find _ (columns df)) as [c|] eqn:F.
  - apply find_split in F. destruct F as (before & after & E & Hc & Hb).
    exists before, after. split; [exact E|]. split; [now apply S|].
    intros x Hx Hs. apply S in Hs. rewrite (Hb x Hx) in Hs. discriminate.
  - intros c Hc Hs. apply S in Hs.
    rewrite (find_none _ _ F c Hc) in Hs. discriminate.
Qed.

(* ------------------------------------------------------------------------- *)
(** ** The page *)

Lemma groupby_agg_outcome (df : DataFrame) (by_ : string) (aggs : list named_agg) :
  groupby_agg df by_ aggs
  = match first_absent df (by_ :: map agg_col aggs) with
    | Some c => Err (KeyError c)
    | None =>
        Ok {| columns := map agg_out aggs;
              rows := map (fun k => agg_row by_ aggs k (group df by_ k))
                          (group_keys (map (fun r => r by_) (rows df))) |}
    end.
Proof.
  unfold groupby_agg, first_absent. cbn [find].
  destruct (has_col df by_) eqn:H; cbn [negb].
  - rewrite (col_present _ _ H). cbn [bind]. rewrite check_cols_outcome.
    unfold first_absent. now destruct (find _ (map agg_col aggs)).
  - now rewrite (col_absent _ _ H).
Qed.

Section Page.
Context {L : Library}.
Variables csv df : DataFrame.
Hypothesis H : load_data csv = Ok df.

Lemma assigned_present (c : string) :
  existsb (String.eqb c) assigned_columns = true -> has_col df c = true.
Proof. intros Hc. rewrite (load_data_has_col _ _ _ H), Hc. apply orb_true_r. Qed.

Lemma unassigned_as_in_file (c : string) :
  existsb (String.eqb c) assigned_columns = false -> has_col df c = has_col csv c.
Proof. intros Hc. rewrite (load_data_has_col _ _ _ H), Hc. apply orb_false_r. Qed.

(** Read the assigned columns at the head of the goal. *)
Ltac reads :=
  rewrite ?col_present by (apply assigned_present; reflexivity); cbn [bind].

Lemma global_kpis_ok : exists k, global_kpis df = Ok k.
Proof. unfold global_kpis. cbv zeta. reads. eauto. Qed.

Lemma time_kpis_ok : exists k, time_kpis df = Ok k.
Proof. unfold time_kpis. reads. eauto. Qed.

Lemma revenue_kpis_ok : exists k, revenue_kpis df = Ok k.
Proof. unfold revenue_kpis. reads. eauto. Qed.

Lemma time_kpis_2_ok : exists k, time_kpis_2 df = Ok k.
Proof. unfold time_kpis_2. reads. eauto. Qed.

Lemma time_intervals_ok : exists p, time_intervals df = Ok p.
Proof. unfold time_intervals, time_cols. reads. eauto. Qed.

Lemma time_intervals_2_ok : exists p, time_intervals_2 df = Ok p.
Proof. unfold time_intervals_2. reads. eauto. Qed.

Lemma insights_ok : exists l, insights df = Ok l.
Proof.
  eexists. apply insights_eq_table; apply col_present, assigned_present; reflexivity.
Qed.

Lemma bottlenecks_loaded : exists t, bottlenecks df = Ok t.
Proof.
  assert (K : has_col df (slow_key df) = true).
  { unfold slow_key. destruct (has_col df "total_fulfillment_days") eqn:E.
    - exact E.
    - apply assigned_present. reflexivity. }
  destruct (bottlenecks_ok df K) as (slow & _ & E & _). eauto.
Qed.

Lemma missing_warnings_ok : exists w, missing_warnings df = Ok w.
Proof.
  unfold missing_warnings, missing_warning.
  rewrite !assigned_present by reflexivity. reads.
  destruct (F64.ltb _ _); cbn [bind]; destruct (F64.ltb _ _); cbn [bind]; eauto.
Qed.

Lemma valid_price_ok : exists v, valid_price df = Ok v.
Proof. rewrite valid_price_eq. destruct (_ && _); eauto. Qed.

Lemma rec_rate_ok :
  has_col csv "to_wilaya_name" = true -> exists r, rec_rate df = Ok r.
Proof.
  intros Hw. unfold rec_rate, groupby_mean.
  rewrite (col_present df "to_wilaya_name")
    by (rewrite unassigned_as_in_file; [exact Hw|reflexivity]).
  reads. eauto.
Qed.

Lemma wilaya_stats_cases :
  match first_absent csv [ "to_wilaya_name"; "order_id" ] with
  | Some c => wilaya_stats df = Err (KeyError c)
  | None =>
      exists stats,
        wilaya_stats df = Ok stats /\
        columns stats = [ "to_wilaya_name"; "orders"; "revenue"; "return_rate" ]
  end.
Proof.
  unfold wilaya_stats. rewrite groupby_agg_outcome.
  unfold first_absent. cbn [find map agg_col].
  rewrite (unassigned_as_in_file "to_wilaya_name"),
    (unassigned_as_in_file "order_id") by reflexivity.
  rewrite !assigned_present by reflexivity.
  destruct (has_col csv "to_wilaya_name"); cbn [negb bind]; [|reflexivity].
  destruct (has_col csv "order_id"); cbn [negb bind]; [|reflexivity].
  eexists. split; reflexivity.
Qed.

Lemma risk_df_ok :
  has_col csv "to_wilaya_name" = true -> has_col csv "order_id" = true ->
  exists r, risk_df df = Ok r.
Proof.
  intros Hw Ho. unfold risk_df, risk_groups. rewrite groupby_agg_outcome.
  unfold first_absent. cbn [find map agg_col].
  rewrite (unassigned_as_in_file "to_wilaya_name"),
    (unassigned_as_in_file "order_id") by reflexivity.
  rewrite !assigned_present by reflexivity. rewrite Hw, Ho. cbn [negb bind].
  rewrite sort_values_desc_ok by reflexivity. eauto.
Qed.

Lemma hub_delays_cases :
  if has_col csv "stopdesk_name"
  then exists h, hub_delays df = Ok h
  else hub_delays df = Err (KeyError "stopdesk_name").
Proof.
  unfold hub_delays. rewrite groupby_agg_outcome.
  unfold first_absent. cbn [find map agg_col].
  rewrite (unassigned_as_in_file "stopdesk_name") by reflexivity.
  rewrite !assigned_present by reflexivity.
  destruct (has_col csv "stopdesk_name"); cbn [negb bind]; [|reflexivity].
  rewrite sort_values_desc_ok by reflexivity. eauto.
Qed.

Lemma charts_ok (stats : DataFrame) :
  columns stats = [ "to_wilaya_name"; "orders"; "revenue"; "return_rate" ] ->
  (exists b, orders_per_wilaya stats = Ok b) /\
  (exists b, revenue_per_wilaya stats = Ok b).
Proof.
  intros E. unfold orders_per_wilaya, revenue_per_wilaya.
  rewrite !sort_values_desc_ok by (unfold has_col; rewrite E; reflexivity).
  eauto.
Qed.

(** The sections after the most returned products. *)
Lemma page_tail :
  has_col csv "to_wilaya_name" = true -> has_col csv "order_id" = true ->
  (_ <- hub_delays df ;;
   _ <- rec_rate df ;;
   _ <- risk_df df ;;
   _ <- orders_time df ;;
   _ <- valid_price df ;;
   _ <- missing_warnings df ;;
   _ <- time_kpis_2 df ;;
   _ <- time_intervals_2 df ;;
   _ <- bottlenecks_2 df ;;
   _ <- insights df ;;
   Ok tt)
  = match first_absent csv [ "stopdesk_name"; "from_wilaya_name" ] with
    | Some c => Err (KeyError c)
    | None => Ok tt
    end.
Proof.
  intros Hw Ho.
  pose proof hub_delays_cases as D.
  pose proof (bottlenecks_2_cases csv df H) as B.
  unfold first_absent in *. cbn [find] in *. rewrite Hw, Ho in B. cbn [negb] in B.
  destruct (has_col csv "stopdesk_name"); cbn [negb];
    [|rewrite D; reflexivity].
  destruct D as [? ->]. cbn [bind].
  destruct (rec_rate_ok Hw) as [? ->]. cbn [bind].
  destruct (risk_df_ok Hw Ho) as [? ->]. cbn [bind].
  destruct (orders_time_loaded _ _ H) as [_ ->]. cbn [bind].
  destruct valid_price_ok as [? ->]. cbn [bind].
  destruct missing_warnings_ok as [? ->]. cbn [bind].
  destruct time_kpis_2_ok as [? ->]. cbn [bind].
  destruct time_intervals_2_ok as [? ->]. cbn [bind].
  destruct (has_col csv "from_wilaya_name"); cbn [negb] in *;
    [|rewrite B; reflexivity].
  destruct B as (? & _ & ->). cbn [bind].
  destruct insights_ok as [? ->]. reflexivity.
Qed.

(** X20.  What ends a run of the page after the load of a file where
    every record has a status text: KeyError for the first of
    to_wilaya_name, order_id (the summary by region), stopdesk_name (the
    hubs) and from_wilaya_name (the second table of slow orders) that the
    file lacks; a file that has the four gives the whole page. *)
Theorem page_outcome :
  every_status_text csv = true ->
  page df
  = match first_absent csv page_columns with
    | Some c => Err (KeyError c)
    | None => Ok tt
    end.
Proof.
  intros Text.
  unfold page.
  destruct global_kpis_ok as [? ->]. cbn [bind].
  destruct time_kpis_ok as [? ->]. cbn [bind].
  destruct time_intervals_ok as [? ->]. cbn [bind].
  destruct bottlenecks_loaded as [? ->]. cbn [bind].
  destruct insights_ok as [l E]. rewrite E at 1. cbn [bind]. clear l E.
  destruct revenue_kpis_ok as [? ->]. cbn [bind].
  pose proof wilaya_stats_cases as W.
  pose proof page_tail as Rest.
  unfold page_columns, first_absent in *. cbn [find] in *.
  destruct (has_col csv "to_wilaya_name"); cbn [negb] in *;
    [|rewrite W; reflexivity].
  destruct (has_col csv "order_id"); cbn [negb] in *;
    [|rewrite W; reflexivity].
  specialize (Rest eq_refl eq_refl).
  destruct W as (stats & -> & Cs). cbn [bind].
  destruct (charts_ok stats Cs) as [[? ->] [? ->]]. cbn [bind].
  pose proof (top_returns_cases csv df H) as T.
  destruct (get_product_col df) as [c|].
  - destruct T as [_ T]. destruct (T Text) as (? & _ & ->). cbn [bind].
    exact Rest.
  - rewrite T. cbn [bind]. exact Rest.
Qed.

End Page.

(* ------------------------------------------------------------------------- *)
(** ** The keys of the charts *)

Fixpoint distinctb (l : list string) : bool :=
  match l with
  | [] => true
  | x :: l' => negb (existsb (String.eqb x) l') && distinctb l'
  end.

Lemma distinctb_NoDup (l : list string) : distinctb l = true -> NoDup l.
Proof.
  induction l as [|x l IH]; simpl; [constructor|].
  rewrite andb_true_iff, negb_true_iff. intros [Hx Hl].
  constructor; [|now apply IH].
  intros Hin. apply existsb_eqb_In in Hin. congruence.
Qed.

Lemma time_intervals_columns (df : DataFrame) (p : list element) :
  time_intervals df = Ok p ->
  forallb (has_col df)
    [ "processing_time_days"; "delivery_delay_days"; "commande_to_creation_days";
      "commande_to_expedition_days"; "commande_to_last_status_days" ] = true.
Proof.
  unfold time_intervals, time_cols. intros H.
  repeat lazymatch type of H with
         | context [col df ?c] =>
             let E := fresh "E" in
             destruct (col df c) eqn:E; [|discriminate H];
             apply has_col_true in E; cbn [bind] in H
         end.
  simpl. now rewrite E, E0, E1, E2, E3.
Qed.

(** X21.  The keys given to the charts of the page are pairwise distinct:
    those of the histograms of the two distributions sections, whatever
    columns turn out to have data, and the two fixed keys "orders_time" and
    "price_declared". *)
Theorem chart_keys_are_distinct (df : DataFrame) (first second : list element) :
  time_intervals df = Ok first ->
  time_intervals_2 df = Ok second ->
  NoDup (chart_keys first ++ chart_keys second ++ [ "orders_time"; "price_declared" ]).
Proof.
  intros H1 H2. pose proof (time_intervals_columns _ _ H1) as C.
  rewrite (time_intervals_eq df C) in H1. cbv zeta in H1. injection H1 as <-.
  simpl in C. rewrite !andb_true_iff in C. destruct C as (C1 & C2 & _).
  unfold time_intervals_2 in H2.
  rewrite (col_present _ _ C1), (col_present _ _ C2) in H2. cbn [bind] in H2.
  injection H2 as <-.
  repeat match goal with
         | |- context [is_empty ?s] => destruct (is_empty s)
         end;
    apply distinctb_NoDup; reflexivity.
Qed.

(* ------------------------------------------------------------------------- *)
(** ** The properties of the other sections on the example files *)

Module Runs.
Import Demo Sample.

Lemma load_csv_hubs : load_data (L := lib) csv_hubs = Ok loaded_hubs.
Proof. apply unwrap_ok, load_data_total; reflexivity. Qed.

Lemma load_csv_gap : load_data (L := lib) csv_gap = Ok loaded_gap.
Proof. apply unwrap_ok, load_data_total; reflexivity. Qed.

Lemma same_source_csv_hubs : same_source csv csv_hubs.
Proof.
  split.
  - intros c Hc. simpl in Hc.
    repeat (destruct Hc as [<- | Hc]; [reflexivity|]). destruct Hc.
  - repeat constructor; intros c Hc; simpl in Hc;
      repeat (destruct Hc as [<- | Hc]; [reflexivity|]); destruct Hc.
Qed.

(** [csv_hubs] is [csv] with four more columns: the columns [load_data]
    assigns are the same on both, and a run on [csv_hubs] that follows a
    run on [csv] in the same process gets the frame of [csv], which has no
    hub column. *)
Lemma load_depends_on_cells_and_store_witness :
  (same_source csv csv_hubs /\
   load_data (L := lib) csv = Ok loaded /\
   load_data (L := lib) csv_hubs = Ok loaded_hubs) /\
  has_col loaded "stopdesk_name" = false /\
  has_col loaded_hubs "stopdesk_name" = true /\
  (forall c, In c assigned_columns ->
     exists s, loaded.[c] = Ok s /\ loaded_hubs.[c] = Ok s) /\
  loaded.["processing_time_days"] = Ok [ VInt 2; VInt 0; VInt (-1); NaN ] /\
  (let first := load_data_cached (L := lib) csv None in
   let second := load_data_cached (L := lib) csv_hubs (snd first) in
   fst second = fst first).
Proof.
  destruct (load_depends_on_cells_and_store (L := lib) csv csv_hubs
              same_source_csv_hubs) as (A & B & _).
  rewrite Examples.load_csv, load_csv_hubs in A.
  split; [split; [exact same_source_csv_hubs|];
          split; [exact Examples.load_csv | exact load_csv_hubs]|].
  split; [reflexivity|]. split; [reflexivity|]. split; [exact A|].
  split; [reflexivity|]. exact (proj1 (B None)).
Defined.

(** The claim of C9 as the spec states it fails once the store holds a
    frame.  A first run finds the file as [csv_bad_dates] and stores its
    frame; the file is then replaced by [csv].  The next run of the same
    process loads [csv] and gets the two records of the stored frame, with
    no processing time; a fresh process loading the same [csv] gets its four
    records and their processing times. *)
Lemma load_depends_on_the_store :
  let first := load_data_cached (L := lib) csv_bad_dates None in
  let second := load_data_cached (L := lib) csv (snd first) in
  let fresh := load_data_cached (L := lib) csv None in
  (df <- fst second ;; df.["processing_time_days"]) = Ok [ NaN; NaN ] /\
  (df <- fst fresh ;; df.["processing_time_days"])
  = Ok [ VInt 2; VInt 0; VInt (-1); NaN ] /\
  (df <- fst second ;; df.["revenue"]) = Ok [ VInt 1500; VInt 900 ] /\
  (df <- fst fresh ;; df.["revenue"]) = Ok [ VInt 1500; VInt 900; VInt 400; VInt 0 ].
Proof.
  cbv zeta. split; [reflexivity|]. split; [reflexivity|]. split; reflexivity.
Qed.

(** [load_data] adds eleven columns to the ten of [csv], and the order ids
    are those of the file. *)
Lemma load_data_keeps_the_file_witness :
  (load_data (L := lib) csv = Ok loaded /\
   ~ In "order_id" assigned_columns /\
   nth_error (rows csv) 0 = Some (row_at csv 0) /\
   nth_error (rows loaded) 0 = Some (row_at loaded 0)) /\
  columns loaded
  = header ++ [ "date_commande"; "commande_to_creation_days";
                "commande_to_expedition_days"; "commande_to_last_status_days";
                "delivered"; "returned"; "delivery_delay_days";
                "processing_time_days"; "revenue"; "lost_revenue";
                "success_revenue" ] /\
  List.length (rows loaded) = 4 /\
  row_at loaded 0 "order_id" = VStr "A".
Proof.
  assert (N : ~ In "order_id" assigned_columns)
    by (simpl; intuition discriminate).
  pose proof (nth_error_row_at csv 0 eq_refl) as Hraw.
  pose proof (nth_error_row_at loaded 0 eq_refl) as Hrow.
  destruct (load_data_keeps_the_file (L := lib) csv loaded Examples.load_csv)
    as (C & Len & O).
  split; [split; [exact Examples.load_csv|]; split; [exact N|];
          split; [exact Hraw | exact Hrow]|].
  split; [rewrite C; reflexivity|]. split; [rewrite Len; reflexivity|].
  rewrite (O "order_id" 0 _ _ N Hraw Hrow). reflexivity.
Defined.

(** The second order of [csv_gap] has no status: neither flag is True and
    its 900 count neither as collected nor as lost; the third order, marked
    delivered and returned, counts its 400 on both sides. *)
Lemma revenue_of_unmarked_and_doubly_marked_witness :
  let gap := row_at loaded_gap 1 in
  let both := row_at loaded_gap 2 in
  (load_data (L := lib) csv_gap = Ok loaded_gap /\
   nth_error (rows csv_gap) 1 = Some (row_at csv_gap 1) /\
   nth_error (rows loaded_gap) 1 = Some gap /\
   nth_error (rows csv_gap) 2 = Some (row_at csv_gap 2) /\
   nth_error (rows loaded_gap) 2 = Some both /\
   is_str (row_at csv_gap 1 "last_status") = false /\
   both "delivered" = VBool true /\ both "returned" = VBool true) /\
  gap "revenue" = VInt 900 /\
  gap "delivered" <> VBool true /\ gap "returned" <> VBool true /\
  gap "success_revenue" = VInt 0 /\ gap "lost_revenue" = VInt 0 /\
  both "revenue" = VInt 400 /\
  both "success_revenue" = both "revenue" /\ both "lost_revenue" = both "revenue".
Proof.
  pose proof (nth_error_row_at csv_gap 1 eq_refl) as Hraw1.
  pose proof (nth_error_row_at loaded_gap 1 eq_refl) as Hrow1.
  pose proof (nth_error_row_at csv_gap 2 eq_refl) as Hraw2.
  pose proof (nth_error_row_at loaded_gap 2 eq_refl) as Hrow2.
  destruct (revenue_of_unmarked_and_doubly_marked (L := lib) csv_gap loaded_gap 1
              _ _ load_csv_gap Hraw1 Hrow1) as (A & _ & _).
  destruct (revenue_of_unmarked_and_doubly_marked (L := lib) csv_gap loaded_gap 2
              _ _ load_csv_gap Hraw2 Hrow2) as (_ & _ & B).
  destruct (A eq_refl) as (A1 & A2 & A3 & A4).
  destruct (B eq_refl eq_refl) as (B1 & B2).
  cbv zeta.
  split.
  { split; [exact load_csv_gap|]. split; [exact Hraw1|]. split; [exact Hrow1|].
    split; [exact Hraw2|]. split; [exact Hrow2|]. split; [reflexivity|].
    split; reflexivity. }
  split; [reflexivity|]. split; [exact A1|]. split; [exact A2|].
  split; [exact A3|]. split; [exact A4|]. split; [reflexivity|].
  split; [exact B1 | exact B2].
Defined.

(** A first run on a file without date columns fails and is not kept; the
    run on [csv] is kept, and the next run shows it although the file has
    become [csv_bad_dates], which has two orders. *)
Lemma first_load_is_kept_witness :
  (Forall (fun f => exists e, load_data (L := lib) f = Err e) [ csv_ids ] /\
   load_data (L := lib) csv = Ok loaded) /\
  List.length (rows loaded) = 4 /\
  List.length (rows csv_bad_dates) = 2 /\
  reruns (L := lib) ([ csv_ids ] ++ csv :: [ csv_bad_dates ]) None
  = [ Err (KeyError "date_creation"); Ok loaded; Ok loaded ].
Proof.
  assert (F : Forall (fun f => exists e, load_data (L := lib) f = Err e) [ csv_ids ]).
  { constructor; [|constructor]. eexists. reflexivity. }
  pose proof (first_load_is_kept (L := lib) [ csv_ids ] csv [ csv_bad_dates ] loaded
                F Examples.load_csv) as H.
  split; [split; [exact F | exact Examples.load_csv]|].
  split; [reflexivity|]. split; [reflexivity|]. exact H.
Defined.

(** In [csv_bad_dates] no dispatch date can be read: the panels of the
    processing and shipping times are warnings, the panel of the time from
    order to creation is a histogram of two values. *)
Lemma time_intervals_panels_witness :
  forallb (has_col loaded_bad_dates)
    [ "processing_time_days"; "delivery_delay_days"; "commande_to_creation_days";
      "commande_to_expedition_days"; "commande_to_last_status_days" ] = true /\
  time_intervals loaded_bad_dates
  = Ok [ st_write "**Processing Time (Creation → Expedition):**";
         st_warning "No valid data for Processing Time (Creation → Expedition).";
         st_write "**Shipping Time (Expedition → Last Status):**";
         st_warning "No valid data for Shipping Time (Expedition → Last Status).";
         st_write "**Cmd→Creation:**";
         st_histogram [ VInt 0; VInt 0 ] "commande_to_creation_days" "Cmd→Creation"
                      "hist_commande_to_creation_days_Cmd→Creation";
         st_write "**Cmd→Expedition:**";
         st_warning "No valid data for Cmd→Expedition.";
         st_write "**Cmd→Last Status:**";
         st_warning "No valid data for Cmd→Last Status." ].
Proof.
  split; [reflexivity|].
  rewrite (time_intervals_panels loaded_bad_dates eq_refl). reflexivity.
Defined.

(** [csv] has no column for the sender's region: the second table of slow
    orders raises on it. *)
Lemma second_table_needs_its_columns_witness :
  load_data (L := lib) csv = Ok loaded /\
  first_absent csv [ "order_id"; "from_wilaya_name"; "to_wilaya_name" ]
  = Some "from_wilaya_name" /\
  bottlenecks_2 (L := lib) loaded = Err (KeyError "from_wilaya_name").
Proof.
  split; [exact Examples.load_csv|]. split; [reflexivity|].
  exact (second_table_needs_its_columns (L := lib) csv loaded Examples.load_csv).
Defined.

(** The fourth order of [csv] has no delay: it closes the table of the
    slowest orders, after the three that have one. *)
Lemma slow_orders_missing_delays_last_witness :
  let key (r : Row) := r (slow_key loaded) in
  let keys := map key (rows loaded) in
  (has_col loaded (slow_key loaded) = true /\
   argsort_ok (sort_input keys) (aquicksort (sort_input keys)) = true) /\
  keys = [ VInt 3; VInt 3; VInt 5; NaN ] /\
  (out <- slow_orders (L := lib) loaded ;;
   Ok (map (fun r => (r "order_id", key r)) (rows out)))
  = Ok [ (VStr "C", VInt 5); (VStr "A", VInt 3); (VStr "B", VInt 3);
         (VStr "D", NaN) ] /\
  exists dated,
    Permutation dated (filter (fun r => notna (key r)) (rows loaded)) /\
    slow_orders (L := lib) loaded
    = Ok {| columns := columns loaded;
            rows := firstn 10 (dated ++ filter (fun r => isna (key r)) (rows loaded)) |}.
Proof.
  destruct (slow_orders_missing_delays_last (L := lib) loaded eq_refl eq_refl)
    as (dated & P & _ & E & _).
  cbv zeta. split; [split; reflexivity|]. split; [reflexivity|].
  split; [reflexivity|]. exists dated. split; [exact P | exact E].
Defined.


(** The two returned orders of [csv] are vases. *)
Lemma returned_counts_add_up_witness :
  (get_product_col (L := lib) loaded = Some "Nom de l’élément" /\
   returns_by_product (L := lib) loaded = Ok (Some [ (VStr "vase", VInt 2) ])) /\
  NoDup (map fst [ (VStr "vase", VInt 2) ]) /\
  series_total [ (VStr "vase", VInt 2) ] = 2%Z /\
  List.length
    (filter (fun r => is_true (r "returned") && notna (r "Nom de l’élément"))
            (rows loaded)) = 2.
Proof.
  destruct (returned_counts_add_up (L := lib) loaded "Nom de l’élément"
              [ (VStr "vase", VInt 2) ] eq_refl eq_refl) as (N & _ & T).
  split; [split; reflexivity|]. split; [exact N|]. split; [reflexivity|].
  apply Nat2Z.inj. rewrite <- T. reflexivity.
Defined.

(** Of the hubs of [csv_hubs], "Hub Est" has the higher mean delay; the
    order without a hub is in no group. *)
Lemma hub_delays_by_hub_witness :
  let hubs := group_keys (map (fun r => r "stopdesk_name") (rows loaded_hubs)) in
  let avg k :=
    mean_v (L := lib)
      (map (fun r => r "delivery_delay_days") (group loaded_hubs "stopdesk_name" k)) in
  (has_col loaded_hubs "stopdesk_name" = true /\
   has_col loaded_hubs "delivery_delay_days" = true /\
   argsort_ok (sort_input (map avg hubs)) (aquicksort (sort_input (map avg hubs)))
   = true /\
   has_col loaded "stopdesk_name" = false) /\
  hubs = [ VStr "Hub Est"; VStr "Hub Ouest" ] /\
  map avg hubs = [ VNum (F64.of_Z 4); VNum (F64.of_Z 3) ] /\
  hub_delays (L := lib) loaded = Err (KeyError "stopdesk_name") /\
  exists out order,
    hub_delays (L := lib) loaded_hubs = Ok out /\
    Permutation order hubs /\
    map (fun r => (r "stopdesk_name", r "avg_delay")) (rows out)
    = map (fun k => (k, avg k)) order /\
    sorted_desc (map avg order).
Proof.
  destruct (hub_delays_by_hub (L := lib) loaded_hubs) as [_ A].
  destruct (hub_delays_by_hub (L := lib) loaded) as [B _].
  destruct (A eq_refl eq_refl eq_refl) as (out & order & H1 & H2 & H3 & H4).
  cbv zeta. split.
  { split; [reflexivity|]. split; [reflexivity|]. split; reflexivity. }
  split; [reflexivity|]. split; [reflexivity|]. split; [exact (B eq_refl)|].
  exists out, order. split; [exact H1|]. split; [exact H2|].
  split; [exact H3 | exact H4].
Defined.

(** Every order for Alger in [csv] is marked collected, one of the two for
    Oran is not. *)
Lemma rec_rate_by_region_witness :
  let regions := group_keys (map (fun r => r "to_wilaya_name") (rows loaded)) in
  let rate k :=
    mean_v (L := lib)
      (map (fun r => r "has_recouvrement") (group loaded "to_wilaya_name" k)) in
  (has_col loaded "to_wilaya_name" = true /\
   has_col loaded "has_recouvrement" = true /\
   argsort_ok (sort_input (map rate regions))
              (aquicksort (sort_input (map rate regions))) = true) /\
  regions = [ VStr "Alger"; VStr "Oran" ] /\
  exists order,
    rec_rate (L := lib) loaded = Ok (map (fun k => (k, rate k)) order) /\
    Permutation order regions /\
    sorted_desc (map rate order).
Proof.
  destruct (rec_rate_by_region (L := lib) loaded eq_refl eq_refl eq_refl)
    as (order & H1 & H2 & H3).
  cbv zeta. split.
  { split; [reflexivity|]. split; reflexivity. }
  split; [reflexivity|].
  exists order. split; [exact H1|]. split; [exact H2 | exact H3].
Defined.

(** The four orders of [csv] were created on four days. *)
Lemma orders_time_by_day_witness :
  load_data (L := lib) csv = Ok loaded /\
  orders_time loaded
  = Ok [ (VInt 19723, VInt 1); (VInt 19724, VInt 1); (VInt 19727, VInt 1);
         (VInt 19729, VInt 1) ] /\
  exists points,
    orders_time loaded = Ok points /\
    NoDup (map fst points) /\
    sorted_b key_leb (map fst points) = true /\
    series_total points
    = Z.of_nat (List.length (filter (fun r => notna (r "date_creation")) (rows loaded))).
Proof.
  destruct (orders_time_by_day (L := lib) csv loaded Examples.load_csv)
    as (points & H1 & H2 & H3 & _ & H5).
  split; [exact Examples.load_csv|]. split; [reflexivity|].
  exists points. split; [exact H1|]. split; [exact H2|]. split; [exact H3 | exact H5].
Defined.

Lemma stats_of_csv_regions :
  wilaya_stats (L := lib) loaded_regions = Ok stats_regions.
Proof.
  apply unwrap_ok. unfold wilaya_stats.
  destruct (groupby_agg_total loaded_regions "to_wilaya_name"
              [ mkAgg "orders" "order_id" count;
                mkAgg "revenue" "success_revenue" (sum_v (L := lib));
                mkAgg "return_rate" "returned" (mean_v (L := lib)) ]
              eq_refl eq_refl) as [g ->].
  cbn [bind]. eauto.
Qed.

Lemma risk_of_csv_regions : risk_df (L := lib) loaded_regions = Ok risk_regions.
Proof.
  apply unwrap_ok. unfold risk_df. rewrite Examples.groups_of_regions. cbn [bind].
  rewrite sort_values_desc_ok by reflexivity. eauto.
Qed.

(** Oran heads the table of risky regions of [csv_regions] with 11 orders;
    the summary by region has the same figures for it. *)
Lemma regional_reports_agree_witness :
  let row := row_at risk_regions 0 in
  (wilaya_stats (L := lib) loaded_regions = Ok stats_regions /\
   risk_df (L := lib) loaded_regions = Ok risk_regions /\
   In row (rows risk_regions)) /\
  row "to_wilaya_name" = VStr "Oran" /\ row "orders" = VInt 11 /\
  exists row',
    In row' (rows stats_regions) /\
    row' "to_wilaya_name" = VStr "Oran" /\
    row' "orders" = VInt 11 /\
    row' "return_rate" = row "return_rate".
Proof.
  pose proof (nth_error_In _ _ (nth_error_row_at risk_regions 0 eq_refl)) as Hin.
  destruct (regional_reports_agree (L := lib) loaded_regions stats_regions risk_regions
              stats_of_csv_regions risk_of_csv_regions _ Hin)
    as ((row' & H1 & H2 & H3 & H4) & _).
  assert (E1 : row_at risk_regions 0 "to_wilaya_name" = VStr "Oran") by reflexivity.
  assert (E2 : row_at risk_regions 0 "orders" = VInt 11) by reflexivity.
  cbv zeta. split.
  { split; [exact stats_of_csv_regions|]. split; [exact risk_of_csv_regions | exact Hin]. }
  split; [exact E1|]. split; [exact E2|].
  exists row'. split; [exact H1|].
  split; [exact (eq_trans H2 E1)|]. split; [exact (eq_trans H3 E2) | exact H4].
Defined.

(** The bars of [csv_regions]: Alger (12 orders), Oran (11), Blida (3). *)
Lemma charts_show_every_region_witness :
  let counts := map (fun r => r "orders") (rows stats_regions) in
  let sums := map (fun r => r "revenue") (rows stats_regions) in
  (wilaya_stats (L := lib) loaded_regions = Ok stats_regions /\
   argsort_ok (sort_input counts) (aquicksort (sort_input counts)) = true /\
   argsort_ok (sort_input sums) (aquicksort (sort_input sums)) = true) /\
  (bars <- orders_per_wilaya (L := lib) stats_regions ;;
   Ok (map (fun r => (r "to_wilaya_name", r "orders")) (rows bars)))
  = Ok [ (VStr "Alger", VInt 12); (VStr "Oran", VInt 11); (VStr "Blida", VInt 3) ] /\
  (exists bars,
     orders_per_wilaya (L := lib) stats_regions = Ok bars /\
     Permutation (rows bars) (rows stats_regions) /\
     sorted_desc (map (fun r => r "orders") (rows bars))) /\
  (exists bars,
     revenue_per_wilaya (L := lib) stats_regions = Ok bars /\
     Permutation (rows bars) (rows stats_regions) /\
     sorted_desc (map (fun r => r "revenue") (rows bars))).
Proof.
  destruct (charts_show_every_region (L := lib) loaded_regions stats_regions
              stats_of_csv_regions) as [A B].
  destruct (A eq_refl) as (bars & A1 & A2 & _ & A4).
  destruct (B eq_refl) as (bars' & B1 & B2 & _ & B4).
  cbv zeta. split.
  { split; [exact stats_of_csv_regions|]. split; reflexivity. }
  split; [reflexivity|]. split.
  - exists bars. split; [exact A1|]. split; [exact A2 | exact A4].
  - exists bars'. split; [exact B1|]. split; [exact B2 | exact B4].
Defined.

(** The header of [csv] alone: the page has no chart to show. *)
Lemma page_of_an_empty_file_witness :
  (rows csv_empty = [] /\
   forallb (has_col csv_empty) required_columns = true) /\
  exists df,
    load_data (L := lib) csv_empty = Ok df /\
    rows df = [] /\
    insights (L := lib) df = Ok [ no_bottleneck ] /\
    slow_orders (L := lib) df = Ok {| columns := columns df; rows := [] |} /\
    orders_time df = Ok [].
Proof.
  destruct (page_of_an_empty_file (L := lib) csv_empty eq_refl eq_refl)
    as (df & H1 & H2 & H3 & _ & H5 & H6).
  split; [split; reflexivity|].
  exists df. split; [exact H1|]. split; [exact H2|]. split; [exact H3|].
  split; [exact H5 | exact H6].
Defined.

(** The pages of two files where every order has a status: [csv_hubs] has
    every column the page reads; [csv] has no hub column. *)
Lemma page_outcome_witness :
  (load_data (L := lib) csv_hubs = Ok loaded_hubs /\
   every_status_text csv_hubs = true /\
   load_data (L := lib) csv = Ok loaded /\
   every_status_text csv = true) /\
  page (L := lib) loaded_hubs = Ok tt /\
  page (L := lib) loaded = Err (KeyError "stopdesk_name").
Proof.
  split; [split; [exact load_csv_hubs|]; split; [reflexivity|];
          split; [exact Examples.load_csv | reflexivity]|].
  split; [exact (page_outcome (L := lib) csv_hubs loaded_hubs load_csv_hubs eq_refl)|].
  exact (page_outcome (L := lib) csv loaded Examples.load_csv eq_refl).
Defined.

(** The seven histograms of [csv] and the two other keyed charts. *)
Lemma chart_keys_are_distinct_witness :
  (time_intervals loaded = Ok panels /\ time_intervals_2 loaded = Ok panels_2) /\
  chart_keys panels_2 = [ "hist_processing_time_days"; "hist_delivery_delay_days" ] /\
  List.length (chart_keys panels) = 5 /\
  NoDup (chart_keys panels ++ chart_keys panels_2
         ++ [ "orders_time"; "price_declared" ]).
Proof.
  assert (P1 : time_intervals loaded = Ok panels).
  { apply unwrap_ok. apply (time_intervals_ok (L := lib) csv loaded Examples.load_csv). }
  assert (P2 : time_intervals_2 loaded = Ok panels_2).
  { apply unwrap_ok.
    apply (time_intervals_2_ok (L := lib) csv loaded Examples.load_csv). }
  split; [split; [exact P1 | exact P2]|].
  split; [reflexivity|]. split; [reflexivity|].
  exact (chart_keys_are_distinct loaded panels panels_2 P1 P2).
Defined.

End Runs.
